(** * Payment-Analytics-ETL: the reconciliation engine, embedded and verified

    A shallow embedding of
    - [query_generator.py]: the SQL text that [generate_payment_analysis_query]
      emits, the meaning of the stages of the view it defines, and the
      field validation of the final SELECT;
    - [data_cleaner.py]: the column cleaners, the schema-driven transformer,
      schema conformance and the batch loop;
    - [generate_config.py]: the type inference of the schema registry.

    Conventions.  SQL NULL, Python [None], [pd.NA], [NaN] and [NaT] are
    [None] of an option type (or a constructor of their own where the code
    tells them apart).  Strings are byte strings; bytes above 127 are opaque.
    A NUMERIC(18,2) amount is the integer number of hundredths, a DATE is a
    day number.  Library code that is not part of the repository (pandas'
    parsers, the file system) is a parameter of the definitions that call
    it. *)

From Stdlib Require Import String Ascii List ZArith Bool Lia Arith Permutation.
From Stdlib Require Import DecimalString.
Import ListNotations.
Open Scope string_scope.

(* ===================================================================== *)
(** * Part I. Definitions                                                 *)
(* ===================================================================== *)

(** ** Strings as Python and SQL use them *)

Module Str.

Definition is_upper (c : ascii) : bool :=
  ((65 <=? nat_of_ascii c) && (nat_of_ascii c <=? 90))%nat.
Definition is_lower (c : ascii) : bool :=
  ((97 <=? nat_of_ascii c) && (nat_of_ascii c <=? 122))%nat.
Definition is_digit (c : ascii) : bool :=
  ((48 <=? nat_of_ascii c) && (nat_of_ascii c <=? 57))%nat.

Definition to_upper (c : ascii) : ascii :=
  if is_lower c then ascii_of_nat (nat_of_ascii c - 32) else c.
Definition to_lower (c : ascii) : ascii :=
  if is_upper c then ascii_of_nat (nat_of_ascii c + 32) else c.

Fixpoint map (f : ascii -> ascii) (s : string) : string :=
  match s with
  | EmptyString => EmptyString
  | String c s' => String (f c) (map f s')
  end.

(** [str.upper()], [UPPER(...)] and [str.lower()] on the ASCII letters. *)
Definition upper : string -> string := map to_upper.
Definition lower : string -> string := map to_lower.

Fixpoint filter (p : ascii -> bool) (s : string) : string :=
  match s with
  | EmptyString => EmptyString
  | String c s' => if p c then String c (filter p s') else filter p s'
  end.

Fixpoint existsb (p : ascii -> bool) (s : string) : bool :=
  match s with
  | EmptyString => false
  | String c s' => p c || existsb p s'
  end.

(** [sub in s]: [sub] occurs in [s] as a contiguous run. *)
Fixpoint contains (sub s : string) : bool :=
  String.prefix sub s ||
  match s with
  | EmptyString => false
  | String _ s' => contains sub s'
  end.

Fixpoint drop (n : nat) (s : string) : string :=
  match n, s with
  | O, _ => s
  | S k, String _ s' => drop k s'
  | S _, EmptyString => EmptyString
  end.

Fixpoint rev_onto (s acc : string) : string :=
  match s with
  | EmptyString => acc
  | String c s' => rev_onto s' (String c acc)
  end.
Definition rev (s : string) : string := rev_onto s EmptyString.

Fixpoint lstrip (p : ascii -> bool) (s : string) : string :=
  match s with
  | EmptyString => EmptyString
  | String c s' => if p c then lstrip p s' else s
  end.
Definition rstrip (p : ascii -> bool) (s : string) : string :=
  rev (lstrip p (rev s)).
Definition strip_by (p : ascii -> bool) (s : string) : string :=
  rstrip p (lstrip p s).

(** The characters [str.strip()] and the regex class [\s] take for white
    space, among the ASCII ones: TAB, LF, VT, FF, CR, FS, GS, RS, US and
    the space. *)
Definition is_space (c : ascii) : bool :=
  let n := nat_of_ascii c in
  (((9 <=? n) && (n <=? 13)) || ((28 <=? n) && (n <=? 32)))%nat.

Definition strip : string -> string := strip_by is_space.

(** [s.replace(old, new)] for a non-empty [old]: leftmost occurrences,
    not overlapping.  [skip] counts the characters of an occurrence that
    are still to be passed over. *)
Fixpoint replace_from (old new : string) (skip : nat) (s : string) : string :=
  match s with
  | EmptyString => EmptyString
  | String c s' =>
      match skip with
      | S k => replace_from old new k s'
      | O =>
          if String.prefix old s
          then new ++ replace_from old new (String.length old - 1) s'
          else String c (replace_from old new O s')
      end
  end.
Definition replace (old new s : string) : string :=
  match old with
  | EmptyString => s
  | _ => replace_from old new O s
  end.

Definition mem (x : string) (l : list string) : bool :=
  List.existsb (String.eqb x) l.

(** [sep.join(l)] *)
Definition join (sep : string) (l : list string) : string := String.concat sep l.

Definition nl : string := String (ascii_of_nat 10) EmptyString.
Definition dquote : string := String (ascii_of_nat 34) EmptyString.

End Str.

(** ** SQL values and three-valued logic *)

Module Sql.

(** A truth value of SQL: [None] is UNKNOWN (NULL). *)
Definition tv := option bool.

Definition TRUE : tv := Some true.
Definition FALSE : tv := Some false.

Definition and3 (a b : tv) : tv :=
  match a, b with
  | Some false, _ => Some false
  | _, Some false => Some false
  | Some true, Some true => Some true
  | _, _ => None
  end.

Definition or3 (a b : tv) : tv :=
  match a, b with
  | Some true, _ => Some true
  | _, Some true => Some true
  | Some false, Some false => Some false
  | _, _ => None
  end.

Definition not3 (a : tv) : tv := option_map negb a.

(** A WHERE clause, a JOIN ... ON and a CASE WHEN keep or take a row only
    when the condition is TRUE. *)
Definition holds (a : tv) : bool :=
  match a with Some true => true | _ => false end.

Definition is_not_null {A : Type} (a : option A) : tv :=
  match a with Some _ => Some true | None => Some false end.

Definition eq_str (a b : option string) : tv :=
  match a, b with
  | Some x, Some y => Some (String.eqb x y)
  | _, _ => None
  end.

Definition neq_str (a b : option string) : tv := not3 (eq_str a b).

Definition eq_Z (a b : option Z) : tv :=
  match a, b with
  | Some x, Some y => Some (Z.eqb x y)
  | _, _ => None
  end.

Definition UPPER (a : option string) : option string := option_map Str.upper a.

(** [x LIKE '%pat%'] for a pattern without wildcards of its own. *)
Definition like_contains (a : option string) (pat : string) : tv :=
  option_map (Str.contains pat) a.

(** [x IN (v1, ..., vn)] over non-null literals. *)
Definition in_strs (a : option string) (l : list string) : tv :=
  option_map (fun x => Str.mem x l) a.

(** [a || b]: NULL when either side is. *)
Definition concat (a b : option string) : option string :=
  match a, b with
  | Some x, Some y => Some (x ++ y)
  | _, _ => None
  end.

(** [ABS(a - b) <= tol] on NUMERIC(18,2) values, in hundredths. *)
Definition abs_diff_le (a b : option Z) (tol : Z) : tv :=
  match a, b with
  | Some x, Some y => Some (Z.abs (x - y) <=? tol)%Z
  | _, _ => None
  end.

(** [x BETWEEN lo AND hi] *)
Definition between (a : option Z) (lo hi : Z) : tv :=
  option_map (fun x => (lo <=? x) && (x <=? hi))%Z a.

(** The aggregate MAX: NULL inputs are skipped, no input gives NULL. *)
Definition max_opt {A : Type} (leb : A -> A -> bool) (a b : option A) : option A :=
  match a, b with
  | Some x, Some y => Some (if leb x y then y else x)
  | Some x, None => Some x
  | None, _ => b
  end.
Definition MAX {A : Type} (leb : A -> A -> bool) (l : list (option A)) : option A :=
  fold_right (max_opt leb) None l.

End Sql.

(** ** The tables the view reads

    Only the columns that a join, a flag, a window or the bank match reads
    are fields here; the columns that [gateway_analysis] merely casts and
    renames (portal, metabase and gateway-specific context) take no part in
    any stage and are left out. *)

(** A row of [checkout_v1], [checkout_v2], [payfort] or [tamara], with the
    columns of all four. *)
Module Src.
Record row := {
  order_id : option Z;
  payment_online_transaction_id : option string;
  status : option string;
  transaction_amount : option Z;
  txn_amount : option Z;
  transaction_date : option Z;
  action_date_utc_1 : option Z;
  txn_created_at_gmt_03_00 : option Z;
  authorization_code : option string;
  rrn : option string;
  tamara_txn_reference : option string;
  payment_method : option string;
  payment_method_name : option string;
  response_code : option string;
  response_description : option string;
  txn_type : option string
}.
End Src.

Module Metabase.
Record row := {
  gateway_order_id : option Z;
  gateway_transaction_id : option string;
  portal_order_id : option Z
}.
End Metabase.

Module Portal.
Record row := {
  order_id : option Z;
  transaction_date : option Z
}.
End Portal.

Module Bank.
Record row := {
  authorization_code : option string;
  rrn : option string;
  transaction_amount : option Z;
  transaction_date : option Z
}.
(** The bank side of a LEFT JOIN row that found no match. *)
Definition null_row : row :=
  {| authorization_code := None; rrn := None;
     transaction_amount := None; transaction_date := None |}.
End Bank.

Record database := {
  checkout_v1 : list Src.row;
  checkout_v2 : list Src.row;
  payfort : list Src.row;
  tamara : list Src.row;
  metabase : list Metabase.row;
  portal : list Portal.row;
  bank : list Bank.row
}.

(** ** Stage 1: [gateway_analysis] *)

(** A row of the [gateway_analysis] CTE. *)
Module GA.
Record row := {
  gateway_source : string;
  gateway_order_id : option Z;
  gateway_transaction_id : option string;
  amount : option Z;
  status : option string;
  transaction_date : option Z;
  authorization_code : option string;
  rrn : option string;
  payment_method : option string;
  response_code : option string;
  response_description : option string;
  is_auth : Sql.tv;
  is_capture : Sql.tv;
  is_refund : Sql.tv;
  is_void : Sql.tv
}.
End GA.

(** An entry of [gateways_config]: the expressions that fill the template
    of one UNION ALL branch. *)
Record gateway_config := {
  gateway_source_val : string;
  amount_col : Src.row -> option Z;
  transaction_date_col : Src.row -> option Z;
  auth_code_col : Src.row -> option string;
  rrn_col : Src.row -> option string;
  payment_method_col : Src.row -> option string;
  response_code_col : Src.row -> option string;
  response_description_col : Src.row -> option string;
  is_auth_expr : Src.row -> Sql.tv;
  is_capture_expr : Src.row -> Sql.tv;
  is_refund_expr : Src.row -> Sql.tv;
  is_void_expr : Src.row -> Sql.tv;
  join_m_condition : Src.row -> Metabase.row -> Sql.tv
}.

Module GatewaysConfig.
Import Sql.

(** [UPPER(g.status) LIKE '%pat%'] *)
Definition status_like (g : Src.row) (pat : string) : tv :=
  like_contains (UPPER (Src.status g)) pat.

(** [c.order_id = m.gateway_order_id AND
     c.payment_online_transaction_id = m.gateway_transaction_id] *)
Definition join_order_and_txn (g : Src.row) (m : Metabase.row) : tv :=
  and3 (eq_Z (Src.order_id g) (Metabase.gateway_order_id m))
       (eq_str (Src.payment_online_transaction_id g)
               (Metabase.gateway_transaction_id m)).

Definition checkout_v1 : gateway_config := {|
  gateway_source_val := "checkout_v1";
  amount_col := Src.transaction_amount;
  transaction_date_col := Src.transaction_date;
  auth_code_col := Src.authorization_code;
  rrn_col := Src.rrn;
  payment_method_col := Src.payment_method;
  response_code_col := Src.response_code;
  response_description_col := Src.response_description;
  is_auth_expr := fun g =>
    or3 (status_like g "AUTHORISATION") (status_like g "AUTHORIZATION");
  is_capture_expr := fun g => status_like g "CAPTURE";
  is_refund_expr := fun g => status_like g "REFUND";
  is_void_expr := fun g =>
    or3 (status_like g "VOID") (eq_str (UPPER (Src.status g)) (Some "CANCEL"));
  join_m_condition := join_order_and_txn
|}.

Definition checkout_v2 : gateway_config := {|
  gateway_source_val := "checkout_v2";
  amount_col := Src.transaction_amount;
  transaction_date_col := Src.action_date_utc_1;
  auth_code_col := Src.authorization_code;
  rrn_col := Src.rrn;
  payment_method_col := Src.payment_method_name;
  response_code_col := Src.response_code;
  response_description_col := Src.response_description;
  is_auth_expr := fun g =>
    or3 (status_like g "AUTHORISATION") (status_like g "AUTHORIZATION");
  is_capture_expr := fun g => status_like g "CAPTURE";
  is_refund_expr := fun g => status_like g "REFUND";
  is_void_expr := fun g =>
    or3 (status_like g "VOID") (eq_str (UPPER (Src.status g)) (Some "CANCEL"));
  join_m_condition := join_order_and_txn
|}.

Definition payfort : gateway_config := {|
  gateway_source_val := "payfort";
  amount_col := Src.transaction_amount;
  transaction_date_col := Src.transaction_date;
  auth_code_col := Src.authorization_code;
  rrn_col := Src.rrn;
  payment_method_col := Src.payment_method;
  response_code_col := fun _ => Some EmptyString;
  response_description_col := fun _ => Some EmptyString;
  is_auth_expr := fun g => status_like g "AUTHORIZATION";
  is_capture_expr := fun g => status_like g "CAPTURE";
  is_refund_expr := fun g => status_like g "REFUND";
  is_void_expr := fun g =>
    or3 (status_like g "VOID") (eq_str (UPPER (Src.status g)) (Some "CANCEL"));
  join_m_condition := join_order_and_txn
|}.

Definition tamara : gateway_config := {|
  gateway_source_val := "tamara";
  amount_col := Src.txn_amount;
  transaction_date_col := Src.txn_created_at_gmt_03_00;
  auth_code_col := fun _ => Some EmptyString;
  rrn_col := Src.tamara_txn_reference;
  payment_method_col := Src.payment_method;
  response_code_col := fun _ => Some EmptyString;
  response_description_col := fun _ => Some EmptyString;
  is_auth_expr := fun g => eq_str (Src.txn_type g) (Some "AUTHORIZE");
  is_capture_expr := fun _ => FALSE;
  is_refund_expr := fun g => eq_str (Src.txn_type g) (Some "REFUND");
  is_void_expr := fun g => eq_str (Src.txn_type g) (Some "CANCEL");
  join_m_condition := fun g m =>
    eq_str (Src.payment_online_transaction_id g)
           (Metabase.gateway_transaction_id m)
|}.
End GatewaysConfig.

(** The SELECT list of [gateway_select_template] for one joined row. *)
Definition gateway_select (cfg : gateway_config) (g : Src.row) : GA.row := {|
  GA.gateway_source := gateway_source_val cfg;
  GA.gateway_order_id := Src.order_id g;
  GA.gateway_transaction_id := Src.payment_online_transaction_id g;
  GA.amount := amount_col cfg g;
  GA.status := Src.status g;
  GA.transaction_date := transaction_date_col cfg g;
  GA.authorization_code := auth_code_col cfg g;
  GA.rrn := rrn_col cfg g;
  GA.payment_method := payment_method_col cfg g;
  GA.response_code := response_code_col cfg g;
  GA.response_description := response_description_col cfg g;
  GA.is_auth := is_auth_expr cfg g;
  GA.is_capture := is_capture_expr cfg g;
  GA.is_refund := is_refund_expr cfg g;
  GA.is_void := is_void_expr cfg g
|}.

(** [date_filter_clause]: empty, or
    [WHERE p.transaction_date::DATE BETWEEN start AND end]. *)
Definition date_filter_here (range : option (Z * Z)) (p : Portal.row) : bool :=
  match range with
  | None => true
  | Some (lo, hi) => Sql.holds (Sql.between (Portal.transaction_date p) lo hi)
  end.

(** One branch: [FROM table g JOIN metabase m ON ... JOIN portal p ON
    m.portal_order_id = p.order_id], then the optional WHERE. *)
Definition gateway_section (cfg : gateway_config) (range : option (Z * Z))
    (tbl : list Src.row) (db : database) : list GA.row :=
  flat_map (fun g =>
    flat_map (fun m =>
      if Sql.holds (join_m_condition cfg g m) then
        flat_map (fun p =>
          if Sql.holds (Sql.eq_Z (Metabase.portal_order_id m) (Portal.order_id p))
             && date_filter_here range p
          then [gateway_select cfg g] else [])
          (portal db)
      else [])
      (metabase db))
    tbl.

(** The four branches in [gateway_names_ordered], under UNION ALL. *)
Definition gateway_analysis (range : option (Z * Z)) (db : database) : list GA.row :=
  gateway_section GatewaysConfig.checkout_v1 range (checkout_v1 db) db ++
  gateway_section GatewaysConfig.checkout_v2 range (checkout_v2 db) db ++
  gateway_section GatewaysConfig.payfort range (payfort db) db ++
  gateway_section GatewaysConfig.tamara range (tamara db) db.

(** ** Stage 2: [ranked_transactions] *)

Definition opt_eqb {A : Type} (eqb : A -> A -> bool) (a b : option A) : bool :=
  match a, b with
  | Some x, Some y => eqb x y
  | None, None => true
  | _, _ => false
  end.

(** Two rows fall in the same window partition: PARTITION BY
    [gateway_order_id, gateway_transaction_id] puts NULL keys together. *)
Definition same_group (a b : GA.row) : bool :=
  opt_eqb Z.eqb (GA.gateway_order_id a) (GA.gateway_order_id b) &&
  opt_eqb String.eqb (GA.gateway_transaction_id a) (GA.gateway_transaction_id b).

Module RT.
Record row := {
  ga : GA.row;
  has_auth_in_group : option Z;
  has_capture_in_group : option Z;
  auth_rrn_in_group : option string;
  auth_authorization_code_in_group : option string
}.
End RT.

(** [CASE WHEN flag THEN 1 ELSE 0 END] *)
Definition flag_to_int (flag : Sql.tv) : option Z :=
  Some (if Sql.holds flag then 1 else 0)%Z.

(** [CASE WHEN flag THEN x END]: NULL without an ELSE. *)
Definition case_when {A : Type} (flag : Sql.tv) (x : option A) : option A :=
  if Sql.holds flag then x else None.

(** The four window aggregates of a row [r], over the rows [part] of its
    partition.  MAX over VARCHAR is taken in byte order. *)
Definition window (part : list GA.row) (r : GA.row) : RT.row :=
  {| RT.ga := r;
     RT.has_auth_in_group :=
       Sql.MAX Z.leb (map (fun x => flag_to_int (GA.is_auth x)) part);
     RT.has_capture_in_group :=
       Sql.MAX Z.leb (map (fun x => flag_to_int (GA.is_capture x)) part);
     RT.auth_rrn_in_group :=
       Sql.MAX String.leb (map (fun x => case_when (GA.is_auth x) (GA.rrn x)) part);
     RT.auth_authorization_code_in_group :=
       Sql.MAX String.leb
         (map (fun x => case_when (GA.is_auth x) (GA.authorization_code x)) part)
  |}.

Definition rank_row (all : list GA.row) (r : GA.row) : RT.row :=
  window (filter (same_group r) all) r.

Definition ranked_transactions (ga : list GA.row) : list RT.row :=
  map (rank_row ga) ga.

(** ** Stage 3: [transaction_with_analysis] *)

Module TA.
Record row := {
  rt : RT.row;
  final_rrn : option string;
  final_authorization_code : option string;
  transaction_analysis : option string;
  transaction_outcome : option string
}.
End TA.

Module Analysis.
Import Sql.

(** The columns of [rt.*] that come from [gateway_analysis]. *)
Definition is_auth (r : RT.row) := GA.is_auth (RT.ga r).
Definition is_capture (r : RT.row) := GA.is_capture (RT.ga r).

(** [rt.is_capture AND rt.has_auth_in_group = 1 AND rt.has_capture_in_group = 1] *)
Definition capture_with_auth (r : RT.row) : tv :=
  and3 (and3 (is_capture r) (eq_Z (RT.has_auth_in_group r) (Some 1%Z)))
       (eq_Z (RT.has_capture_in_group r) (Some 1%Z)).

(** [rt.is_auth AND rt.has_auth_in_group = 1 AND rt.has_capture_in_group = 1] *)
Definition auth_with_capture (r : RT.row) : tv :=
  and3 (and3 (is_auth r) (eq_Z (RT.has_auth_in_group r) (Some 1%Z)))
       (eq_Z (RT.has_capture_in_group r) (Some 1%Z)).

Definition final_rrn (r : RT.row) : option string :=
  if holds (capture_with_auth r) then RT.auth_rrn_in_group r
  else GA.rrn (RT.ga r).

Definition final_authorization_code (r : RT.row) : option string :=
  if holds (capture_with_auth r) then RT.auth_authorization_code_in_group r
  else GA.authorization_code (RT.ga r).

(** [response_code = '10000'] and [UPPER(status) = v] *)
Definition code_10000 (g : GA.row) : tv := eq_str (GA.response_code g) (Some "10000").
Definition status_is (g : GA.row) (v : string) : tv :=
  eq_str (UPPER (GA.status g)) (Some v).
Definition refund_ok (g : GA.row) : tv :=
  or3 (code_10000 g)
      (in_strs (UPPER (GA.status g)) ["FULLY_REFUNDED"; "PARTIALLY_REFUNDED"]).
Definition void_ok (g : GA.row) : tv := or3 (code_10000 g) (status_is g "CANCELED").
Definition approved (g : GA.row) : tv := or3 (code_10000 g) (status_is g "APPROVED").

(** The CASE that yields the [transaction_analysis] label. *)
Definition transaction_analysis (r : RT.row) : option string :=
  let g := RT.ga r in
  if holds (GA.is_refund g) then
    (if holds (refund_ok g) then Some "Refund Successful"
     else Some "Refund Failed/Pending")
  else if holds (or3 (GA.is_void g) (status_is g "CANCEL")) then
    (if holds (void_ok g) then Some "Void Successful"
     else Some "Void Failed/Pending")
  else if holds (GA.is_capture g) then
    (if holds (eq_Z (RT.has_auth_in_group r) (Some 0%Z)) then
       (if holds (approved g) then Some "Capture Successful (auth_less)"
        else Some "Capture Failed/Pending (auth_less)")
     else if holds (approved g) then
       (if holds (eq_Z (RT.has_auth_in_group r) (Some 1%Z))
        then Some "Capture Successful (Authorisation Merged)"
        else Some "Capture Successful")
     else concat (concat (Some "Capture Failed/Pending (Check Response: ")
                         (GA.response_code g)) (Some ")"))
  else if holds (GA.is_auth g) then
    (if holds (approved g) then Some "Authorisation Successful"
     else concat (concat (Some "Authorisation Failed (Check Response: ")
                         (GA.response_code g)) (Some ")"))
  else if holds (code_10000 g) then Some "General Success (Code 10000)"
  else if holds (status_is g "APPROVED") then Some "General Success (Approved)"
  else if holds (and3 (and3 (neq_str (GA.response_code g) (Some "10000"))
                            (is_not_null (GA.response_code g)))
                      (neq_str (GA.response_code g) (Some EmptyString)))
    then concat (concat (Some "General Failure (Code: ") (GA.response_code g))
                (Some ")")
  else if holds (in_strs (UPPER (GA.status g)) ["DECLINED"; "FAILED"])
    then Some "General Failure (Declined/Failed)"
  else Some "Unknown/Incomplete Status".

(** The inner CASE of [transaction_outcome]: the cascade over the
    lifecycle flags.  It reads columns of [gateway_analysis] only. *)
Definition cascade (g : GA.row) : option string :=
  if holds (GA.is_refund g) then
    (if holds (refund_ok g) then Some "Success" else Some "Failure")
  else if holds (or3 (GA.is_void g) (status_is g "CANCEL")) then
    (if holds (void_ok g) then Some "Success" else Some "Failure")
  else if holds (GA.is_capture g) then
    (if holds (approved g) then Some "Success" else Some "Failure")
  else if holds (GA.is_auth g) then
    (if holds (approved g) then Some "Success" else Some "Failure")
  else if holds (code_10000 g) then Some "Success"
  else if holds (status_is g "APPROVED") then Some "Success"
  else Some "Failure".

(** [CASE WHEN (cascade) = 'Success' THEN 'Success' ELSE 'Failure' END] *)
Definition transaction_outcome (g : GA.row) : option string :=
  if holds (eq_str (cascade g) (Some "Success")) then Some "Success"
  else Some "Failure".

(** The WHERE clause of the stage. *)
Definition where_clause (r : RT.row) : tv :=
  and3 (not3 (auth_with_capture r))
       (eq_str (transaction_outcome (RT.ga r)) (Some "Success")).

Definition select (r : RT.row) : TA.row := {|
  TA.rt := r;
  TA.final_rrn := final_rrn r;
  TA.final_authorization_code := final_authorization_code r;
  TA.transaction_analysis := transaction_analysis r;
  TA.transaction_outcome := transaction_outcome (RT.ga r)
|}.
End Analysis.

Definition transaction_with_analysis (ga : list GA.row) : list TA.row :=
  map Analysis.select
      (filter (fun r => Sql.holds (Analysis.where_clause r)) (ranked_transactions ga)).

(** ** Stage 4: the bank reconciliation and the view *)

Module Recon.
Import Sql.

Definition ta_amount (t : TA.row) := GA.amount (RT.ga (TA.rt t)).
Definition ta_date (t : TA.row) := GA.transaction_date (RT.ga (TA.rt t)).

Definition auth_eq (t : TA.row) (b : Bank.row) : tv :=
  eq_str (TA.final_authorization_code t) (Bank.authorization_code b).
Definition rrn_eq (t : TA.row) (b : Bank.row) : tv :=
  eq_str (TA.final_rrn t) (Bank.rrn b).
Definition same_day (t : TA.row) (b : Bank.row) : tv :=
  eq_Z (Bank.transaction_date b) (ta_date t).
Definition amount_within (t : TA.row) (b : Bank.row) (tol : Z) : tv :=
  abs_diff_le (ta_amount t) (Bank.transaction_amount b) tol.

(** The two tolerance bands, 0.01 and 1.0, in hundredths. *)
Definition exact_tol : Z := 1.
Definition approx_tol : Z := 100.

(** The seven disjuncts of the LEFT JOIN's ON, in the order written. *)
Definition join_a t b := and3 (and3 (auth_eq t b) (rrn_eq t b)) (amount_within t b exact_tol).
Definition join_b t b := and3 (rrn_eq t b) (amount_within t b exact_tol).
Definition join_c t b := and3 (auth_eq t b) (amount_within t b exact_tol).
Definition join_d t b := and3 (and3 (auth_eq t b) (same_day t b)) (amount_within t b exact_tol).
Definition join_e t b := and3 (rrn_eq t b) (amount_within t b approx_tol).
Definition join_f t b := and3 (auth_eq t b) (amount_within t b approx_tol).
Definition join_g t b := and3 (and3 (auth_eq t b) (same_day t b)) (amount_within t b approx_tol).

Definition join_on (t : TA.row) (b : Bank.row) : tv :=
  or3 (or3 (or3 (or3 (or3 (or3 (join_a t b) (join_b t b)) (join_c t b))
                      (join_d t b)) (join_e t b)) (join_f t b)) (join_g t b).

(** The seven WHEN conditions of the [bank_match_type] CASE, in the order
    written; each opens with an IS NOT NULL test on the bank column. *)
Definition when_a t b :=
  and3 (and3 (and3 (is_not_null (Bank.authorization_code b)) (auth_eq t b))
             (rrn_eq t b)) (amount_within t b exact_tol).
Definition when_b t b :=
  and3 (and3 (is_not_null (Bank.rrn b)) (rrn_eq t b)) (amount_within t b exact_tol).
Definition when_c t b :=
  and3 (and3 (is_not_null (Bank.authorization_code b)) (auth_eq t b))
       (amount_within t b exact_tol).
Definition when_d t b :=
  and3 (and3 (and3 (is_not_null (Bank.authorization_code b)) (auth_eq t b))
             (same_day t b)) (amount_within t b exact_tol).
Definition when_e t b :=
  and3 (and3 (is_not_null (Bank.rrn b)) (rrn_eq t b)) (amount_within t b approx_tol).
Definition when_f t b :=
  and3 (and3 (is_not_null (Bank.authorization_code b)) (auth_eq t b))
       (amount_within t b approx_tol).
Definition when_g t b :=
  and3 (and3 (and3 (is_not_null (Bank.authorization_code b)) (auth_eq t b))
             (same_day t b)) (amount_within t b approx_tol).

Definition label_a := "MATCH: Authorization Code + RRN + Amount".
Definition label_b := "MATCH: RRN + Amount".
Definition label_c := "MATCH: Authorization Code + Amount".
Definition label_d := "FALLBACK MATCH: Authorization Code + Same Day + Amount".
Definition label_e := "PARTIAL MATCH: RRN + Approx Amount".
Definition label_f := "PARTIAL MATCH: Authorization Code + Approx Amount".
Definition label_g := "PARTIAL MATCH: Authorization Code + Same Day + Approx Amount".

Definition bank_match_type (t : TA.row) (b : Bank.row) : option string :=
  if holds (when_a t b) then Some label_a
  else if holds (when_b t b) then Some label_b
  else if holds (when_c t b) then Some label_c
  else if holds (when_d t b) then Some label_d
  else if holds (when_e t b) then Some label_e
  else if holds (when_f t b) then Some label_f
  else if holds (when_g t b) then Some label_g
  else None.

(** The tiers of the join with the label the CASE gives at the same
    position. *)
Definition tiers (t : TA.row) (b : Bank.row) : list (tv * string) :=
  [ (join_a t b, label_a); (join_b t b, label_b); (join_c t b, label_c);
    (join_d t b, label_d); (join_e t b, label_e); (join_f t b, label_f);
    (join_g t b, label_g) ].
End Recon.

(** The label of the first tier, in the order of the list, whose predicate
    holds. *)
Fixpoint first_holding (l : list (Sql.tv * string)) : option string :=
  match l with
  | [] => None
  | (p, lbl) :: l' => if Sql.holds p then Some lbl else first_holding l'
  end.

Module View.
(** A row of [payment_analysis_view]: [ta.*], the bank columns (all NULL
    where the LEFT JOIN found none, or where the view has no bank side)
    and [bank_match_type] (present only with reconciliation). *)
Record row := {
  ta : TA.row;
  b : Bank.row;
  bank_match_type : option string
}.
End View.

Definition left_join_bank (bank : list Bank.row) (t : TA.row) : list View.row :=
  let select b := {| View.ta := t; View.b := b;
                     View.bank_match_type := Recon.bank_match_type t b |} in
  match filter (fun b => Sql.holds (Recon.join_on t b)) bank with
  | [] => [select Bank.null_row]
  | matched => map select matched
  end.

(** The rows of the view, for the two arguments of the generator that
    reach its definition: [include_reconciliation] and the date range of an
    enabled [date_filter]. *)
Definition payment_analysis_view (include_reconciliation : bool)
    (range : option (Z * Z)) (db : database) : list View.row :=
  let twa := transaction_with_analysis (gateway_analysis range db) in
  if include_reconciliation then flat_map (left_join_bank (bank db)) twa
  else map (fun t => {| View.ta := t; View.b := Bank.null_row;
                        View.bank_match_type := None |}) twa.

(** The rows of the stage that belong to the partition of [c]. *)
Definition in_group (c : GA.row) (t : TA.row) : bool :=
  same_group c (RT.ga (TA.rt t)).

(** ** Python helpers of the query generator *)

Module Py.

(** [s.split(sep)] for a non-empty [sep].  [skip] counts the characters
    of a separator still to be passed over, [acc] is the current piece,
    reversed. *)
Fixpoint split_from (sep : string) (skip : nat) (acc : string) (s : string)
  : list string :=
  match s with
  | EmptyString => [Str.rev acc]
  | String c s' =>
      match skip with
      | S k => split_from sep k acc s'
      | O =>
          if String.prefix sep s
          then Str.rev acc :: split_from sep (String.length sep - 1) EmptyString s'
          else split_from sep O (String c acc) s'
      end
  end.
Definition split (sep s : string) : list string := split_from sep O EmptyString s.

(** [l[0]] and [l[-1]] of a list that [split] returned. *)
Definition first (l : list string) : string := hd EmptyString l.
Definition last (l : list string) : string := List.last l EmptyString.

(** The class [[a-zA-Z0-9_]] *)
Definition is_word (c : ascii) : bool :=
  Str.is_lower c || Str.is_upper c || Str.is_digit c || Ascii.eqb c "_"%char.

Fixpoint take_while (p : ascii -> bool) (s : string) : string :=
  match s with
  | EmptyString => EmptyString
  | String c s' => if p c then String c (take_while p s') else EmptyString
  end.

Fixpoint drop_while (p : ascii -> bool) (s : string) : string :=
  match s with
  | EmptyString => EmptyString
  | String c s' => if p c then drop_while p s' else s
  end.

(** A match of [AS\s+([a-zA-Z0-9_]+)] at the head of [s]: the group and
    the length of the match.  Both repetitions are greedy, and the two
    classes are disjoint, so there is one candidate only. *)
Definition match_alias (s : string) : option (string * nat) :=
  match s with
  | String a (String b rest) =>
      if Ascii.eqb a "A"%char && Ascii.eqb b "S"%char then
        let ws := take_while Str.is_space rest in
        let w := take_while is_word (drop_while Str.is_space rest) in
        match ws, w with
        | EmptyString, _ => None
        | _, EmptyString => None
        | _, _ => Some (w, 2 + String.length ws + String.length w)
        end
      else None
  | _ => None
  end.

(** [re.findall(r'AS\s+([a-zA-Z0-9_]+)', s)]: the groups of the matches
    found from left to right, a search resuming where the last match
    ended.  [skip] counts the characters of a match still to be passed
    over. *)
Fixpoint findall_from (skip : nat) (s : string) : list string :=
  match s with
  | EmptyString => []
  | String _ s' =>
      match skip with
      | S k => findall_from k s'
      | O =>
          match match_alias s with
          | Some (w, n) => w :: findall_from (n - 1) s'
          | None => findall_from O s'
          end
      end
  end.
Definition findall (s : string) : list string := findall_from O s.

(** [sorted(list(set(l)))]: ascending, without repetition. *)
Fixpoint insert_unique (x : string) (l : list string) : list string :=
  match l with
  | [] => [x]
  | y :: l' =>
      match String.compare x y with
      | Lt => x :: l
      | Eq => l
      | Gt => y :: insert_unique x l'
      end
  end.
Definition sorted_set (l : list string) : list string :=
  fold_right insert_unique [] l.

(** [l.remove(x)]: without the first occurrence of [x]. *)
Fixpoint remove_first (x : string) (l : list string) : list string :=
  match l with
  | [] => []
  | y :: l' => if String.eqb x y then l' else y :: remove_first x l'
  end.

(** [d.get(k)] on a dict given by its items. *)
Fixpoint get (k : string) (d : list (string * string)) : option string :=
  match d with
  | [] => None
  | (k', v) :: d' => if String.eqb k k' then Some v else get k d'
  end.


End Py.

(** ** The text that [generate_payment_analysis_query] builds *)

Module QueryText.

(** The first elements of [query_parts]: the DO block with the indices. *)
Definition index_statements : list string := [
  "-- Recommended Indices for Performance";
  "DO $$";
  "BEGIN";
  "    IF NOT EXISTS (SELECT 1 FROM pg_indexes WHERE indexname = 'idx_portal_order_id') THEN CREATE INDEX idx_portal_order_id ON portal (order_id); END IF;";
  "    IF NOT EXISTS (SELECT 1 FROM pg_indexes WHERE indexname = 'idx_metabase_portal_order_id') THEN CREATE INDEX idx_metabase_portal_order_id ON metabase (portal_order_id); END IF;";
  "    IF NOT EXISTS (SELECT 1 FROM pg_indexes WHERE indexname = 'idx_metabase_gateway_ids') THEN CREATE INDEX idx_metabase_gateway_ids ON metabase (gateway_order_id, gateway_transaction_id); END IF;";
  "    IF NOT EXISTS (SELECT 1 FROM pg_indexes WHERE indexname = 'idx_checkout_v1_join_keys') THEN CREATE INDEX idx_checkout_v1_join_keys ON checkout_v1 (order_id, payment_online_transaction_id); END IF;";
  "    IF NOT EXISTS (SELECT 1 FROM pg_indexes WHERE indexname = 'idx_checkout_v1_status_code') THEN CREATE INDEX idx_checkout_v1_status_code ON checkout_v1 (status, response_code); END IF;";
  "    IF NOT EXISTS (SELECT 1 FROM pg_indexes WHERE indexname = 'idx_checkout_v2_join_keys') THEN CREATE INDEX idx_checkout_v2_join_keys ON checkout_v2 (order_id, payment_online_transaction_id); END IF;";
  "    IF NOT EXISTS (SELECT 1 FROM pg_indexes WHERE indexname = 'idx_checkout_v2_status_code') THEN CREATE INDEX idx_checkout_v2_status_code ON checkout_v2 (status, response_code); END IF;";
  "    IF NOT EXISTS (SELECT 1 FROM pg_indexes WHERE indexname = 'idx_payfort_join_keys') THEN CREATE INDEX idx_payfort_join_keys ON payfort (order_id, payment_online_transaction_id); END IF;";
  "    IF NOT EXISTS (SELECT 1 FROM pg_indexes WHERE indexname = 'idx_payfort_status') THEN CREATE INDEX idx_payfort_status ON payfort (status); END IF;";
  "    IF NOT EXISTS (SELECT 1 FROM pg_indexes WHERE indexname = 'idx_tamara_payment_id') THEN CREATE INDEX idx_tamara_payment_id ON tamara (payment_online_transaction_id); END IF;";
  "    IF NOT EXISTS (SELECT 1 FROM pg_indexes WHERE indexname = 'idx_tamara_status_type') THEN CREATE INDEX idx_tamara_status_type ON tamara (status, txn_type); END IF;"
].

(** Added when [include_reconciliation]. *)
Definition bank_index_statements : list string := [
  "    IF NOT EXISTS (SELECT 1 FROM pg_indexes WHERE indexname = 'idx_bank_auth_rrn') THEN CREATE INDEX idx_bank_auth_rrn ON bank (authorization_code, rrn); END IF;";
  "    IF NOT EXISTS (SELECT 1 FROM pg_indexes WHERE indexname = 'idx_bank_rrn') THEN CREATE INDEX idx_bank_rrn ON bank (rrn); END IF;";
  "    IF NOT EXISTS (SELECT 1 FROM pg_indexes WHERE indexname = 'idx_bank_auth_code') THEN CREATE INDEX idx_bank_auth_code ON bank (authorization_code); END IF;"
].

(** The end of the DO block and the head of the view. *)
Definition view_header : list string := [
  "END$$;";
  EmptyString;
  "-- Drop the view first to allow changing column data types";
  "DROP VIEW IF EXISTS payment_analysis_view;";
  EmptyString;
  "-- Create or replace a view that encapsulates our payment analysis query";
  "CREATE OR REPLACE VIEW payment_analysis_view AS";
  "WITH";
  "gateway_analysis AS ("
].

Definition checkout_v1_fields : list string := [
  "c1.transaction_amount::NUMERIC(18,2) AS checkout_v1_amount";
  "c1.status::VARCHAR AS checkout_v1_status";
  "c1.transaction_date::DATE AS checkout_v1_transaction_date";
  "c1.payment_online_transaction_id::VARCHAR AS checkout_v1_payment_id";
  "c1.order_id::INTEGER AS checkout_v1_order_id";
  "c1.authorization_code::VARCHAR AS checkout_v1_authorization_code";
  "c1.rrn::VARCHAR AS checkout_v1_rrn";
  "c1.payment_method::VARCHAR AS checkout_v1_payment_method";
  "c1.issuing_bank::VARCHAR AS checkout_v1_issuing_bank";
  "c1.response_code::VARCHAR AS checkout_v1_response_code";
  "c1.response_description::VARCHAR AS checkout_v1_response_description";
  "c1.processor::VARCHAR AS checkout_v1_processor";
  "c1.card_wallet_type::VARCHAR AS checkout_v1_card_wallet_type";
  "c1.currency::VARCHAR AS checkout_v1_currency"
].

Definition checkout_v2_fields : list string := [
  "c2.transaction_amount::NUMERIC(18,2) AS checkout_v2_amount";
  "c2.status::VARCHAR AS checkout_v2_status";
  "c2.action_date_utc_1::DATE AS checkout_v2_transaction_date";
  "c2.payment_online_transaction_id::VARCHAR AS checkout_v2_payment_id";
  "c2.order_id::INTEGER AS checkout_v2_order_id";
  "c2.authorization_code::VARCHAR AS checkout_v2_authorization_code";
  "c2.rrn::VARCHAR AS checkout_v2_rrn";
  "c2.payment_method_name::VARCHAR AS checkout_v2_payment_method";
  "c2.response_code::VARCHAR AS checkout_v2_response_code";
  "c2.response_description::VARCHAR AS checkout_v2_response_description";
  "c2.wallet::VARCHAR AS checkout_v2_wallet";
  "c2.currency_symbol::VARCHAR AS checkout_v2_currency";
  "c2.co_badged_card::VARCHAR AS checkout_v2_co_badged_card"
].

Definition payfort_fields : list string := [
  "pf.transaction_amount::NUMERIC(18,2) AS payfort_amount";
  "pf.status::VARCHAR AS payfort_status";
  "pf.transaction_date::DATE AS payfort_transaction_date";
  "pf.payment_online_transaction_id::VARCHAR AS payfort_payment_id";
  "pf.order_id::INTEGER AS payfort_order_id";
  "pf.authorization_code::VARCHAR AS payfort_authorization_code";
  "pf.rrn::VARCHAR AS payfort_rrn";
  "pf.payment_method::VARCHAR AS payfort_payment_method";
  "pf.payment_method_type::VARCHAR AS payfort_payment_method_type";
  "pf.acquirer_name::VARCHAR AS payfort_acquirer_name";
  "pf.merchant_country::VARCHAR AS payfort_merchant_country";
  "pf.channel::VARCHAR AS payfort_channel";
  "pf.mid::VARCHAR AS payfort_mid";
  "pf.currency::VARCHAR AS payfort_currency";
  "pf.time::TIME AS payfort_time"
].

Definition tamara_fields : list string := [
  "t.txn_amount::NUMERIC(18,2) AS tamara_amount";
  "t.status::VARCHAR AS tamara_status";
  "t.txn_created_at_gmt_03_00::DATE AS tamara_transaction_date";
  "t.payment_online_transaction_id::VARCHAR AS tamara_payment_id";
  "t.order_id::INTEGER AS tamara_portal_order_id";
  "t.tamara_txn_reference::VARCHAR AS tamara_txn_reference";
  "t.payment_method::VARCHAR AS tamara_payment_method";
  "t.customer_name::VARCHAR AS tamara_customer_name";
  "t.txn_type::VARCHAR AS tamara_txn_type";
  "t.txn_settlement_status::VARCHAR AS tamara_txn_settlement_status";
  "t.order_currency::VARCHAR AS tamara_order_currency";
  "t.country_code::VARCHAR AS tamara_country_code";
  "t.store_name::VARCHAR AS tamara_store_name";
  "t.total_amount::NUMERIC(18,2) AS tamara_total_amount";
  "t.order_created_at_gmt_03_00::DATE AS tamara_order_created_at"
].

(** An entry of [gateways_config], as text. *)
Record gateway_text := {
  gateway_source_val : string;
  alias : string;
  table_name : string;
  gateway_order_id_type : string;
  amount_col : string;
  amount_type : string;
  transaction_date_col : string;
  transaction_date_type : string;
  auth_code_col : string;
  auth_code_type : string;
  rrn_col : string;
  rrn_type : string;
  payment_method_col : string;
  payment_method_type : string;
  response_code_col : string;
  response_code_type : string;
  response_description_col : string;
  response_description_type : string;
  is_auth_expr : string;
  is_capture_expr : string;
  is_refund_expr : string;
  is_void_expr : string;
  join_m_condition : string
}.

Definition checkout_v1_config : gateway_text := {|
  gateway_source_val := "checkout_v1";
  alias := "c1";
  table_name := "checkout_v1";
  gateway_order_id_type := "INTEGER";
  amount_col := "c1.transaction_amount";
  amount_type := "NUMERIC(18,2)";
  transaction_date_col := "c1.transaction_date";
  transaction_date_type := "DATE";
  auth_code_col := "c1.authorization_code";
  auth_code_type := "VARCHAR";
  rrn_col := "c1.rrn";
  rrn_type := "VARCHAR";
  payment_method_col := "c1.payment_method";
  payment_method_type := "VARCHAR";
  response_code_col := "c1.response_code";
  response_code_type := "VARCHAR";
  response_description_col := "c1.response_description";
  response_description_type := "VARCHAR";
  is_auth_expr := "(UPPER(c1.status) LIKE '%AUTHORISATION%' OR UPPER(c1.status) LIKE '%AUTHORIZATION%')";
  is_capture_expr := "(UPPER(c1.status) LIKE '%CAPTURE%')";
  is_refund_expr := "(UPPER(c1.status) LIKE '%REFUND%')";
  is_void_expr := "(UPPER(c1.status) LIKE '%VOID%' OR UPPER(c1.status) = 'CANCEL')";
  join_m_condition := "c1.order_id = m.gateway_order_id AND c1.payment_online_transaction_id = m.gateway_transaction_id"
|}.

Definition checkout_v2_config : gateway_text := {|
  gateway_source_val := "checkout_v2";
  alias := "c2";
  table_name := "checkout_v2";
  gateway_order_id_type := "INTEGER";
  amount_col := "c2.transaction_amount";
  amount_type := "NUMERIC(18,2)";
  transaction_date_col := "c2.action_date_utc_1";
  transaction_date_type := "DATE";
  auth_code_col := "c2.authorization_code";
  auth_code_type := "VARCHAR";
  rrn_col := "c2.rrn";
  rrn_type := "VARCHAR";
  payment_method_col := "c2.payment_method_name";
  payment_method_type := "VARCHAR";
  response_code_col := "c2.response_code";
  response_code_type := "VARCHAR";
  response_description_col := "c2.response_description";
  response_description_type := "VARCHAR";
  is_auth_expr := "(UPPER(c2.status) LIKE '%AUTHORISATION%' OR UPPER(c2.status) LIKE '%AUTHORIZATION%')";
  is_capture_expr := "(UPPER(c2.status) LIKE '%CAPTURE%')";
  is_refund_expr := "(UPPER(c2.status) LIKE '%REFUND%')";
  is_void_expr := "(UPPER(c2.status) LIKE '%VOID%' OR UPPER(c2.status) = 'CANCEL')";
  join_m_condition := "c2.order_id = m.gateway_order_id AND c2.payment_online_transaction_id = m.gateway_transaction_id"
|}.

Definition payfort_config : gateway_text := {|
  gateway_source_val := "payfort";
  alias := "pf";
  table_name := "payfort";
  gateway_order_id_type := "INTEGER";
  amount_col := "pf.transaction_amount";
  amount_type := "NUMERIC(18,2)";
  transaction_date_col := "pf.transaction_date";
  transaction_date_type := "DATE";
  auth_code_col := "pf.authorization_code";
  auth_code_type := "VARCHAR";
  rrn_col := "pf.rrn";
  rrn_type := "VARCHAR";
  payment_method_col := "pf.payment_method";
  payment_method_type := "VARCHAR";
  response_code_col := "''";
  response_code_type := "VARCHAR";
  response_description_col := "''";
  response_description_type := "VARCHAR";
  is_auth_expr := "(UPPER(pf.status) LIKE '%AUTHORIZATION%')";
  is_capture_expr := "(UPPER(pf.status) LIKE '%CAPTURE%')";
  is_refund_expr := "(UPPER(pf.status) LIKE '%REFUND%')";
  is_void_expr := "(UPPER(pf.status) LIKE '%VOID%' OR UPPER(pf.status) = 'CANCEL')";
  join_m_condition := "pf.order_id = m.gateway_order_id AND pf.payment_online_transaction_id = m.gateway_transaction_id"
|}.

Definition tamara_config : gateway_text := {|
  gateway_source_val := "tamara";
  alias := "t";
  table_name := "tamara";
  gateway_order_id_type := "INTEGER";
  amount_col := "t.txn_amount";
  amount_type := "NUMERIC(18,2)";
  transaction_date_col := "t.txn_created_at_gmt_03_00";
  transaction_date_type := "DATE";
  auth_code_col := "''";
  auth_code_type := "VARCHAR";
  rrn_col := "t.tamara_txn_reference";
  rrn_type := "VARCHAR";
  payment_method_col := "t.payment_method";
  payment_method_type := "VARCHAR";
  response_code_col := "''";
  response_code_type := "VARCHAR";
  response_description_col := "''";
  response_description_type := "VARCHAR";
  is_auth_expr := "(t.txn_type = 'AUTHORIZE')";
  is_capture_expr := "FALSE";
  is_refund_expr := "(t.txn_type = 'REFUND')";
  is_void_expr := "(t.txn_type = 'CANCEL')";
  join_m_condition := "t.payment_online_transaction_id = m.gateway_transaction_id"
|}.

(** [gateway_select_template] up to the place of [{date_filter_here}],
    with the placeholders filled from [c] and the four column lists. *)
Definition gateway_select_head (c : gateway_text)
    (checkout_v1_cols_str checkout_v2_cols_str payfort_cols_str tamara_cols_str : string)
  : string :=
  Str.nl ++
  "    SELECT" ++ Str.nl ++
  "        '" ++ gateway_source_val c ++ "'::VARCHAR AS gateway_source," ++ Str.nl ++
  "        " ++ alias c ++ ".order_id::" ++ gateway_order_id_type c ++ " AS gateway_order_id," ++ Str.nl ++
  "        " ++ alias c ++ ".payment_online_transaction_id::VARCHAR AS gateway_transaction_id," ++ Str.nl ++
  "        " ++ amount_col c ++ "::" ++ amount_type c ++ " AS amount," ++ Str.nl ++
  "        " ++ alias c ++ ".status::VARCHAR AS status," ++ Str.nl ++
  "        " ++ transaction_date_col c ++ "::" ++ transaction_date_type c ++ " AS transaction_date," ++ Str.nl ++
  "        " ++ auth_code_col c ++ "::" ++ auth_code_type c ++ " AS authorization_code," ++ Str.nl ++
  "        " ++ rrn_col c ++ "::" ++ rrn_type c ++ " AS rrn," ++ Str.nl ++
  "        " ++ payment_method_col c ++ "::" ++ payment_method_type c ++ " AS payment_method," ++ Str.nl ++
  "        " ++ response_code_col c ++ "::" ++ response_code_type c ++ " AS response_code," ++ Str.nl ++
  "        " ++ response_description_col c ++ "::" ++ response_description_type c ++ " AS response_description," ++ Str.nl ++
  "        " ++ is_auth_expr c ++ "::BOOLEAN AS is_auth," ++ Str.nl ++
  "        " ++ is_capture_expr c ++ "::BOOLEAN AS is_capture," ++ Str.nl ++
  "        " ++ is_refund_expr c ++ "::BOOLEAN AS is_refund," ++ Str.nl ++
  "        " ++ is_void_expr c ++ "::BOOLEAN AS is_void," ++ Str.nl ++
  "        " ++ Str.nl ++
  "        -- Portal data" ++ Str.nl ++
  "        p.order_id::INTEGER AS portal_order_id_val, -- Renamed to avoid conflict with p.order_id for join" ++ Str.nl ++
  "        p.transaction_amount::NUMERIC(18,2) AS portal_amount," ++ Str.nl ++
  "        p.gateway::VARCHAR AS portal_gateway," ++ Str.nl ++
  "        p.status::VARCHAR AS portal_status," ++ Str.nl ++
  "        p.payment_method::VARCHAR AS portal_payment_method," ++ Str.nl ++
  "        p.transaction_date::DATE AS portal_transaction_date," ++ Str.nl ++
  "        p.customer_name::VARCHAR AS portal_customer_name," ++ Str.nl ++
  "        p.chef_name::VARCHAR AS portal_chef_name," ++ Str.nl ++
  "        p.chef_total::NUMERIC(18,2) AS portal_chef_total," ++ Str.nl ++
  "        p.commission_amount::NUMERIC(18,2) AS portal_commission_amount," ++ Str.nl ++
  "        p.delivery_type::VARCHAR AS portal_delivery_type," ++ Str.nl ++
  "        p.discount_type::VARCHAR AS portal_discount_type," ++ Str.nl ++
  "        p.ispaid::VARCHAR AS portal_ispaid," ++ Str.nl ++
  "        p.transaction_id::VARCHAR AS portal_transaction_id," ++ Str.nl ++
  "        p.wallet_paid_amount::NUMERIC(18,2) AS portal_wallet_paid_amount," ++ Str.nl ++
  "        p.promo_code_total_discount::NUMERIC(18,2) AS portal_promo_code_total_discount," ++ Str.nl ++
  "        " ++ Str.nl ++
  "        -- Metabase data" ++ Str.nl ++
  "        m.transaction_amount::NUMERIC(18,2) AS metabase_amount," ++ Str.nl ++
  "        m.status::VARCHAR AS metabase_status," ++ Str.nl ++
  "        m.gateway::VARCHAR AS metabase_gateway," ++ Str.nl ++
  "        m.portal_order_id::INTEGER AS metabase_portal_order_id," ++ Str.nl ++
  "        m.app_version::VARCHAR AS metabase_app_version," ++ Str.nl ++
  "        m.platform::VARCHAR AS metabase_platform," ++ Str.nl ++
  "        m.order_status::VARCHAR AS metabase_order_status," ++ Str.nl ++
  "        m.order_total::NUMERIC(18,2) AS metabase_order_total," ++ Str.nl ++
  "        m.hyperpay_transaction_id::VARCHAR AS metabase_hyperpay_transaction_id," ++ Str.nl ++
  "        m.success::VARCHAR AS metabase_success," ++ Str.nl ++
  "        m.transactiontype::VARCHAR AS metabase_transactiontype," ++ Str.nl ++
  "        " ++ Str.nl ++
  "        -- Gateway-specific columns (actual for current, NULL for others)" ++ Str.nl ++
  "        " ++ checkout_v1_cols_str ++ "," ++ Str.nl ++
  "        " ++ checkout_v2_cols_str ++ "," ++ Str.nl ++
  "        " ++ payfort_cols_str ++ "," ++ Str.nl ++
  "        " ++ tamara_cols_str ++ Str.nl ++
  "    FROM " ++ table_name c ++ " " ++ alias c ++ Str.nl ++
  "    JOIN metabase m ON " ++ join_m_condition c ++ Str.nl ++
  "    JOIN portal p ON m.portal_order_id = p.order_id -- Original p.order_id used for join" ++ Str.nl ++
  "    ".

(** The [ranked_transactions] CTE. *)
Definition ranked_transactions_sql : list string := [
  "ranked_transactions AS (";
  "    SELECT";
  "        ga.*,";
  "        (MAX(CASE WHEN ga.is_auth THEN 1 ELSE 0 END) OVER (PARTITION BY ga.gateway_order_id, ga.gateway_transaction_id))::INTEGER AS has_auth_in_group,";
  "        (MAX(CASE WHEN ga.is_capture THEN 1 ELSE 0 END) OVER (PARTITION BY ga.gateway_order_id, ga.gateway_transaction_id))::INTEGER AS has_capture_in_group,";
  "        (MAX(CASE WHEN ga.is_auth THEN ga.rrn END) OVER (PARTITION BY ga.gateway_order_id, ga.gateway_transaction_id))::VARCHAR AS auth_rrn_in_group,";
  "        (MAX(CASE WHEN ga.is_auth THEN ga.authorization_code END) OVER (PARTITION BY ga.gateway_order_id, ga.gateway_transaction_id))::VARCHAR AS auth_authorization_code_in_group";
  "    FROM gateway_analysis ga";
  "),"
].

(** The [transaction_with_analysis] CTE. *)
Definition transaction_with_analysis_sql : list string := [
  "transaction_with_analysis AS (";
  "SELECT";
  "        rt.*,";
  "        CASE WHEN rt.is_capture AND rt.has_auth_in_group = 1 AND rt.has_capture_in_group = 1 THEN rt.auth_rrn_in_group ELSE rt.rrn END::VARCHAR AS final_rrn,";
  "        CASE WHEN rt.is_capture AND rt.has_auth_in_group = 1 AND rt.has_capture_in_group = 1 THEN rt.auth_authorization_code_in_group ELSE rt.authorization_code END::VARCHAR AS final_authorization_code,";
  "        CASE";
  "            WHEN rt.is_refund THEN CASE WHEN rt.response_code = '10000' OR UPPER(rt.status) IN ('FULLY_REFUNDED', 'PARTIALLY_REFUNDED') THEN 'Refund Successful' ELSE 'Refund Failed/Pending' END";
  "            WHEN rt.is_void OR UPPER(rt.status) = 'CANCEL' THEN CASE WHEN rt.response_code = '10000' OR UPPER(rt.status) = 'CANCELED' THEN 'Void Successful' ELSE 'Void Failed/Pending' END";
  "            WHEN rt.is_capture THEN";
  "                CASE";
  "                    WHEN rt.has_auth_in_group = 0 THEN CASE WHEN rt.response_code = '10000' OR UPPER(rt.status) = 'APPROVED' THEN 'Capture Successful (auth_less)' ELSE 'Capture Failed/Pending (auth_less)' END";
  "                    WHEN rt.response_code = '10000' OR UPPER(rt.status) = 'APPROVED' THEN CASE WHEN rt.has_auth_in_group = 1 THEN 'Capture Successful (Authorisation Merged)' ELSE 'Capture Successful' END";
  "                    ELSE 'Capture Failed/Pending (Check Response: ' || rt.response_code || ')'";
  "                END";
  "            WHEN rt.is_auth THEN CASE WHEN rt.response_code = '10000' OR UPPER(rt.status) = 'APPROVED' THEN 'Authorisation Successful' ELSE 'Authorisation Failed (Check Response: ' || rt.response_code || ')' END";
  "            WHEN rt.response_code = '10000' THEN 'General Success (Code 10000)'";
  "            WHEN UPPER(rt.status) = 'APPROVED' THEN 'General Success (Approved)'";
  "            WHEN rt.response_code != '10000' AND rt.response_code IS NOT NULL AND rt.response_code != '' THEN 'General Failure (Code: ' || rt.response_code || ')'";
  "            WHEN UPPER(rt.status) IN ('DECLINED', 'FAILED') THEN 'General Failure (Declined/Failed)'";
  "            ELSE 'Unknown/Incomplete Status'";
  "        END::VARCHAR AS transaction_analysis,";
  "        CASE";
  "            WHEN (CASE";
  "                WHEN rt.is_refund THEN CASE WHEN rt.response_code = '10000' OR UPPER(rt.status) IN ('FULLY_REFUNDED', 'PARTIALLY_REFUNDED') THEN 'Success' ELSE 'Failure' END";
  "                WHEN rt.is_void OR UPPER(rt.status) = 'CANCEL' THEN CASE WHEN rt.response_code = '10000' OR UPPER(rt.status) = 'CANCELED' THEN 'Success' ELSE 'Failure' END";
  "                WHEN rt.is_capture THEN CASE WHEN rt.response_code = '10000' OR UPPER(rt.status) = 'APPROVED' THEN 'Success' ELSE 'Failure' END";
  "                WHEN rt.is_auth THEN CASE WHEN rt.response_code = '10000' OR UPPER(rt.status) = 'APPROVED' THEN 'Success' ELSE 'Failure' END";
  "                WHEN rt.response_code = '10000' THEN 'Success'";
  "                WHEN UPPER(rt.status) = 'APPROVED' THEN 'Success'";
  "                ELSE 'Failure'";
  "            END) = 'Success' THEN 'Success' ELSE 'Failure'";
  "        END::VARCHAR AS transaction_outcome";
  "    FROM ranked_transactions rt";
  "    WHERE NOT (rt.is_auth AND rt.has_auth_in_group = 1 AND rt.has_capture_in_group = 1)";
  "      AND (CASE WHEN (CASE WHEN rt.is_refund THEN CASE WHEN rt.response_code = '10000' OR UPPER(rt.status) IN ('FULLY_REFUNDED', 'PARTIALLY_REFUNDED') THEN 'Success' ELSE 'Failure' END WHEN rt.is_void OR UPPER(rt.status) = 'CANCEL' THEN CASE WHEN rt.response_code = '10000' OR UPPER(rt.status) = 'CANCELED' THEN 'Success' ELSE 'Failure' END WHEN rt.is_capture THEN CASE WHEN rt.response_code = '10000' OR UPPER(rt.status) = 'APPROVED' THEN 'Success' ELSE 'Failure' END WHEN rt.is_auth THEN CASE WHEN rt.response_code = '10000' OR UPPER(rt.status) = 'APPROVED' THEN 'Success' ELSE 'Failure' END WHEN rt.response_code = '10000' THEN 'Success' WHEN UPPER(rt.status) = 'APPROVED' THEN 'Success' ELSE 'Failure' END) = 'Success' THEN 'Success' ELSE 'Failure' END) = 'Success'";
  ")"
].

(** The SELECT of the view with the LEFT JOIN on [bank]. *)
Definition reconciliation_select : list string := [
  "SELECT ";
  "    ta.*,";
  "    b.authorization_code::VARCHAR AS bank_auth_code,";
  "    b.rrn::VARCHAR AS bank_rrn,";
  "    b.transaction_amount::NUMERIC(18,2) AS bank_amount,";
  "    b.transaction_date::DATE AS bank_transaction_date,";
  "    b.transaction_type::VARCHAR AS bank_transaction_type,";
  "    b.status::VARCHAR AS bank_status,";
  "    b.bank_name::VARCHAR AS bank_bank_name,";
  "    b.card_type::VARCHAR AS bank_card_type,";
  "    b.cashback_amount::NUMERIC(18,2) AS bank_cashback_amount,";
  "    b.discount_amount::NUMERIC(18,2) AS bank_discount_amount,";
  "    b.masked_card::VARCHAR AS bank_masked_card,";
  "    b.merchant_identifier::VARCHAR AS bank_merchant_identifier,";
  "    b.payment_online_transaction_id::VARCHAR AS bank_payment_id,";
  "    b.posting_date::DATE AS bank_posting_date,";
  "    b.terminal_identifier::VARCHAR AS bank_terminal_identifier, ";
  "    b.total_payment_amount::NUMERIC(18,2) AS bank_total_payment_amount,";
  "    b.transaction_link_url::VARCHAR AS bank_transaction_link_url,";
  "    b.vat_amount::NUMERIC(18,2) AS bank_vat_amount,";
  "    CASE ";
  "        WHEN b.authorization_code IS NOT NULL AND ta.final_authorization_code = b.authorization_code AND ta.final_rrn = b.rrn AND ABS(ta.amount::NUMERIC(18,2) - b.transaction_amount::NUMERIC(18,2)) <= 0.01 THEN 'MATCH: Authorization Code + RRN + Amount'";
  "        WHEN b.rrn IS NOT NULL AND ta.final_rrn = b.rrn AND ABS(ta.amount::NUMERIC(18,2) - b.transaction_amount::NUMERIC(18,2)) <= 0.01 THEN 'MATCH: RRN + Amount'";
  "        WHEN b.authorization_code IS NOT NULL AND ta.final_authorization_code = b.authorization_code AND ABS(ta.amount::NUMERIC(18,2) - b.transaction_amount::NUMERIC(18,2)) <= 0.01 THEN 'MATCH: Authorization Code + Amount'";
  "        WHEN b.authorization_code IS NOT NULL AND ta.final_authorization_code = b.authorization_code AND (b.transaction_date::DATE = ta.transaction_date::DATE) AND ABS(ta.amount::NUMERIC(18,2) - b.transaction_amount::NUMERIC(18,2)) <= 0.01 THEN 'FALLBACK MATCH: Authorization Code + Same Day + Amount'";
  "        WHEN b.rrn IS NOT NULL AND ta.final_rrn = b.rrn AND ABS(ta.amount::NUMERIC(18,2) - b.transaction_amount::NUMERIC(18,2)) <= 1.0 THEN 'PARTIAL MATCH: RRN + Approx Amount'";
  "        WHEN b.authorization_code IS NOT NULL AND ta.final_authorization_code = b.authorization_code AND ABS(ta.amount::NUMERIC(18,2) - b.transaction_amount::NUMERIC(18,2)) <= 1.0 THEN 'PARTIAL MATCH: Authorization Code + Approx Amount'";
  "        WHEN b.authorization_code IS NOT NULL AND ta.final_authorization_code = b.authorization_code AND (b.transaction_date::DATE = ta.transaction_date::DATE) AND ABS(ta.amount::NUMERIC(18,2) - b.transaction_amount::NUMERIC(18,2)) <= 1.0 THEN 'PARTIAL MATCH: Authorization Code + Same Day + Approx Amount'";
  "        ELSE NULL";
  "    END::VARCHAR AS bank_match_type";
  "FROM transaction_with_analysis ta";
  "LEFT JOIN bank b ON";
  "    (";
  "        (ta.final_authorization_code = b.authorization_code AND ta.final_rrn = b.rrn AND ABS(ta.amount::NUMERIC(18,2) - b.transaction_amount::NUMERIC(18,2)) <= 0.01)";
  "        OR (ta.final_rrn = b.rrn AND ABS(ta.amount::NUMERIC(18,2) - b.transaction_amount::NUMERIC(18,2)) <= 0.01)";
  "        OR (ta.final_authorization_code = b.authorization_code AND ABS(ta.amount::NUMERIC(18,2) - b.transaction_amount::NUMERIC(18,2)) <= 0.01)";
  "        OR (ta.final_authorization_code = b.authorization_code AND (b.transaction_date::DATE = ta.transaction_date::DATE) AND ABS(ta.amount::NUMERIC(18,2) - b.transaction_amount::NUMERIC(18,2)) <= 0.01)";
  "        OR (ta.final_rrn = b.rrn AND ABS(ta.amount::NUMERIC(18,2) - b.transaction_amount::NUMERIC(18,2)) <= 1.0)";
  "        OR (ta.final_authorization_code = b.authorization_code AND ABS(ta.amount::NUMERIC(18,2) - b.transaction_amount::NUMERIC(18,2)) <= 1.0)";
  "        OR (ta.final_authorization_code = b.authorization_code AND (b.transaction_date::DATE = ta.transaction_date::DATE) AND ABS(ta.amount::NUMERIC(18,2) - b.transaction_amount::NUMERIC(18,2)) <= 1.0)";
  "    )"
].

(** The SELECT of the view without reconciliation. *)
Definition plain_select : list string := [
  "SELECT * FROM transaction_with_analysis"
].

Definition ESSENTIAL_FIELDS : list string := [
  "gateway_source";
  "gateway_order_id";
  "gateway_transaction_id";
  "amount";
  "status";
  "transaction_date";
  "authorization_code";
  "rrn";
  "payment_method";
  "response_code";
  "response_description";
  "is_auth";
  "is_capture";
  "is_refund";
  "is_void";
  "final_rrn";
  "final_authorization_code";
  "transaction_analysis";
  "transaction_outcome"
].

Definition gateways_config (gw_name : string) : gateway_text :=
  if String.eqb gw_name "checkout_v1" then checkout_v1_config
  else if String.eqb gw_name "checkout_v2" then checkout_v2_config
  else if String.eqb gw_name "payfort" then payfort_config
  else tamara_config.

Definition gw_specific_field_lists (gw_name : string) : list string :=
  if String.eqb gw_name "checkout_v1" then checkout_v1_fields
  else if String.eqb gw_name "checkout_v2" then checkout_v2_fields
  else if String.eqb gw_name "payfort" then payfort_fields
  else tamara_fields.

Definition gateway_names_ordered : list string :=
  ["checkout_v1"; "checkout_v2"; "payfort"; "tamara"].

(** The arguments of the generator. *)
Record date_filter := {
  enabled : bool;
  start_date : string;
  end_date : string
}.

Record args := {
  selected_fields : list (string * list string);
  include_reconciliation : bool;
  date_filter_arg : option date_filter;
  limit : option Z;
  return_distinct_orders : bool
}.

(** Python's truth value of a string. *)
Definition truthy (s : string) : bool :=
  match s with EmptyString => false | _ => true end.

(** The date filter is used when the dict is there, ['enabled'] is set and
    both dates are non-empty. *)
Definition date_filter_active (a : args) : option (string * string) :=
  match date_filter_arg a with
  | Some f =>
      if enabled f && truthy (start_date f) && truthy (end_date f)
      then Some (start_date f, end_date f) else None
  | None => None
  end.

Definition date_filter_clause (a : args) : string :=
  match date_filter_active a with
  | Some (s, e) =>
      "WHERE p.transaction_date::DATE BETWEEN '" ++ s ++ "'::DATE AND '" ++ e
        ++ "'::DATE"
  | None => EmptyString
  end.

(** [NULL::type AS alias] for a field of another gateway. *)
Definition null_placeholder (field_def_str : string) : string :=
  let field_alias := Str.strip (Py.last (Py.split " AS " field_def_str)) in
  let type_part :=
    Str.strip (Py.last (Py.split "::" (Py.first (Py.split " AS " field_def_str)))) in
  "NULL::" ++ type_part ++ " AS " ++ field_alias.

Definition cols_sep : string := "," ++ Str.nl ++ "        ".

(** [cols_str[gw_key_for_cols + '_cols_str']] inside the section of
    [gw_name]. *)
Definition cols_str (gw_name gw_key_for_cols : string) : string :=
  let field_list_for_this_gw := gw_specific_field_lists gw_key_for_cols in
  if String.eqb gw_key_for_cols gw_name
  then Str.join cols_sep field_list_for_this_gw
  else Str.join cols_sep (map null_placeholder field_list_for_this_gw).

Definition section_head (gw_name : string) : string :=
  gateway_select_head (gateways_config gw_name)
    (cols_str gw_name "checkout_v1") (cols_str gw_name "checkout_v2")
    (cols_str gw_name "payfort") (cols_str gw_name "tamara").

(** [gateway_select_template.format(...)]: the head, the date filter and
    the last line of the template. *)
Definition section_sql (a : args) (gw_name : string) : string :=
  section_head gw_name ++ date_filter_clause a ++ Str.nl ++ "    ".

Definition union_all : string := Str.nl ++ "    UNION ALL" ++ Str.nl.

Definition gw_sections_sql (a : args) : list string :=
  map (section_sql a) gateway_names_ordered.

Definition query_parts (a : args) : list string :=
  (index_statements
   ++ (if include_reconciliation a then bank_index_statements else [])
   ++ view_header
   ++ [Str.join union_all (gw_sections_sql a)]
   ++ ["),"]
   ++ ranked_transactions_sql
   ++ transaction_with_analysis_sql
   ++ (if include_reconciliation a then reconciliation_select else plain_select)
  )%list.


(** [extract_view_field_aliases]: the set of the names that follow an AS
    in some part, as the list of the finds. *)
Definition extract_view_field_aliases (parts : list string) : list string :=
  flat_map Py.findall parts.

(** [get_field_mapping()] *)
Definition get_field_mapping : list (string * string) := [
  ("bank_authorization_code", "bank_auth_code");
  ("bank_payment_online_transaction_id", "bank_payment_id");
  ("bank_transaction_amount", "bank_amount");
  ("checkout_v1_payment_id", "checkout_v1_payment_online_transaction_id");
  ("checkout_v2_payment_id", "checkout_v2_payment_online_transaction_id");
  ("checkout_v2_payment_method", "checkout_v2_payment_method_name");
  ("checkout_v2_currency", "checkout_v2_currency_symbol");
  ("payfort_payment_id", "payfort_payment_online_transaction_id");
  ("tamara_payment_id", "tamara_payment_online_transaction_id");
  ("tamara_transaction_amount", "tamara_txn_amount");
  ("tamara_transaction_date", "tamara_txn_created_at_gmt_03_00");
  ("tamara_order_created_at", "tamara_order_created_at_gmt_03_00");
  ("portal_order_id", "portal_order_id_val")
].

Definition with_prefix (pre field_name : string) : string :=
  if String.prefix pre field_name then field_name else pre ++ field_name.

(** The alias that a selected field of a source stands for, before the
    alias mapping; [None] where the code leaves [alias_to_add] at None. *)
Definition alias_to_add (a : args) (source_key field_name : string)
  : option string :=
  if String.eqb source_key "portal" then
    let al := with_prefix "portal_" field_name in
    Some (if String.eqb al "portal_order_id" then "portal_order_id_val" else al)
  else if String.eqb source_key "metabase" then
    Some (with_prefix "metabase_" field_name)
  else if String.eqb source_key "bank" then
    if include_reconciliation a then Some (with_prefix "bank_" field_name)
    else None
  else if String.eqb source_key "analysis" then Some field_name
  else if Str.mem source_key ["checkout_v1"; "checkout_v2"; "payfort"; "tamara"]
  then Some (with_prefix (source_key ++ "_") field_name)
  else None.

(** What one selected field adds to [processed_selected_fields]. *)
Definition processed_field (a : args) (source_key field_name : string)
  : list string :=
  match alias_to_add a source_key field_name with
  | Some al =>
      if truthy al then
        match Py.get al get_field_mapping with
        | Some mapped => [mapped]
        | None => [al]
        end
      else []
  | None => []
  end.

Definition default_fields : list string :=
  ["gateway_order_id"; "transaction_date"; "amount"; "status"; "gateway_source"].

(** The elements of the set [processed_selected_fields], in the order in
    which they are added. *)
Definition processed_selected_fields (a : args) : list string :=
  let selected :=
    flat_map (fun item => flat_map (processed_field a (fst item)) (snd item))
             (selected_fields a) in
  let with_essential := (selected ++ ESSENTIAL_FIELDS)%list in
  match with_essential with
  | [] => default_fields
  | _ => with_essential
  end.

Definition final_select_aliases (a : args) : list string :=
  Py.sorted_set (processed_selected_fields a).

Definition view_aliases (a : args) : list string :=
  extract_view_field_aliases (query_parts a).

(** The validation loop: an alias is kept if the view defines it, replaced
    by its mapping if the view defines that, and skipped otherwise. *)
Definition validate (view : list string) (al : string) : list string :=
  if Str.mem al view then [al]
  else match Py.get al get_field_mapping with
       | Some mapped => if Str.mem mapped view then [mapped] else []
       | None => []
       end.

(** [validated_select_aliases] as the final SELECT lists it. *)
Definition validated_select_aliases (a : args) : list string :=
  let validated := flat_map (validate (view_aliases a)) (final_select_aliases a) in
  if return_distinct_orders a then
    if Str.mem "gateway_order_id" validated
    then "gateway_order_id" :: Py.remove_first "gateway_order_id" validated
    else "gateway_order_id" :: validated
  else validated.




(** The outcome of a match attempt at the head of a text of which only
    the beginning [s] is known. *)
Inductive verdict :=
| Found (w : string) (n : nat)
| Nothing
| Undecided.

(** The run of [p]-characters at the head of [s] and what follows it,
    when something does follow. *)
Fixpoint run (p : ascii -> bool) (s : string) : option (string * string) :=
  match s with
  | EmptyString => None
  | String c s' =>
      if p c then
        match run p s' with
        | Some (w, r) => Some (String c w, r)
        | None => None
        end
      else Some (EmptyString, s)
  end.

Definition match_alias_within (s : string) : verdict :=
  match s with
  | String a EmptyString => if Ascii.eqb a "A"%char then Undecided else Nothing
  | String a (String b rest) =>
      if Ascii.eqb a "A"%char && Ascii.eqb b "S"%char then
        match run Str.is_space rest with
        | None => Undecided
        | Some (EmptyString, _) => Nothing
        | Some (ws, rest') =>
            match run Py.is_word rest' with
            | None => Undecided
            | Some (EmptyString, _) => Nothing
            | Some (w, _) => Found w (2 + String.length ws + String.length w)
            end
        end
      else Nothing
  | EmptyString => Undecided
  end.

(** The finds of [Py.findall_from] that the beginning [s] of a text
    settles, whatever the text goes on with. *)
Fixpoint findall_within (skip : nat) (s : string) : list string :=
  match s with
  | EmptyString => []
  | String _ s' =>
      match skip with
      | S k => findall_within k s'
      | O =>
          match match_alias_within s with
          | Found w n => w :: findall_within (n - 1) s'
          | Nothing => findall_within O s'
          | Undecided => []
          end
      end
  end.






End QueryText.

(** ** The view that a generated query defines *)

Section ViewOfQuery.
(** The DATE that PostgreSQL reads from the text of a literal
    ['...'::DATE]. *)
Variable date_of : string -> Z.

Definition date_range (a : QueryText.args) : option (Z * Z) :=
  match QueryText.date_filter_active a with
  | Some (s, e) => Some (date_of s, date_of e)
  | None => None
  end.

(** The rows of [payment_analysis_view] as the text generated for the
    arguments [a] defines it.  The selected fields, the limit and
    DISTINCT ON shape the final SELECT only, not the view. *)
Definition view_of_query (a : QueryText.args) (db : database) : list View.row :=
  payment_analysis_view (QueryText.include_reconciliation a) (date_range a) db.
End ViewOfQuery.

(** What the filter of [transaction_with_analysis] leaves: a successful
    row that is no merged authorisation. *)
Definition success_only (t : TA.row) : Prop :=
  TA.transaction_outcome t = Some "Success" /\
  Analysis.auth_with_capture (TA.rt t) = Some false.

(** ** [generate_config.py]: the type inference of the schema registry *)

Module Inference.

Definition SQL_TYPE_MAP : list (string * string) := [
  ("integer", "INTEGER"); ("float", "NUMERIC(18,2)"); ("date", "DATE");
  ("time", "TIME"); ("string", "VARCHAR(255)"); ("text", "TEXT")
].

(** Known columns that use TEXT instead of VARCHAR, by source. *)
Definition TEXT_COLUMNS : list (string * list string) := [
  ("portal",
   [
    "note"; "order_items"; "customer_name"; "chef_name";
    "commission_percentage"; "promotion_template_id"; "promotion_tier_id";
    "gift_endurance"; "customer_address"; "external_client_id";
    "external_order_id"; "gift_from"; "gift_message"; "order_content";
    "order_description"; "phone_number"; "order_address"; "customer_email";
    "driver_id"; "additional_info"
   ]);
  ("metabase",
   [
    "order_status"; "reservation_status"; "order_details"; "customer_info";
    "payment_details"; "comments"; "address"; "notes"; "description";
    "message"
   ]);
  ("tamara",
   [
    "comment"; "customer_name"; "address"; "order_reference_id";
    "consumer_email"; "consumer_info"; "description"; "details"
   ]);
  ("checkout_v1",
   [
    "customer_address"; "customer_email"; "customer_name";
    "payment_description"; "order_details"; "notes"; "comments"; "message";
    "id_token"; "description"
   ]);
  ("checkout_v2",
   [
    "customer_address"; "customer_email"; "customer_name";
    "payment_description"; "order_details"; "notes"; "comments"; "message";
    "id_token"; "description"
   ]);
  ("bank",
   [
    "customer_info"; "transaction_details"; "notes"; "description";
    "payment_description"; "reference"; "comments"
   ]);
  ("payfort",
   [
    "customer_email"; "customer_name"; "card_description";
    "payment_description"; "notes"; "comments"; "message";
    "status_description"
   ])
].

(** Date columns that are always typed as dates (a set). *)
Definition DATE_COLUMNS : list string := [
  "transaction_date"; "action_date_utc_1"; "txn_created_at_gmt_03_00";
  "posting_date"; "order_created_at_gmt_03_00"; "delivery_date";
  "settlement_date"; "created_at"; "updated_at"; "payment_date";
  "processing_date"; "authorization_date"; "capture_date"
].

(** Source-specific column mappings: original header to canonical name,
    in the order of the dict. *)
Definition SOURCE_MAPPINGS : list (string * list (string * string)) := [
  ("portal",
   [
    ("Order Id", "order_id"); ("Order Number", "transaction_id");
    ("Order Total", "transaction_amount");
    ("Delivery Date", "transaction_date"); ("Order Status", "status");
    ("Payment Method", "payment_method"); ("RRN", "rrn");
    ("Auth Code", "authorization_code");
    ("Wallet Paid Amount", "wallet_paid_amount");
    ("Main Wallet Paid Amount", "main_wallet_paid_amount");
    ("Store Wallet Paid Amount", "store_wallet_paid_amount");
    ("Collected Cash", "collected_cash");
    ("Total Transfer Fees", "total_transfer_fees");
    ("Chef Total", "chef_total");
    ("Commission Amount", "commission_amount"); ("Integration", "gateway");
    ("Delivery Type", "delivery_type"); ("Service Fees", "service_fees")
   ]);
  ("bank",
   [
    ("RRN", "rrn"); ("Authorization Code", "authorization_code");
    ("Transaction Amount", "transaction_amount");
    ("Transaction Date", "transaction_date"); ("Payment Status", "status");
    ("Payment ID", "payment_online_transaction_id");
    ("Card Type", "card_type"); ("Card Number", "masked_card");
    ("Transaction Type", "transaction_type");
    ("Posting Date", "posting_date")
   ]);
  ("metabase",
   [
    ("RRN", "rrn"); ("Auth Code", "authorization_code");
    ("Transaction Amount", "transaction_amount");
    ("Transaction Date", "transaction_date"); ("Payment Status", "status");
    ("payment_online_transaction_id", "gateway_order_id");
    ("Response Code", "response_code"); ("Order ID", "portal_order_id")
   ]);
  ("checkout_v1",
   [
    ("Acquirer Reference ID", "rrn"); ("Auth Code", "authorization_code");
    ("Amount", "transaction_amount");
    ("Action Date UTC", "transaction_date"); ("Action Type", "status");
    ("Payment ID", "payment_online_transaction_id");
    ("Response Code", "response_code"); ("Reference", "order_id")
   ]);
  ("checkout_v2",
   [
    ("Acquirer Reference Number", "rrn");
    ("Auth Code", "authorization_code"); ("Amount", "transaction_amount");
    ("Action Date UTC", "action_date_utc_1"); ("Action Type", "status");
    ("Payment ID", "payment_online_transaction_id");
    ("Response Code", "response_code"); ("Reference", "order_id")
   ]);
  ("tamara",
   [
    ("Merchant Order Number", "order_id");
    ("Tamara Order Id", "payment_online_transaction_id");
    ("Order Amount", "transaction_amount");
    ("Transaction Date DD/MM/YYYY", "txn_created_at_gmt_03_00");
    ("Order Status", "status"); ("RRN", "rrn");
    ("Auth Code", "authorization_code");
    ("Payment Type", "payment_method"); ("Event", "transaction_type");
    ("Currency", "currency")
   ]);
  ("payfort",
   [
    ("Merchant Reference", "order_id");
    ("FORT ID", "payment_online_transaction_id");
    ("Amount", "transaction_amount"); ("Date & Time", "transaction_date");
    ("time", "time"); ("Operation", "status");
    ("Response Code", "response_code");
    ("Reconciliation Reference (RRN)", "rrn");
    ("Authorization Code", "authorization_code");
    ("Payment Option", "payment_method");
    ("Payment Method", "payment_method_type"); ("Channel", "channel")
   ])
].

(** Column type overrides by field name. *)
Definition FIELD_TYPE_OVERRIDES : list (string * string) := [
  ("order_id", "integer"); ("portal_order_id", "integer");
  ("gateway_order_id", "integer"); ("rrn", "string"); ("amount", "float");
  ("transaction_amount", "float"); ("total", "float"); ("fees", "float");
  ("cash", "float"); ("wallet_paid_amount", "float");
  ("chef_total", "float"); ("commission_amount", "float");
  ("transaction_date", "date"); ("action_date_utc_1", "date");
  ("txn_created_at_gmt_03_00", "date"); ("posting_date", "date");
  ("time", "time")
].

(** The dtype of a pandas Series, as far as the inference looks at it. *)
Inductive dtype := ObjectDtype | IntegerDtype | FloatDtype | DatetimeDtype.

(** A column of a sampled file: its header, its cells ([None] for a
    missing value) and its dtype. *)
Record series := {
  name : string;
  values : list (option string);
  dtype_of : dtype
}.

Definition dataframe := list series.

Definition is_integer_dtype (d : dtype) : bool :=
  match d with IntegerDtype => true | _ => false end.
Definition is_float_dtype (d : dtype) : bool :=
  match d with FloatDtype => true | _ => false end.
Definition is_datetime64_any_dtype (d : dtype) : bool :=
  match d with DatetimeDtype => true | _ => false end.

(** [series.dropna()] *)
Definition dropna (l : list (option string)) : list string :=
  flat_map (fun v => match v with Some s => [s] | None => [] end) l.

(** [re.sub(r"[^\w]+", "_", s)]: each run of non-word characters becomes
    one underscore. *)
Fixpoint sub_non_word (in_run : bool) (s : string) : string :=
  match s with
  | EmptyString => EmptyString
  | String c s' =>
      if Py.is_word c then String c (sub_non_word false s')
      else if in_run then sub_non_word true s'
      else String "_"%char (sub_non_word true s')
  end.

(** [re.sub(r"__+", "_", s)]: each run of two or more underscores becomes
    one. *)
Fixpoint sub_underscores (in_run : bool) (s : string) : string :=
  match s with
  | EmptyString => EmptyString
  | String c s' =>
      if Ascii.eqb c "_"%char then
        if in_run then sub_underscores true s'
        else String c (sub_underscores true s')
      else String c (sub_underscores false s')
  end.

(** [snake]: any header to snake_case. *)
Definition snake (header : string) : string :=
  Str.strip_by (Ascii.eqb "_"%char)
    (sub_underscores false (sub_non_word false (Str.lower (Str.strip header)))).

Definition source_mapping (source : string) : option (list (string * string)) :=
  let fix find (l : list (string * list (string * string))) :=
    match l with
    | [] => None
    | (k, v) :: l' => if String.eqb source k then Some v else find l'
    end in
  find SOURCE_MAPPINGS.

(** [map_standard_name] *)
Definition map_standard_name (col_name source : string) : string :=
  match match source_mapping source with
        | Some m => Py.get col_name m
        | None => None
        end with
  | Some mapped => mapped
  | None =>
      let mapped_name := snake col_name in
      if String.eqb mapped_name "id" then "source_id" else mapped_name
  end.

Section Guess.
(** [s.sample(n, random_state=0)] of pandas and the success of
    [dateutil]'s [parse(str(v), fuzzy=False)]. *)
Variable sample : nat -> list string -> list string.
Variable looks_like_date : string -> bool.

Definition any_in (terms : list string) (s : string) : bool :=
  List.existsb (fun term => Str.contains term s) terms.

(** [guess_py_type]: the semantic type of a sampled column. *)
Definition guess_py_type (ser : series) (mapped_name : string) : string :=
  match Py.get mapped_name FIELD_TYPE_OVERRIDES with
  | Some t => t
  | None =>
    if any_in DATE_COLUMNS mapped_name || Str.contains "date" mapped_name
    then "date"
    else
      let s := dropna (values ser) in
      match s with
      | [] => "string"
      | first_val :: _ =>
        if any_in ["card"; "cc"; "bin"; "pan"; "masked"] (Str.lower (name ser))
        then "string"
        else if Str.contains "*" first_val && Str.existsb Str.is_digit first_val
        then "string"
        else if any_in ["amount"; "total"; "fees"; "cash"] (Str.lower (name ser))
        then "float"
        else if is_integer_dtype (dtype_of ser) then "integer"
        else if is_float_dtype (dtype_of ser) then "float"
        else if is_datetime64_any_dtype (dtype_of ser) then "date"
        else
          let samples := sample (Nat.min (List.length s) 6) s in
          let parsed := List.length (List.filter looks_like_date samples) in
          if (List.length samples / 2 <=? parsed)%nat then "date" else "string"
      end
  end.

(** An entry of the [columns] dict. *)
Record col_spec := {
  original : string;
  map_to : string;
  py_type : string;
  sql_type : string
}.

(** The UTF-8 bytes of U+FEFF. *)
Definition bom : string :=
  String (ascii_of_nat 239) (String (ascii_of_nat 187)
    (String (ascii_of_nat 191) EmptyString)).

Definition clean_header (col : string) : string :=
  Str.strip (Str.replace bom EmptyString col).

Definition has_key {V : Type} (k : string) (d : list (string * V)) : bool :=
  List.existsb (fun kv => String.eqb k (fst kv)) d.

(** The first loop of [analyse_csv]: the headers that the mapping of
    the source names, where the file has them. *)
Fixpoint analyse_mapped (df : dataframe) (mapping : list (string * string))
    (out : list (string * col_spec)) : list (string * col_spec) :=
  match mapping with
  | [] => out
  | (original_col, mapped_name) :: mapping' =>
      match List.filter (fun col => String.eqb (clean_header (name col)) original_col)
                        df with
      | col :: _ =>
          if has_key mapped_name out then analyse_mapped df mapping' out
          else analyse_mapped df mapping'
                 (out ++ [(mapped_name,
                           {| original := original_col;
                              map_to := mapped_name;
                              py_type := guess_py_type col mapped_name;
                              sql_type := "VARCHAR(255)" |})])
      | [] => analyse_mapped df mapping' out
      end
  end.

(** The second loop: the remaining columns of the file. *)
Fixpoint analyse_rest (source : string) (cols : dataframe)
    (out : list (string * col_spec)) : list (string * col_spec) :=
  match cols with
  | [] => out
  | col :: cols' =>
      let clean_col := clean_header (name col) in
      if match source_mapping source with
         | Some m => has_key clean_col m
         | None => false
         end
      then analyse_rest source cols' out
      else
        let mapped_name := map_standard_name clean_col source in
        if has_key mapped_name out then analyse_rest source cols' out
        else analyse_rest source cols'
               (out ++ [(mapped_name,
                         {| original := clean_col;
                            map_to := mapped_name;
                            py_type := guess_py_type col mapped_name;
                            sql_type := "VARCHAR(255)" |})])
  end.

(** [analyse_csv] on the sample that was read from a file. *)
Definition analyse_csv (df : dataframe) (source : string)
  : list (string * col_spec) :=
  let out := match source_mapping source with
             | Some m => analyse_mapped df m []
             | None => []
             end in
  analyse_rest source df out.

(** The merge over the files of a source: a canonical name keeps the
    entry of the first file that has it. *)
Fixpoint merge_columns (file_columns columns : list (string * col_spec))
  : list (string * col_spec) :=
  match file_columns with
  | [] => columns
  | (mapped_name, spec) :: rest =>
      if has_key mapped_name columns then merge_columns rest columns
      else merge_columns rest (columns ++ [(mapped_name, spec)])
  end.

(** The type that the last loop of [build] enforces by canonical name. *)
Definition enforce_py_type (mapped_name py : string) : string :=
  if Str.mem mapped_name DATE_COLUMNS || Str.contains "date" mapped_name
  then "date"
  else if Str.mem mapped_name ["order_id"; "portal_order_id"; "gateway_order_id"]
  then "integer"
  else if String.eqb mapped_name "rrn" then "string"
  else if any_in ["amount"; "total"; "fee"; "cash"] mapped_name then "float"
  else py.

Definition text_columns (src : string) : list string :=
  let fix find (l : list (string * list string)) :=
    match l with
    | [] => []
    | (k, v) :: l' => if String.eqb src k then v else find l'
    end in
  find TEXT_COLUMNS.

Definition sql_type_for (src mapped_name py : string) : string :=
  if Str.mem mapped_name (text_columns src) then "TEXT"
  else if String.eqb src "payfort" && String.eqb mapped_name "time" then "TIME"
  else match Py.get py SQL_TYPE_MAP with
       | Some t => t
       | None => "VARCHAR(255)"
       end.

Definition finish_spec (src : string) (entry : string * col_spec)
  : string * col_spec :=
  let (mapped_name, spec) := entry in
  let py := enforce_py_type mapped_name (py_type spec) in
  (mapped_name,
   {| original := original spec; map_to := map_to spec;
      py_type := py; sql_type := sql_type_for src mapped_name py |}).

Record source_config := {
  target_table : string;
  columns : list (string * col_spec)
}.

Inductive build_error :=
| NoMappingForSource (src : string)
| DuplicateTargetTable (table : string)
| FailedToRead (src : string).

(** The columns of one source from the samples of its files; a file
    that cannot be read is [None]. *)
Fixpoint source_columns (src : string) (files : list (option dataframe))
    (columns : list (string * col_spec))
  : option (list (string * col_spec)) :=
  match files with
  | [] => Some columns
  | None :: _ => None
  | Some df :: files' =>
      source_columns src files' (merge_columns (analyse_csv df src) columns)
  end.

(** [build]: the registry of the sources listed in the paths file, each
    with the samples of its files.  [TABLE_MAP] is empty, so the target
    table of a source is the source. *)
Fixpoint build_from (sources : list (string * list (option dataframe)))
    (seen_tables : list string) (out : list (string * source_config))
  : build_error + list (string * source_config) :=
  match sources with
  | [] => inr out
  | (src, files) :: sources' =>
      match source_mapping src with
      | None => inl (NoMappingForSource src)
      | Some _ =>
          if Str.mem src seen_tables then inl (DuplicateTargetTable src)
          else
            match source_columns src files [] with
            | None => inl (FailedToRead src)
            | Some cols =>
                build_from sources' (src :: seen_tables)
                  (out ++ [(src, {| target_table := src;
                                    columns := map (finish_spec src) cols |})])
            end
      end
  end.

Definition build (sources : list (string * list (option dataframe)))
  : build_error + list (string * source_config) :=
  build_from sources [] [].
End Guess.

End Inference.

(** ** [data_cleaner.py]: the batch loop of [FileProcessor] *)

Module Batch.

(** What happens to one chunk inside the [try] of the loop: it is
    cleaned, conformed, counted, converted and written; or cleaning or
    conformance raises before the rows are counted; or the conversion or
    the write raises after they were counted. *)
Inductive batch :=
| Written (rows : nat)
| FailsBeforeCount
| FailsAtWrite (rows : nat).

(** What the reader yields: a chunk, or an exception of its own. *)
Inductive step :=
| Chunk (b : batch)
| ReaderRaises.

(** The counters of a [FileProcessor]. *)
Record processor := {
  total_rows : nat;
  error_count : nat
}.

(** The state of the loop: the counters, the batches written to the
    Parquet file so far and the number of chunks taken from the reader. *)
Record loop_state := {
  counters : processor;
  written : list nat;
  taken : nat
}.

Definition count_error (rows : nat) (s : loop_state) : loop_state :=
  {| counters := {| total_rows := total_rows (counters s) + rows;
                    error_count := S (error_count (counters s)) |};
     written := written s;
     taken := S (taken s) |}.

(** The [for] loop: the state when it ends, and whether it ended by an
    exception.  The handler of a failed batch counts the error and raises
    when the count is then 1. *)
Fixpoint process_batches (steps : list step) (s : loop_state)
  : loop_state * bool :=
  match steps with
  | [] => (s, false)
  | ReaderRaises :: _ => (s, true)
  | Chunk (Written rows) :: rest =>
      process_batches rest
        {| counters := {| total_rows := total_rows (counters s) + rows;
                          error_count := error_count (counters s) |};
           written := written s ++ [rows];
           taken := S (taken s) |}
  | Chunk FailsBeforeCount :: rest =>
      let s' := count_error 0 s in
      if Nat.eqb (error_count (counters s')) 1 then (s', true)
      else process_batches rest s'
  | Chunk (FailsAtWrite rows) :: rest =>
      let s' := count_error rows s in
      if Nat.eqb (error_count (counters s')) 1 then (s', true)
      else process_batches rest s'
  end.

Inductive result := Finished | RuntimeError.

(** The end of a run: how it ended, the counters, the batches in the
    output file ([None] when there is no file) and the chunks taken. *)
Record run := {
  outcome : result;
  final : processor;
  output : option (list nat);
  chunks_taken : nat
}.

(** [_process_file_in_batches], once reader and writer are open.  On an
    exception the handler closes the writer and removes the partial file;
    [remove_ok] says whether [os.remove] succeeds. *)
Definition _process_file_in_batches (steps : list step) (remove_ok : bool)
    (p : processor) : run :=
  let (s, raised) :=
    process_batches steps {| counters := p; written := []; taken := 0 |} in
  if raised then
    {| outcome := RuntimeError; final := counters s;
       output := if remove_ok then None else Some (written s);
       chunks_taken := taken s |}
  else
    {| outcome := Finished; final := counters s;
       output := Some (written s); chunks_taken := taken s |}.

(** [process_file] resets the counters before it runs the loop. *)
Definition process_file (steps : list step) (remove_ok : bool) : run :=
  _process_file_in_batches steps remove_ok {| total_rows := 0; error_count := 0 |}.

Definition fails (b : batch) : bool :=
  match b with Written _ => false | _ => true end.

Definition all_written (rows : list nat) : list step :=
  map (fun n => Chunk (Written n)) rows.

End Batch.

(** ** [data_cleaner.py]: cells, values and the column cleaners *)

From Stdlib Require QArith Qround Qpower Lqa.

(** Python's [float], as far as the conversion of the spreadsheet serials
    uses it: the binary64 numbers that are not negative, written as the
    rationals they are, and the infinity that an overflow leaves.  An
    operation is the exact one followed by the rounding to 53 significant
    bits, to the nearest number and to the even one of two that are
    equally near. *)
Module Binary64.
Import QArith Qround Qpower.
Local Open Scope Q_scope.

Inductive float :=
| Finite (q : Q)
| Infinity.

(** The whole part of the binary logarithm of a positive rational. *)
Definition ilog2 (q : Q) : Z :=
  let d := (Z.log2 (Qnum q) - Z.log2 (Zpos (Qden q)))%Z in
  if Qle_bool (2 ^ d) q then d else (d - 1)%Z.

(** The nearest whole number, the even one at a tie. *)
Definition nearest_even (t : Q) : Z :=
  let f := Qfloor t in
  match Qcompare (t - inject_Z f) (1 # 2) with
  | Lt => f
  | Gt => (f + 1)%Z
  | Eq => if Z.even f then f else (f + 1)%Z
  end.

(** The binary64 number of a rational that is not negative: a whole
    multiple of [2 ^ e], where [e] leaves 53 bits to the multiple and is
    not below the exponent of the subnormal numbers; from [2 ^ 1024] on
    the result is the infinity. *)
Definition round (q : Q) : float :=
  if Qle_bool q 0 then Finite 0
  else
    let e := Z.max (ilog2 q - 52) (-1074) in
    let r := inject_Z (nearest_even (q / 2 ^ e)) * 2 ^ e in
    if Qle_bool (2 ^ 1024) r then Infinity else Finite (Qred r).

(** [x > y], [x - y] and [x * y] for a float [x] and a whole number [y]
    that binary64 holds, and [int(x)]; [None] where [int] raises. *)
Definition gt (x : float) (y : Z) : bool :=
  match x with
  | Finite q => negb (Qle_bool q (inject_Z y))
  | Infinity => true
  end.

Definition sub (x : float) (y : Z) : float :=
  match x with
  | Finite q => round (q - inject_Z y)
  | Infinity => Infinity
  end.

Definition mul (x : float) (y : Z) : float :=
  match x with
  | Finite q => round (q * inject_Z y)
  | Infinity => Infinity
  end.

Definition int (x : float) : option Z :=
  match x with
  | Finite q => Some (Qfloor q)
  | Infinity => None
  end.

(** [float(text)] for a decimal number: [n / 10 ^ k]. *)
Definition of_decimal (n : Z) (k : nat) : float :=
  round (inject_Z n / inject_Z (10 ^ Z.of_nat k)).

End Binary64.

Module Frame.

(** The nulls that pandas tells apart when it prints them. *)
Inductive null_kind := PyNone | NaN | PdNA | NaT.

(** A cell of a raw column, read with [dtype=str]: a string or a null. *)
Inductive cell :=
| Missing (k : null_kind)
| Text (s : string).

(** What [pd.to_numeric] reads from a text: a whole number, or a number
    that Int64 cannot hold (a fraction, an infinity), kept as its text. *)
Inductive number :=
| Whole (z : Z)
| NotWhole (text : string).

(** A cell of a cleaned column.  A timestamp is in nanoseconds since
    1970-01-01, a time of day in seconds. *)
Inductive value :=
| Null (k : null_kind)
| Str (s : string)
| Int (z : Z)
| Float (x : number)
| Bool (b : bool)
| Timestamp (ns : Z)
| Time (secs : Z).

Definition isna (c : cell) : bool :=
  match c with Missing _ => true | Text _ => false end.

Definition is_null (v : value) : bool :=
  match v with Null _ => true | _ => false end.

(** [series.astype(str)] on one cell. *)
Definition astype_str (c : cell) : string :=
  match c with
  | Missing PyNone => "None"
  | Missing NaN => "nan"
  | Missing PdNA => "<NA>"
  | Missing NaT => "NaT"
  | Text s => s
  end.

(** A raw cell kept as it is in a cleaned column. *)
Definition unmodified (c : cell) : value :=
  match c with
  | Missing k => Null k
  | Text s => Str s
  end.

End Frame.

Module Cleaner.
Import Frame.

(** [DataCleaner.is_null_string] on a string. *)
Definition is_null_string (s : string) : bool :=
  String.eqb (Str.lower s) "none" || String.eqb (Str.lower s) "nan"
  || String.eqb s "<NA>".






(** *** StringCleaner *)

(** [s.endswith(c)] and [s[:-1]] *)
Fixpoint ends_with_char (c : ascii) (s : string) : bool :=
  match s with
  | EmptyString => false
  | String c' EmptyString => Ascii.eqb c c'
  | String _ s' => ends_with_char c s'
  end.

Fixpoint drop_last (s : string) : string :=
  match s with
  | EmptyString => EmptyString
  | String _ EmptyString => EmptyString
  | String c s' => String c (drop_last s')
  end.

Definition is_newline (c : ascii) : bool := Ascii.eqb c (ascii_of_nat 10).

(** The replacement of the Excel formula remnant, an equals sign and a
    quoted text: the text between the opening quote and a closing quote at
    the end of the string, or just before a newline that ends it; the dot
    of the pattern takes no newline.  A string without such a match is
    left alone. *)
Definition excel_unwrap (s : string) : string :=
  if String.prefix ("=" ++ Str.dquote) s then
    let body := Str.drop 2 s in
    if ends_with_char (ascii_of_nat 34) body then
      let inner := drop_last body in
      if Str.existsb is_newline inner then s else inner
    else if ends_with_char (ascii_of_nat 10) body
            && ends_with_char (ascii_of_nat 34) (drop_last body) then
      let inner := drop_last (drop_last body) in
      if Str.existsb is_newline inner then s else inner ++ Str.nl
    else s
  else s.

(** [re.sub(r'\r\n|\n\r|\r|\n', ' ', s)] *)
Fixpoint newlines_to_spaces (s : string) : string :=
  match s with
  | EmptyString => EmptyString
  | String c s' =>
      let cr := ascii_of_nat 13 in
      let lf := ascii_of_nat 10 in
      if Ascii.eqb c cr || Ascii.eqb c lf then
        match s' with
        | String c' s'' =>
            if (Ascii.eqb c cr && Ascii.eqb c' lf) || (Ascii.eqb c lf && Ascii.eqb c' cr)
            then String " "%char (newlines_to_spaces s'')
            else String " "%char (newlines_to_spaces s')
        | EmptyString => String " "%char EmptyString
        end
      else String c (newlines_to_spaces s')
  end.

(** The class [[\x00-\x1F\x7F]] *)
Definition is_control (c : ascii) : bool :=
  (nat_of_ascii c <=? 31)%nat || (nat_of_ascii c =? 127)%nat.

Definition strip_control (s : string) : string :=
  Str.filter (fun c => negb (is_control c)) s.

Definition clean_string (s : string) : string :=
  strip_control (newlines_to_spaces (Str.strip (excel_unwrap s))).

(** [StringCleaner.clean] on one cell: only a real null becomes [pd.NA]. *)
Definition string_cell (c : cell) : value :=
  match c with
  | Missing _ => Null PdNA
  | Text s => Str (clean_string s)
  end.

Definition StringCleaner (series : list cell) : list value :=
  map string_cell series.

(** *** TextCleaner *)

Definition bytes (l : list nat) : string :=
  fold_right (fun n s => String (ascii_of_nat n) s) EmptyString l.

(** [common_replacements]: mis-decoded Arabic letters, as UTF-8 bytes. *)
Definition common_replacements : list (string * string) := [
  (bytes [195; 131; 203; 156], bytes [216; 167]);
  (bytes [195; 153; 226; 128; 160], bytes [217; 134]);
  (bytes [195; 152; 194; 185], bytes [216; 185]);
  (bytes [195; 152; 194; 167], bytes [216; 167]);
  (bytes [195; 153; 226; 128; 166], bytes [217; 133])
].

(** [re.sub(r'\s+', ' ', s)] *)
Fixpoint collapse_spaces (in_run : bool) (s : string) : string :=
  match s with
  | EmptyString => EmptyString
  | String c s' =>
      if Str.is_space c then
        if in_run then collapse_spaces true s'
        else String " "%char (collapse_spaces true s')
      else String c (collapse_spaces false s')
  end.

Definition repair_text (s : string) : string :=
  let s1 := fold_left (fun acc r => Str.replace (fst r) (snd r) acc)
                      common_replacements s in
  let s2 := Str.replace "&amp;" "&" s1 in
  let s3 := Str.replace "&lt;" "<" s2 in
  let s4 := Str.replace "&gt;" ">" s3 in
  let s5 := Str.replace "&quot;" Str.dquote s4 in
  collapse_spaces false s5.

Definition text_cell (c : cell) : value :=
  match string_cell c with
  | Str s => Str (repair_text s)
  | v => v
  end.

Definition TextCleaner (series : list cell) : list value := map text_cell series.

(** *** BooleanCleaner *)

Definition true_values : list string :=
  ["yes"; "y"; "true"; "t"; "1"; "on"; "completed"; "success"].
Definition false_values : list string :=
  ["no"; "n"; "false"; "f"; "0"; "off"; "failed"; "failure"].

Definition boolean_cell (c : cell) : value :=
  let s := Str.lower (astype_str c) in
  if Str.mem s false_values then Bool false
  else if Str.mem s true_values then Bool true
  else Null PdNA.

Definition BooleanCleaner (series : list cell) : list value := map boolean_cell series.

(** *** The cleaners that call into pandas and the standard library *)

Section Library.

(** [pd.to_numeric(text, errors='coerce')] on one string: [None] is NaN,
    for a text that is no number and for the literal nan alike. *)
Variable to_numeric : string -> option number.

(** [pd.to_datetime(texts, format=fmt, errors='coerce')] on one string. *)
Variable to_datetime_format : string -> string -> option Z.

(** [pd.to_datetime(texts, errors='coerce', dayfirst=False,
    yearfirst=False)]: pandas settles on a format from the series, so the
    result for one text depends on the others. *)
Variable to_datetime_infer : list string -> list (option Z).

(** [datetime.strptime(text, fmt).time()], [None] when it raises. *)
Variable strptime_time : string -> string -> option Z.

(** [int(hex, 16)] and [str(uuid.UUID(int=n))]. *)
Variable int_base16 : string -> option Z.
Variable uuid_str : Z -> string.

(** *** IntegerCleaner *)

Definition numeric_cell (c : cell) : option number :=
  match c with
  | Missing _ => None
  | Text s => to_numeric s
  end.

(** [astype(pd.Int64Dtype())] on the coerced numbers: a number that is not
    whole makes the cast raise for the whole series. *)
Fixpoint astype_Int64 (l : list (option number)) : option (list value) :=
  match l with
  | [] => Some []
  | None :: l' => option_map (cons (Null PdNA)) (astype_Int64 l')
  | Some (Whole z) :: l' => option_map (cons (Int z)) (astype_Int64 l')
  | Some (NotWhole _) :: _ => None
  end.

(** [IntegerCleaner.clean]; [None] when it raises. *)
Definition IntegerCleaner (series : list cell) : option (list value) :=
  astype_Int64 (map numeric_cell series).

(** *** FloatCleaner *)

Definition float_null_strings : list string :=
  [EmptyString; "None"; "NULL"; "null"; "NA"; "N/A"; "na"; "n/a"; "<NA>"].

(** The class [[0-9.-]] that the cleaner keeps. *)
Definition is_numeric_char (c : ascii) : bool :=
  Str.is_digit c || Ascii.eqb c "."%char || Ascii.eqb c "-"%char.

Definition float_cell (c : cell) : value :=
  let str := astype_str c in
  let null_mask := isna c || Str.mem (Str.strip str) float_null_strings in
  let cleaned := Str.filter is_numeric_char str in
  if null_mask then Null PdNA
  else match cleaned with
       | EmptyString => Null PdNA
       | _ => match to_numeric cleaned with
              | Some x => Float x
              | None => Null PdNA
              end
       end.


(** *** UuidCleaner *)





(** *** DateCleaner *)

(** [null_mask]: a real null, or a string that [is_null_string] accepts. *)
Definition null_mask (c : cell) : bool := isna c || is_null_string (astype_str c).

Definition source_formats (source : string) : list string :=
  if String.eqb source "tamara" then ["%m/%d/%Y %H:%M"; "%m/%d/%Y"]
  else if String.eqb source "payfort" then ["%Y-%m-%d"]
  else if String.eqb source "metabase" then ["%Y-%m-%d %H:%M:%S"; "%m/%d/%Y"]
  else if String.eqb source "checkout_v1" then ["%m/%d/%Y"; "%Y-%m-%d %H:%M:%S"]
  else if String.eqb source "checkout_v2" then ["%Y-%m-%d %H:%M:%S"; "%m/%d/%Y"]
  else if String.eqb source "bank" then ["%d-%m-%Y"]
  else if String.eqb source "portal" then ["%d/%m/%Y"]
  else [].

Definition date_formats : list string := [
  "%d/%m/%Y"; "%m/%d/%Y"; "%Y-%m-%d"; "%d-%m-%Y"; "%Y/%m/%d"; "%d.%m.%Y";
  "%m.%d.%Y"; "%d %b %Y"; "%b %d %Y"; "%Y%m%d"; "%d/%m/%Y %H:%M:%S";
  "%m/%d/%Y %H:%M:%S"; "%Y-%m-%d %H:%M:%S"
].

Definition all_digits (s : string) : bool :=
  negb (Str.existsb (fun c => negb (Str.is_digit c)) s).

(** A match of the pattern for numeric texts, digits and optionally a
    point with further digits: the digits before the point and those after
    it.  The end anchor also matches before a newline that ends the
    string. *)
Definition numeric_parts (s : string) : option (string * string) :=
  let s := if ends_with_char (ascii_of_nat 10) s then drop_last s else s in
  let int_part := Py.take_while Str.is_digit s in
  let rest := Py.drop_while Str.is_digit s in
  match int_part, rest with
  | EmptyString, _ => None
  | _, EmptyString => Some (int_part, EmptyString)
  | _, String c frac =>
      if Ascii.eqb c "."%char && all_digits frac then Some (int_part, frac)
      else None
  end.

Definition digit_value (c : ascii) : Z := Z.of_nat (nat_of_ascii c - 48).

(** The number that a string of digits writes. *)
Definition Z_of_digits (s : string) : Z :=
  let fix go (acc : Z) (s : string) : Z :=
    match s with
    | EmptyString => acc
    | String c s' => go (10 * acc + digit_value c)%Z s'
    end in
  go 0%Z s.

Definition ns_per_day : Z := 86400 * 1000000000.

(** [Timestamp('1899-12-30')]: 25569 days before 1970-01-01. *)
Definition excel_base : Z := (- 25569) * ns_per_day.

(** [float(text)] for a numeric text: the digits before and after the
    point write a decimal number. *)
Definition float_of_numeric (int_part frac : string) : Binary64.float :=
  Binary64.of_decimal (Z_of_digits (int_part ++ frac)) (String.length frac).

(** The largest [pd.Timedelta], in nanoseconds. *)
Definition max_timedelta : Z := 2 ^ 63 - 1.

(** [pd.Timedelta(days=days)] for a float: pandas works out the
    nanoseconds in floating point, as
    [int(((days * 24) * 3600) * 1_000_000_000)], and raises when the
    number is an infinity or more than 64 bits hold. *)
Definition Timedelta_days (days : Binary64.float) : option Z :=
  let seconds := Binary64.mul (Binary64.mul days 24) 3600 in
  match Binary64.int (Binary64.mul seconds 1000000000) with
  | Some ns => if (ns <=? max_timedelta)%Z then Some ns else None
  | None => None
  end.

(** The Excel stage for one text that is no null: the Timestamp it stores,
    or [None] when the text is not numeric or the conversion raises (the
    exception is caught and the cell stays NaT). *)
Definition excel_date (s : string) : option Z :=
  match numeric_parts s with
  | None => None
  | Some (int_part, frac) =>
      let days := float_of_numeric int_part frac in
      let days := if Binary64.gt days 59 then Binary64.sub days 1 else days in
      match Timedelta_days days with
      | Some delta => Some (excel_base + delta)%Z
      | None => None
      end
  end.

Definition is_none {A : Type} (o : option A) : bool :=
  match o with None => true | Some _ => false end.

(** The texts of the cells that are still to be parsed: not null by the
    mask, and without a result so far. *)
Fixpoint remaining (series : list cell) (result : list (option Z)) : list string :=
  match series, result with
  | c :: series', r :: result' =>
      if negb (null_mask c) && is_none r
      then astype_str c :: remaining series' result'
      else remaining series' result'
  | _, _ => []
  end.

(** The results of a parse of the remaining texts, written back to their
    places; a text that did not parse stays without a result. *)
Fixpoint write_back (series : list cell) (result parsed : list (option Z))
  : list (option Z) :=
  match series, result with
  | c :: series', r :: result' =>
      if negb (null_mask c) && is_none r then
        match parsed with
        | p :: parsed' => p :: write_back series' result' parsed'
        | [] => r :: write_back series' result' []
        end
      else r :: write_back series' result' parsed
  | _, _ => []
  end.

Definition stage (parse : list string -> list (option Z)) (series : list cell)
    (result : list (option Z)) : list (option Z) :=
  write_back series result (parse (remaining series result)).

Definition format_stage (series : list cell) (result : list (option Z))
    (fmt : string) : list (option Z) :=
  stage (map (to_datetime_format fmt)) series result.

Definition excel_stage (series : list cell) : list (option Z) :=
  map (fun c => if null_mask c then None else excel_date (astype_str c)) series.

(** [DateCleaner.clean]: the nulls of the mask, the Excel serials, the
    formats of the source, the generic formats, then the inference of
    pandas; each stage works on what the earlier ones left. *)
Definition DateCleaner_results (source : string) (series : list cell)
  : list (option Z) :=
  let r1 := excel_stage series in
  let r2 := fold_left (format_stage series) (source_formats source) r1 in
  let r3 := fold_left (format_stage series) date_formats r2 in
  stage to_datetime_infer series r3.

Definition timestamp_value (r : option Z) : value :=
  match r with
  | Some ns => Timestamp ns
  | None => Null NaT
  end.

Definition DateCleaner (source : string) (series : list cell) : list value :=
  map timestamp_value (DateCleaner_results source series).

(** *** TimeCleaner *)

Definition time_formats : list string :=
  ["%H:%M:%S"; "%H:%M"; "%I:%M:%S %p"; "%I:%M %p"].

(** One pass of the loop over [time_formats]: [strptime] on the stripped
    text of each cell that is not null by the mask and has no result. *)
Definition time_pass (series : list cell) (result : list (option Z)) (fmt : string)
  : list (option Z) :=
  stage (map (fun text => strptime_time fmt (Str.strip text))) series result.

(** [Series.dt.time] on a Timestamp: the time of day, in seconds. *)
Definition dt_time (ns : Z) : Z := (ns / 1000000000) mod 86400.

(** The first pass: [pd.to_datetime] with the format [%H:%M:%S] on the
    cells that are not null by the mask, and the time of day of what it
    reads. *)
Definition first_pass (series : list cell) (result : list (option Z))
  : list (option Z) :=
  stage (map (fun text => option_map dt_time (to_datetime_format "%H:%M:%S" text)))
        series result.

(** What the column returned holds for a cell: [None] where the mask
    takes the cell, the time that was read, and otherwise the NaT that the
    first pass has filled in for a text it did not read. *)
Definition time_value (c : cell) (r : option Z) : value :=
  if null_mask c then Null PyNone
  else match r with
       | Some t => Time t
       | None => Null NaT
       end.

Fixpoint time_values (series : list cell) (result : list (option Z)) : list value :=
  match series, result with
  | c :: series', r :: result' => time_value c r :: time_values series' result'
  | _, _ => []
  end.

(** [TimeCleaner.clean]; [None] when it raises.  After the first pass the
    name [problematic] is bound only if some cell is still without a
    result, and it is read in any case; the conversion of the Excel
    fractions ends in an exception for every cell and leaves no result. *)
Definition TimeCleaner (series : list cell) : option (list value) :=
  if forallb null_mask series then Some (map (fun _ => Null PyNone) series)
  else
    let r0 := map (fun _ : cell => @None Z) series in
    let r1 := first_pass series r0 in
    match remaining series r1 with
    | [] => None
    | _ => Some (time_values series (fold_left (time_pass series) time_formats r1))
    end.

End Library.

End Cleaner.

(** ** [data_cleaner.py]: the schema-driven transformer and schema
    conformance *)

Module Transformer.
Import Frame.

(** The dtypes that schema conformance tells apart. *)
Inductive dtype :=
| ObjectDtype
| Int64Dtype
| Float64Dtype
| BooleanDtype
| Datetime64
| StringDtype.

(** A column of a cleaned table. *)
Record column := {
  dtype_of : dtype;
  cells : list value
}.

(** A DataFrame: the length of its index and its columns by name, in
    their order. *)
Record frame (A : Type) := {
  index : nat;
  columns : list (string * A)
}.
Arguments index {A} _.
Arguments columns {A} _.

(** A chunk as it is read, all columns of dtype object, and a table of
    cleaned columns. *)
Definition raw_frame := frame (list cell).
Definition table := frame column.

Definition names {A : Type} (f : frame A) : list string := map fst (columns f).

(** [df.empty]: no rows or no columns. *)
Definition empty {A : Type} (f : frame A) : bool :=
  Nat.eqb (index f) 0 || match columns f with [] => true | _ => false end.

(** [pd.DataFrame(index=df.index)] *)
Definition no_columns {A : Type} (f : frame A) : frame A :=
  {| index := index f; columns := [] |}.

(** [df[labels]]: for each label the columns that carry it. *)
Definition select {A : Type} (labels : list string) (f : frame A) : frame A :=
  {| index := index f;
     columns := flat_map (fun n => filter (fun c => String.eqb n (fst c)) (columns f))
                         labels |}.

(** [df[label]] for one label: the first column that carries it. *)
Definition get_column {A : Type} (label : string) (f : frame A) : option A :=
  match filter (fun c => String.eqb label (fst c)) (columns f) with
  | c :: _ => Some (snd c)
  | [] => None
  end.

(** [df[label] = col]: in place where the label exists, appended where it
    does not. *)
Fixpoint assign {A : Type} (label : string) (col : A) (cols : list (string * A))
  : list (string * A) :=
  match cols with
  | [] => [(label, col)]
  | (n, c) :: cols' =>
      if String.eqb label n then (n, col) :: cols'
      else (n, c) :: assign label col cols'
  end.

Definition set_column {A : Type} (label : string) (col : A) (f : frame A) : frame A :=
  {| index := index f; columns := assign label col (columns f) |}.

(** A column that holds one value in every row. *)
Definition constant (d : dtype) (v : value) (rows : nat) : column :=
  {| dtype_of := d; cells := repeat v rows |}.

(** An entry of the column config: [original], [map_to], [py_type]. *)
Definition col_spec := Inference.col_spec.
Definition column_config := list (string * col_spec).

(** The options dict that a cleaner is called with. *)
Record cleaning_options := {
  source : string;
  column_name : string;
  mapped_name : string
}.

(** A cleaner of the registry; [None] when [clean] raises. *)
Definition cleaner := list cell -> cleaning_options -> option column.

(** [StringCleaner], the cleaner for a type that is not registered. *)
Definition StringCleaner : cleaner :=
  fun series _ => Some {| dtype_of := ObjectDtype;
                          cells := Cleaner.StringCleaner series |}.

Section Transform.

(** The registry [DATA_CLEANERS]. *)
Variable DATA_CLEANERS : string -> option cleaner.

(** The order in which Python lists the elements of a set. *)
Variable list_of_set : list string -> list string.

(** [pd.Timestamp.now()] at [_add_metadata], and at schema conformance
    should it have to add the column. *)
Variable now : Z.
Variable now_at_conformance : Z.

Variable config : column_config.
Variable source_id : string.

Definition originals : list string :=
  map (fun entry => Inference.original (snd entry)) config.

(** [_filter_columns] *)
Definition _filter_columns (df : raw_frame) : raw_frame :=
  let columns_to_keep :=
    list_of_set (filter (fun n => Str.mem n (names df)) originals) in
  match columns_to_keep with
  | [] => no_columns df
  | _ =>
      let filtered_df := select columns_to_keep df in
      if empty filtered_df && negb (empty df) then no_columns df
      else filtered_df
  end.

(** [_remove_null_bytes]: every cell becomes its string without control
    characters, a null its printed form. *)
Definition _remove_null_bytes (df : raw_frame) : raw_frame :=
  if empty df then df
  else {| index := index df;
          columns := map (fun c =>
                            (fst c,
                             map (fun x => Text (Cleaner.strip_control (astype_str x)))
                                 (snd c)))
                         (columns df) |}.

(** A raw column copied as it is. *)
Definition copy (series : list cell) : column :=
  {| dtype_of := ObjectDtype; cells := map unmodified series |}.

(** One turn of the loop of [_transform_columns]: the column is cleaned
    and stored under its canonical name; where the cleaner raises, the raw
    column is stored instead. *)
Definition transform_column (df : raw_frame) (result_df : table)
    (entry : string * col_spec) : table :=
  let specs := snd entry in
  let original_name := Inference.original specs in
  let mapped := Inference.map_to specs in
  match get_column original_name df with
  | None => result_df
  | Some original_series =>
      let cleaner_class :=
        match DATA_CLEANERS (Inference.py_type specs) with
        | Some c => c
        | None => StringCleaner
        end in
      match cleaner_class original_series
              {| source := source_id; column_name := original_name;
                 mapped_name := mapped |} with
      | Some cleaned_series => set_column mapped cleaned_series result_df
      | None => set_column mapped (copy original_series) result_df
      end
  end.

(** [_transform_columns]: an empty frame is returned as it is. *)
Definition _transform_columns (df : raw_frame) : table :=
  if empty df then
    {| index := index df;
       columns := map (fun c => (fst c, copy (snd c))) (columns df) |}
  else
    fold_left (transform_column df) config {| index := index df; columns := [] |}.

(** [_add_metadata] *)
Definition _add_metadata (df : table) : table :=
  set_column "processed_at" (constant Datetime64 (Timestamp now) (index df))
    (set_column "data_source" (constant ObjectDtype (Str source_id) (index df)) df).

(** [DataFrameTransformer.transform] *)
Definition transform (df : raw_frame) : table :=
  _add_metadata (_transform_columns (_remove_null_bytes (_filter_columns df))).

(** The Arrow types of the target schema. *)
Inductive arrow_type :=
| int64
| float64
| date32
| time32
| bool_
| string_
| timestamp_ns.

Definition arrow_of_py_type (py : string) : arrow_type :=
  if String.eqb py "integer" then int64
  else if String.eqb py "float" then float64
  else if String.eqb py "date" then date32
  else if String.eqb py "time" then time32
  else if String.eqb py "boolean" then bool_
  else string_.

(** [SchemaManager.create_target_schema]: the fields of the schema; their
    names are [target_column_names]. *)
Definition create_target_schema : list (string * arrow_type) :=
  (map (fun entry => (Inference.map_to (snd entry),
                      arrow_of_py_type (Inference.py_type (snd entry)))) config
   ++ [("data_source", string_); ("processed_at", timestamp_ns)])%list.

Definition target_column_names : list string := map fst create_target_schema.

(** The all-null column that stands in for a missing column of a type. *)
Definition null_column (t : arrow_type) (rows : nat) : column :=
  match t with
  | int64 => constant Int64Dtype (Null PdNA) rows
  | float64 => constant Float64Dtype (Null PdNA) rows
  | bool_ => constant BooleanDtype (Null PdNA) rows
  | date32 | time32 | timestamp_ns => constant Datetime64 (Null NaT) rows
  | string_ => constant StringDtype (Null PdNA) rows
  end.

(** The conversions of pandas that bring an existing column to the dtype
    of its field; [None] when the conversion raises, and the column then
    stays as it is. *)
Variable convert : arrow_type -> column -> option column.

Definition needs_conversion (t : arrow_type) (d : dtype) : bool :=
  match t, d with
  | int64, Int64Dtype => false
  | int64, _ => true
  | float64, Float64Dtype => false
  | float64, _ => true
  | bool_, BooleanDtype => false
  | bool_, _ => true
  | date32, Datetime64 => false
  | date32, _ => true
  | time32, _ => false
  | timestamp_ns, _ => false
  | string_, StringDtype => false
  | string_, _ => true
  end.

Definition is_metadata (col_name : string) : bool :=
  String.eqb col_name "data_source" || String.eqb col_name "processed_at".

(** One turn of the loop over the fields of the schema.  [current_columns]
    is the set of the names of the incoming table, taken once before the
    loop. *)
Definition conform_field (current_columns : list string) (result_df : table)
    (field : string * arrow_type) : table :=
  let (col_name, t) := field in
  if is_metadata col_name then
    if Str.mem col_name current_columns then result_df
    else if String.eqb col_name "data_source"
    then set_column col_name
           (constant ObjectDtype (Str source_id) (index result_df)) result_df
    else set_column col_name
           (constant Datetime64 (Timestamp now_at_conformance) (index result_df))
           result_df
  else if negb (Str.mem col_name current_columns)
  then set_column col_name (null_column t (index result_df)) result_df
  else
    match get_column col_name result_df with
    | Some col =>
        if needs_conversion t (dtype_of col) then
          match convert t col with
          | Some col' => set_column col_name col' result_df
          | None => result_df
          end
        else result_df
    | None => result_df
    end.

(** [_ensure_schema_conformance] *)
Definition _ensure_schema_conformance (df : table)
    (schema : list (string * arrow_type)) (column_names : list string) : table :=
  let result_df := fold_left (conform_field (names df)) schema df in
  let final_columns := filter (fun n => Str.mem n (names result_df)) column_names in
  select final_columns result_df.

(** A chunk on its way through the batch loop: cleaned, then conformed
    to the target schema. *)
Definition normalized (df : raw_frame) : table :=
  _ensure_schema_conformance (transform df) create_target_schema target_column_names.

End Transform.

End Transformer.

(** ** Sample data

    One order of [checkout_v1]: an authorisation that carries the RRN and
    the authorisation code, and its capture, which carries neither. *)
Module Sample.

Definition src (status : string) (auth rrn : option string) (code : string)
: Src.row := {|
Src.order_id := Some 1001%Z;
Src.payment_online_transaction_id := Some "pay_1";
Src.status := Some status;
Src.transaction_amount := Some 15000%Z;
Src.txn_amount := None;
Src.transaction_date := Some 19796%Z;
Src.action_date_utc_1 := None;
Src.txn_created_at_gmt_03_00 := None;
Src.authorization_code := auth;
Src.rrn := rrn;
Src.tamara_txn_reference := None;
Src.payment_method := Some "VISA";
Src.payment_method_name := None;
Src.response_code := Some code;
Src.response_description := Some EmptyString;
Src.txn_type := None
|}.

Definition authorisation : Src.row := src "Authorisation" (Some "C1") (Some "A1") "10000".
Definition capture : Src.row := src "Capture" None None "10000".
Definition declined_capture : Src.row := src "Capture" None None "20005".

Definition ga_authorisation : GA.row :=
gateway_select GatewaysConfig.checkout_v1 authorisation.
Definition ga_capture : GA.row :=
gateway_select GatewaysConfig.checkout_v1 capture.
Definition ga_declined_capture : GA.row :=
gateway_select GatewaysConfig.checkout_v1 declined_capture.

Definition bank_exact : Bank.row := {|
Bank.authorization_code := Some "C1"; Bank.rrn := Some "A1";
Bank.transaction_amount := Some 15000%Z; Bank.transaction_date := Some 19796%Z |}.
Definition bank_approx : Bank.row := {|
Bank.authorization_code := Some "C1"; Bank.rrn := Some "R9";
Bank.transaction_amount := Some 15050%Z; Bank.transaction_date := Some 19797%Z |}.

Definition db (captures : list Src.row) : database := {|
checkout_v1 := authorisation :: captures;
checkout_v2 := []; payfort := []; tamara := [];
metabase := [ {| Metabase.gateway_order_id := Some 1001%Z;
                 Metabase.gateway_transaction_id := Some "pay_1";
                 Metabase.portal_order_id := Some 1001%Z |} ];
portal := [ {| Portal.order_id := Some 1001%Z;
               Portal.transaction_date := Some 19796%Z |} ];
bank := [bank_exact; bank_approx]
|}.

(** The capture after the merge with its authorisation. *)
Definition merged_capture : TA.row :=
Analysis.select (window [ga_authorisation; ga_capture] ga_capture).





(** A bank file whose RRN column holds digits only. *)
Definition bank_file : Inference.dataframe := [
{| Inference.name := "RRN";
   Inference.values := [Some "412345678901"; Some "412345678902"];
   Inference.dtype_of := Inference.ObjectDtype |};
{| Inference.name := "Transaction Amount";
   Inference.values := [Some "150.00"; Some "75.50"];
   Inference.dtype_of := Inference.ObjectDtype |};
{| Inference.name := "Terminal";
   Inference.values := [Some "412345678901"; Some "412345678902"];
   Inference.dtype_of := Inference.IntegerDtype |}
].

(** Stand-ins for the sampling of pandas and the parser of dateutil. *)
Definition first_n (n : nat) (l : list string) : list string := firstn n l.
Definition no_date (_ : string) : bool := false.

(** A registry with three of the cleaners; the numbers are read by a
    stand-in for [pd.to_numeric] that knows the unsigned whole numbers. *)
Definition whole_numbers (text : string) : option Frame.number :=
  match text with
  | EmptyString => None
  | _ => if Cleaner.all_digits text
         then Some (Frame.Whole (Cleaner.Z_of_digits text)) else None
  end.

Definition registry (py_type : string) : option Transformer.cleaner :=
  if String.eqb py_type "string" then Some Transformer.StringCleaner
  else if String.eqb py_type "boolean" then
    Some (fun series _ =>
            Some {| Transformer.dtype_of := Transformer.BooleanDtype;
                    Transformer.cells := Cleaner.BooleanCleaner series |})
  else if String.eqb py_type "integer" then
    Some (fun series _ =>
            option_map (fun cells =>
                          {| Transformer.dtype_of := Transformer.Int64Dtype;
                             Transformer.cells := cells |})
                       (Cleaner.IntegerCleaner whole_numbers series))
  else None.

Definition spec (original map_to py_type : string) : string * Inference.col_spec :=
  (map_to, {| Inference.original := original; Inference.map_to := map_to;
              Inference.py_type := py_type; Inference.sql_type := "VARCHAR(255)" |}).

(** A config of three columns and a chunk that lacks the second. *)
Definition bank_config : Transformer.column_config :=
  [spec "RRN" "rrn" "string"; spec "Order Id" "order_id" "integer";
   spec "Payment Status" "status" "string"].

Definition chunk : Transformer.raw_frame := {|
  Transformer.index := 2;
  Transformer.columns :=
    [("Payment Status", [Frame.Text " Approved "; Frame.Text "None"]);
     ("Extra", [Frame.Text "x"; Frame.Text "y"]);
     ("RRN", [Frame.Text "412345678901"; Frame.Missing Frame.NaN])]
|}.

Definition set_order (l : list string) : list string := nodup string_dec l.
Definition no_conversion (_ : Transformer.arrow_type) (_ : Transformer.column)
  : option Transformer.column := None.

Definition no_inference (texts : list string) : list (option Z) :=
  map (fun _ => None) texts.


End Sample.

(** ** Further definitions *)

(** The database whose portal table holds only the orders with a
    transaction date between [lo] and [hi]. *)
Definition portal_within (lo hi : Z) (db : database) : database := {|
  checkout_v1 := checkout_v1 db;
  checkout_v2 := checkout_v2 db;
  payfort := payfort db;
  tamara := tamara db;
  metabase := metabase db;
  portal := filter (fun p => Sql.holds (Sql.between (Portal.transaction_date p) lo hi))
                   (portal db);
  bank := bank db
|}.


(** What holds of the entries of a [columns] dict: each key is the
    canonical name of its entry and is not [id], and, the dict being a
    dict, no key occurs twice. *)
Definition entry_ok (kv : string * Inference.col_spec) : Prop :=
  Inference.map_to (snd kv) = fst kv /\ fst kv <> "id".

Definition columns_ok (cols : list (string * Inference.col_spec)) : Prop :=
  NoDup (map fst cols) /\ Forall entry_ok cols.

(** Two white-space characters side by side somewhere in a string. *)
Fixpoint double_space (s : string) : bool :=
  match s with
  | String a ((String b _) as s') =>
      (Str.is_space a && Str.is_space b) || double_space s'
  | _ => false
  end.

(** A white-space character other than the space. *)
Definition odd_space (c : ascii) : bool :=
  Str.is_space c && negb (Ascii.eqb c " "%char).

(** What [_transform_columns] stores under the canonical name of an entry
    for the series of its original header: the cleaned column, or a copy
    of the series where the cleaner raises. *)
Definition stored_column (DATA_CLEANERS : string -> option Transformer.cleaner)
    (source_id : string) (e : string * Transformer.col_spec)
    (series : list Frame.cell) : Transformer.column :=
  let cleaner_class :=
    match DATA_CLEANERS (Inference.py_type (snd e)) with
    | Some c => c
    | None => Transformer.StringCleaner
    end in
  match cleaner_class series
          {| Transformer.source := source_id;
             Transformer.column_name := Inference.original (snd e);
             Transformer.mapped_name := Inference.map_to (snd e) |} with
  | Some cleaned_series => cleaned_series
  | None => Transformer.copy series
  end.

(** What schema conformance makes of an existing column for a field of
    type [t]. *)
Definition converted_column
    (convert : Transformer.arrow_type -> Transformer.column
               -> option Transformer.column)
    (t : Transformer.arrow_type) (col : Transformer.column) : Transformer.column :=
  if Transformer.needs_conversion t (Transformer.dtype_of col)
  then match convert t col with
       | Some col' => col'
       | None => col
       end
  else col.

(** ** Further sample data *)

Module Sample2.

(** A payfort order with three rows: a capture, a refund and a purchase
    that carries none of the lifecycle words. *)
Definition payfort_row (status : string) : Src.row := {|
  Src.order_id := Some 2002%Z;
  Src.payment_online_transaction_id := Some "pay_2";
  Src.status := Some status;
  Src.transaction_amount := Some 9900%Z;
  Src.txn_amount := None;
  Src.transaction_date := Some 19800%Z;
  Src.action_date_utc_1 := None;
  Src.txn_created_at_gmt_03_00 := None;
  Src.authorization_code := Some "C7";
  Src.rrn := Some "R7";
  Src.tamara_txn_reference := None;
  Src.payment_method := Some "MADA";
  Src.payment_method_name := None;
  Src.response_code := Some "10000";
  Src.response_description := None;
  Src.txn_type := None
|}.

Definition payfort_db : database := {|
  checkout_v1 := []; checkout_v2 := [];
  payfort := [payfort_row "Capture"; payfort_row "Fully_Refunded";
              payfort_row "Approved"];
  tamara := [];
  metabase := [ {| Metabase.gateway_order_id := Some 2002%Z;
                   Metabase.gateway_transaction_id := Some "pay_2";
                   Metabase.portal_order_id := Some 2002%Z |} ];
  portal := [ {| Portal.order_id := Some 2002%Z;
                 Portal.transaction_date := Some 19800%Z |} ];
  bank := []
|}.

End Sample2.

Module Sample3.

(** A request for the payment id of tamara and for a bank column, without
    reconciliation and with a date filter that lacks its end date. *)
Definition tamara_request : QueryText.args := {|
  QueryText.selected_fields :=
    [("tamara", ["payment_id"]); ("analysis", ["bank_rrn"])];
  QueryText.include_reconciliation := false;
  QueryText.date_filter_arg :=
    Some {| QueryText.enabled := true;
            QueryText.start_date := "2024-01-01";
            QueryText.end_date := EmptyString |};
  QueryText.limit := None;
  QueryText.return_distinct_orders := true
|}.

(** The same request without any date filter. *)
Definition tamara_request_unfiltered : QueryText.args := {|
  QueryText.selected_fields :=
    [("tamara", ["payment_id"]); ("analysis", ["bank_rrn"])];
  QueryText.include_reconciliation := false;
  QueryText.date_filter_arg := None;
  QueryText.limit := None;
  QueryText.return_distinct_orders := true
|}.

End Sample3.

Module Sample4.

(** A stand-in for [pd.to_datetime] with a format and for [strptime] that
    reads one time of day and one date, each under its format. *)
Definition clock (fmt text : string) : option Z :=
  if String.eqb fmt "%H:%M:%S" && String.eqb text "12:30:00" then Some 45000%Z
  else if String.eqb fmt "%d/%m/%Y" && String.eqb text "01/02/2024"
  then Some 1706745600000000000%Z
  else if String.eqb fmt "%m/%d/%Y" && String.eqb text "01/02/2024"
  then Some 1704153600000000000%Z
  else None.

End Sample4.

Module Sample5.

(** A chunk none of whose headers the config of the bank names. *)
Definition foreign_chunk : Transformer.raw_frame := {|
  Transformer.index := 2;
  Transformer.columns :=
    [("rrn ", [Frame.Text "412345678901"; Frame.Text "412345678902"]);
     ("STATUS", [Frame.Text "Approved"; Frame.Text "Declined"])]
|}.

(** A conversion that brings a column to the string dtype and fails for
    every other type. *)
Definition to_string_dtype (t : Transformer.arrow_type) (col : Transformer.column)
  : option Transformer.column :=
  match t with
  | Transformer.string_ =>
      Some {| Transformer.dtype_of := Transformer.StringDtype;
              Transformer.cells := Transformer.cells col |}
  | _ => None
  end.

End Sample5.

Module Sample6.

(** Three rows of the bank, the first and the last with the same card,
    amount and authorisation code. *)
Definition bank_rows : Transformer.table := {|
  Transformer.index := 3;
  Transformer.columns :=
    [("masked_card",
      {| Transformer.dtype_of := Transformer.StringDtype;
         Transformer.cells := [Frame.Str "4111****1111"; Frame.Str "5500****0004";
                               Frame.Str "4111****1111"] |});
     ("transaction_amount",
      {| Transformer.dtype_of := Transformer.Float64Dtype;
         Transformer.cells := [Frame.Float (Frame.Whole 150);
                               Frame.Float (Frame.Whole 150);
                               Frame.Float (Frame.Whole 150)] |});
     ("authorization_code",
      {| Transformer.dtype_of := Transformer.StringDtype;
         Transformer.cells := [Frame.Str "C1"; Frame.Str "C2"; Frame.Str "C1"] |})]
|}.

Definition no_answer (_ : Transformer.table) : option (list bool) := None.

End Sample6.

(** The order of [sorted] on strings. *)
Definition str_lt (x y : string) : Prop := String.compare x y = Lt.

(** ** [data_cleaner.py]: the duplicate flags of the post-processing *)

Module Duplicates.
Import Frame Transformer.

(** [key_columns.get(source, [])] *)
Definition key_columns (source : string) : list string :=
  if String.eqb source "portal"
  then ["order_id"; "transaction_date"; "payment_method"]
  else if String.eqb source "metabase"
  then ["order_id"; "payment_online_transaction_id"; "payment_online_transaction_id"]
  else if String.eqb source "checkout_v1"
  then ["payment_unique_number"; "action_id"; "order_id"; "rrn"]
  else if String.eqb source "checkout_v2" then ["action_id"; "rrn"; "order_id"]
  else if String.eqb source "tamara"
  then ["merchant_order_reference_id"; "payment_online_transaction_id";
        "tamara_txn_reference"]
  else if String.eqb source "payfort"
  then ["order_id"; "authorization_code"; "transaction_amount"]
  else if String.eqb source "bank"
  then ["masked_card"; "transaction_amount"; "authorization_code"]
  else [].

Definition same_number (a b : number) : bool :=
  match a, b with
  | Whole x, Whole y => Z.eqb x y
  | NotWhole s, NotWhole t => String.eqb s t
  | _, _ => false
  end.

(** Two values that [duplicated] takes for the same: equal values, and
    any two nulls. *)
Definition same_value (a b : value) : bool :=
  match a, b with
  | Null _, Null _ => true
  | Str s, Str t => String.eqb s t
  | Int x, Int y => Z.eqb x y
  | Float x, Float y => same_number x y
  | Bool x, Bool y => Bool.eqb x y
  | Timestamp x, Timestamp y => Z.eqb x y
  | Time x, Time y => Z.eqb x y
  | _, _ => false
  end.

(** The value of column [c] in row [i]. *)
Definition at_row (df : table) (c : string) (i : nat) : option value :=
  match get_column c df with
  | Some col => nth_error (cells col) i
  | None => None
  end.

(** Rows [i] and [j] carry the same values in the columns [cols]. *)
Definition agree (df : table) (cols : list string) (i j : nat) : bool :=
  forallb (fun c => match at_row df c i, at_row df c j with
                    | Some a, Some b => same_value a b
                    | None, None => true
                    | _, _ => false
                    end) cols.

(** [df.duplicated(subset=cols, keep=False)] for a non-empty list of
    columns of the frame: a row is marked when another row agrees with it
    on the columns. *)
Definition duplicated (df : table) (cols : list string) : list bool :=
  map (fun i => existsb (fun j => negb (Nat.eqb i j) && agree df cols i j)
                        (seq 0 (index df)))
      (seq 0 (index df)).

Section Detect.

(** [df.duplicated(subset=[], keep=False)], which pandas is left to
    answer for a source without key columns; [None] when it raises. *)
Variable duplicated_without_columns : table -> option (list bool).

(** [detect_duplicates]: the values of the column [is_potential_duplicate]
    that it adds; [None] when it raises. *)
Definition detect_duplicates (df : table) (source : string) : option (list bool) :=
  let cols := key_columns source in
  let present c := Str.mem c (names df) in
  match cols with
  | [] => duplicated_without_columns df
  | _ :: _ =>
      match filter (fun c => negb (present c)) cols with
      | [] => Some (duplicated df cols)
      | _ :: _ =>
          let available_cols := filter present cols in
          if (2 <=? List.length available_cols)%nat
          then Some (duplicated df available_cols)
          else Some (repeat false (index df))
      end
  end.

End Detect.

End Duplicates.

(* ===================================================================== *)
(** * Part II. Theorems                                                    *)
(* ===================================================================== *)

(** ** Three-valued logic *)

Section SqlFacts.
Import Sql.

Lemma holds_and3 (a b : tv) : holds (and3 a b) = holds a && holds b.
Proof. destruct a as [[|]|], b as [[|]|]; reflexivity. Qed.

Lemma holds_or3 (a b : tv) : holds (or3 a b) = holds a || holds b.
Proof. destruct a as [[|]|], b as [[|]|]; reflexivity. Qed.

Lemma holds_not3 (a : tv) : holds (not3 a) = true <-> a = Some false.
Proof. destruct a as [[|]|]; simpl; split; congruence. Qed.

Lemma holds_eq_str_not_null (a b : option string) :
  holds (eq_str a b) = true -> holds (is_not_null b) = true.
Proof. destruct a, b; simpl; congruence. Qed.

Lemma holds_eq_str (a b : option string) :
  holds (eq_str a b) = true <-> exists s, a = Some s /\ b = Some s.
Proof.
  split.
  - destruct a as [x|], b as [y|]; simpl; try discriminate.
    destruct (String.eqb_spec x y); [subst; eauto | discriminate].
  - intros (s & -> & ->). simpl. now rewrite String.eqb_refl.
Qed.

(** An equality test that holds makes the IS NOT NULL guard in front of
    it redundant. *)
Lemma guard_redundant (a b : option string) (rest : tv) :
  holds (and3 (and3 (is_not_null b) (eq_str a b)) rest)
  = holds (and3 (eq_str a b) rest).
Proof. destruct a, b, rest as [[|]|]; simpl; try reflexivity;
       destruct (String.eqb _ _); reflexivity. Qed.
End SqlFacts.

(** ** The bank match: the CASE follows the JOIN *)

Section ReconFacts.
Import Sql Recon.

Variables (t : TA.row) (b : Bank.row).

Lemma when_a_join : holds (when_a t b) = holds (join_a t b).
Proof.
  unfold when_a, join_a. rewrite !holds_and3.
  destruct (holds (auth_eq t b)) eqn:E.
  - unfold auth_eq in E. rewrite (holds_eq_str_not_null _ _ E). reflexivity.
  - now rewrite andb_false_r.
Qed.

Lemma when_b_join : holds (when_b t b) = holds (join_b t b).
Proof. apply guard_redundant. Qed.

Lemma when_c_join : holds (when_c t b) = holds (join_c t b).
Proof. apply guard_redundant. Qed.

Lemma when_d_join : holds (when_d t b) = holds (join_d t b).
Proof.
  unfold when_d, join_d. rewrite !holds_and3.
  destruct (holds (auth_eq t b)) eqn:E.
  - unfold auth_eq in E. rewrite (holds_eq_str_not_null _ _ E). reflexivity.
  - now rewrite andb_false_r.
Qed.

Lemma when_e_join : holds (when_e t b) = holds (join_e t b).
Proof. apply guard_redundant. Qed.

Lemma when_f_join : holds (when_f t b) = holds (join_f t b).
Proof. apply guard_redundant. Qed.

Lemma when_g_join : holds (when_g t b) = holds (join_g t b).
Proof.
  unfold when_g, join_g. rewrite !holds_and3.
  destruct (holds (auth_eq t b)) eqn:E.
  - unfold auth_eq in E. rewrite (holds_eq_str_not_null _ _ E). reflexivity.
  - now rewrite andb_false_r.
Qed.

(** Tier (d) asks for everything tier (c) asks for, and tier (g) for
    everything tier (f) asks for. *)
Lemma when_d_then_c : implb (holds (when_d t b)) (holds (when_c t b)) = true.
Proof.
  unfold when_d, when_c. rewrite !holds_and3.
  destruct (holds (is_not_null _)), (holds (auth_eq t b)), (holds (same_day t b)),
    (holds (amount_within t b exact_tol)); reflexivity.
Qed.

Lemma when_g_then_f : implb (holds (when_g t b)) (holds (when_f t b)) = true.
Proof.
  unfold when_g, when_f. rewrite !holds_and3.
  destruct (holds (is_not_null _)), (holds (auth_eq t b)), (holds (same_day t b)),
    (holds (amount_within t b approx_tol)); reflexivity.
Qed.
End ReconFacts.

(** C3. The CASE of [bank_match_type] runs through the seven tiers in the
    order in which the LEFT JOIN's ON lists them: for every pair of a
    transaction row and a bank row, the label is that of the first tier of
    the join whose predicate holds, and NULL exactly when the join
    predicate does not hold.  In particular a pair that satisfies the
    exact tier (authorization code, RRN and amount within 0.01) is labelled
    MATCH: Authorization Code + RRN + Amount, whatever looser tiers it
    satisfies as well. *)
Theorem bank_match_type_follows_join_order :
  forall (t : TA.row) (b : Bank.row),
    Recon.bank_match_type t b = first_holding (Recon.tiers t b) /\
    Sql.holds (Recon.join_on t b)
      = List.existsb (fun tier => Sql.holds (fst tier)) (Recon.tiers t b) /\
    (Sql.holds (Recon.join_a t b) = true ->
       Recon.bank_match_type t b = Some "MATCH: Authorization Code + RRN + Amount") /\
    (forall i p lbl,
       nth_error (Recon.tiers t b) i = Some (p, lbl) ->
       Sql.holds p = true ->
       (forall j q lbl', j < i -> nth_error (Recon.tiers t b) j = Some (q, lbl') ->
                         Sql.holds q = false) ->
       Recon.bank_match_type t b = Some lbl).
Proof.
  intros t b.
  assert (Hfirst : Recon.bank_match_type t b = first_holding (Recon.tiers t b)).
  { unfold Recon.bank_match_type, Recon.tiers, first_holding.
    rewrite when_a_join, when_b_join, when_c_join, when_d_join,
      when_e_join, when_f_join, when_g_join. reflexivity. }
  split; [exact Hfirst|]. split; [|split].
  - unfold Recon.join_on, Recon.tiers. simpl. rewrite !holds_or3.
    rewrite orb_false_r, !orb_assoc. reflexivity.
  - intros Ha. rewrite Hfirst. simpl. now rewrite Ha.
  - rewrite Hfirst. generalize (Recon.tiers t b). intros l.
    induction l as [|[q0 l0] l IH]; intros i p lbl Hn Hp Hlt.
    + destruct i; discriminate.
    + destruct i as [|i]; simpl in Hn |- *.
      * inversion Hn; subst. now rewrite Hp.
      * rewrite (Hlt 0 q0 l0 (Nat.lt_0_succ i) eq_refl).
        apply (IH i p lbl Hn Hp). intros j q lbl' Hj Hq.
        apply (Hlt (S j) q lbl'); [lia | exact Hq].
Qed.

Lemma bank_match_type_follows_join_order_witness :
  Recon.bank_match_type Sample.merged_capture Sample.bank_exact
    = Some "MATCH: Authorization Code + RRN + Amount" /\
  Recon.bank_match_type Sample.merged_capture Sample.bank_approx
    = Some "PARTIAL MATCH: Authorization Code + Approx Amount".
Proof.
  split.
  - apply (proj1 (proj2 (proj2
      (bank_match_type_follows_join_order Sample.merged_capture Sample.bank_exact)))).
    reflexivity.
  - apply (proj2 (proj2 (proj2
      (bank_match_type_follows_join_order Sample.merged_capture Sample.bank_approx)))
      5 (Recon.join_f Sample.merged_capture Sample.bank_approx)).
    + reflexivity.
    + reflexivity.
    + intros j q lbl' Hj Hq.
      do 5 (destruct j as [|j];
            [vm_compute in Hq; injection Hq as <- _; reflexivity|]).
      lia.
Defined.

(** C10. In the [bank_match_type] CASE the branches of tier (d)
    (authorization code, same day, amount within 0.01) and of tier (g)
    (authorization code, same day, amount within 1.0) cannot be reached:
    whenever the condition of (d) holds so does the earlier condition of
    (c), and whenever that of (g) holds so does the earlier one of (f).
    Hence no pair of rows is labelled FALLBACK MATCH: Authorization Code +
    Same Day + Amount or PARTIAL MATCH: Authorization Code + Same Day +
    Approx Amount, and no row of the view carries either label. *)
Theorem same_day_tiers_unreachable :
  (forall (t : TA.row) (b : Bank.row),
     implb (Sql.holds (Recon.when_d t b)) (Sql.holds (Recon.when_c t b)) = true /\
     implb (Sql.holds (Recon.when_g t b)) (Sql.holds (Recon.when_f t b)) = true /\
     Recon.bank_match_type t b
       <> Some "FALLBACK MATCH: Authorization Code + Same Day + Amount" /\
     Recon.bank_match_type t b
       <> Some "PARTIAL MATCH: Authorization Code + Same Day + Approx Amount") /\
  (forall (include_reconciliation : bool) (range : option (Z * Z)) (db : database),
     Forall (fun r =>
       View.bank_match_type r
         <> Some "FALLBACK MATCH: Authorization Code + Same Day + Amount" /\
       View.bank_match_type r
         <> Some "PARTIAL MATCH: Authorization Code + Same Day + Approx Amount")
       (payment_analysis_view include_reconciliation range db)).
Proof.
  assert (Hpair : forall t b,
     Recon.bank_match_type t b <> Some Recon.label_d /\
     Recon.bank_match_type t b <> Some Recon.label_g).
  { intros t b. pose proof (when_d_then_c t b) as Hd.
    pose proof (when_g_then_f t b) as Hg.
    unfold Recon.bank_match_type.
    destruct (Sql.holds (Recon.when_a t b)); [split; discriminate|].
    destruct (Sql.holds (Recon.when_b t b)); [split; discriminate|].
    destruct (Sql.holds (Recon.when_c t b)); [split; discriminate|].
    destruct (Sql.holds (Recon.when_d t b)); [discriminate Hd|].
    destruct (Sql.holds (Recon.when_e t b)); [split; discriminate|].
    destruct (Sql.holds (Recon.when_f t b)); [split; discriminate|].
    destruct (Sql.holds (Recon.when_g t b)); [discriminate Hg|].
    split; discriminate. }
  split.
  - intros t b. split; [apply when_d_then_c|]. split; [apply when_g_then_f|].
    apply Hpair.
  - intros incl range db. apply Forall_forall. intros r Hr.
    unfold payment_analysis_view in Hr. destruct incl.
    + apply in_flat_map in Hr. destruct Hr as (t & _ & Hr).
      unfold left_join_bank in Hr.
      destruct (filter _ (bank db)).
      * destruct Hr as [<-|[]]. apply Hpair.
      * apply in_map_iff in Hr. destruct Hr as (b' & <- & _). apply Hpair.
    + apply in_map_iff in Hr. destruct Hr as (t & <- & _). simpl.
      split; discriminate.
Qed.

(** ** The window partitions *)

Lemma opt_eqb_eq {A : Type} (eqb : A -> A -> bool)
    (eqb_eq : forall x y, eqb x y = true <-> x = y) (a b : option A) :
  opt_eqb eqb a b = true <-> a = b.
Proof.
  destruct a as [x|], b as [y|]; simpl; split; try congruence.
  - intros H. apply eqb_eq in H. now subst.
  - intros H. inversion H. now apply eqb_eq.
Qed.

Lemma same_group_iff (a b : GA.row) :
  same_group a b = true <->
  GA.gateway_order_id a = GA.gateway_order_id b /\
  GA.gateway_transaction_id a = GA.gateway_transaction_id b.
Proof.
  unfold same_group. rewrite andb_true_iff.
  rewrite (opt_eqb_eq Z.eqb Z.eqb_eq), (opt_eqb_eq String.eqb String.eqb_eq).
  reflexivity.
Qed.

Lemma same_group_refl (a : GA.row) : same_group a a = true.
Proof. apply same_group_iff. split; reflexivity. Qed.

(** Rows of one partition see the same partition. *)
Lemma same_group_partition (c r : GA.row) (all : list GA.row) :
  same_group c r = true ->
  filter (same_group r) all = filter (same_group c) all.
Proof.
  intros H. apply same_group_iff in H. destruct H as [H1 H2].
  apply filter_ext. intros x. unfold same_group. now rewrite H1, H2.
Qed.

(** The rows that the stage puts out for one partition are computed from
    the rows of that partition alone. *)
Lemma transaction_with_analysis_in_group (ga : list GA.row) (c : GA.row) :
  filter (in_group c) (transaction_with_analysis ga) =
  map Analysis.select
    (filter (fun r => Sql.holds (Analysis.where_clause r))
       (map (window (filter (same_group c) ga)) (filter (same_group c) ga))).
Proof.
  unfold transaction_with_analysis, ranked_transactions.
  generalize ga at 2 4. intros l.
  induction l as [|r l IH]; [reflexivity|].
  simpl. destruct (same_group c r) eqn:Hg.
  - assert (Hr : rank_row ga r = window (filter (same_group c) ga) r).
    { unfold rank_row. now rewrite (same_group_partition c r ga Hg). }
    rewrite Hr. simpl.
    destruct (Sql.holds (Analysis.where_clause _)); simpl.
    + unfold in_group at 1. simpl. rewrite Hg. now rewrite IH.
    + exact IH.
  - destruct (Sql.holds (Analysis.where_clause (rank_row ga r))) eqn:Hw; simpl.
    + unfold in_group at 1. simpl. rewrite Hg. exact IH.
    + exact IH.
Qed.

(** ** The merge of an authorisation with its capture *)

Lemma outcome_cases (g : GA.row) :
  Analysis.transaction_outcome g = Some "Success" \/
  Analysis.transaction_outcome g = Some "Failure".
Proof.
  unfold Analysis.transaction_outcome.
  destruct (Sql.holds (Sql.eq_str (Analysis.cascade g) (Some "Success")));
    [left | right]; reflexivity.
Qed.

Section MergeFacts.
Import Sql.

Variables a c : GA.row.
Hypothesis a_is_auth : holds (GA.is_auth a) = true.
Hypothesis c_not_auth : GA.is_auth c = Some false.
Hypothesis c_is_capture : GA.is_capture c = Some true.

Lemma is_auth_a : GA.is_auth a = Some true.
Proof.
  generalize a_is_auth. destruct (GA.is_auth a) as [[|]|]; simpl; congruence.
Qed.

(** What the window computes over the pair, in either order. *)
Lemma window_pair (part : list GA.row) (x : GA.row) :
  part = [a; c] \/ part = [c; a] ->
  window part x =
  {| RT.ga := x;
     RT.has_auth_in_group := Some 1%Z;
     RT.has_capture_in_group := Some 1%Z;
     RT.auth_rrn_in_group := GA.rrn a;
     RT.auth_authorization_code_in_group := GA.authorization_code a |}.
Proof.
  intros [-> | ->]; unfold window; simpl;
    unfold flag_to_int, case_when;
    rewrite is_auth_a, c_not_auth, c_is_capture; simpl;
    destruct (holds (GA.is_capture a)), (GA.rrn a), (GA.authorization_code a);
    reflexivity.
Qed.

(** The authorisation of the pair is filtered out, the capture is kept
    exactly when its outcome is Success. *)
Lemma where_clause_auth (x : RT.row) :
  RT.ga x = a -> RT.has_auth_in_group x = Some 1%Z ->
  RT.has_capture_in_group x = Some 1%Z ->
  holds (Analysis.where_clause x) = false.
Proof.
  intros Hx H1 H2. unfold Analysis.where_clause, Analysis.auth_with_capture,
    Analysis.is_auth. rewrite Hx, H1, H2, is_auth_a. reflexivity.
Qed.

Lemma where_clause_capture (x : RT.row) :
  RT.ga x = c -> RT.has_auth_in_group x = Some 1%Z ->
  RT.has_capture_in_group x = Some 1%Z ->
  holds (Analysis.where_clause x)
  = holds (eq_str (Analysis.transaction_outcome c) (Some "Success")).
Proof.
  intros Hx H1 H2. unfold Analysis.where_clause, Analysis.auth_with_capture,
    Analysis.is_auth. rewrite Hx, H1, H2, c_not_auth. simpl.
  destruct (eq_str _ _) as [[|]|]; reflexivity.
Qed.

(** The rows put out for the partition of the pair. *)
Lemma merge_output (ga : list GA.row) :
  (filter (same_group c) ga = [a; c] \/ filter (same_group c) ga = [c; a]) ->
  filter (in_group c) (transaction_with_analysis ga) =
  if holds (eq_str (Analysis.transaction_outcome c) (Some "Success"))
  then [Analysis.select (window (filter (same_group c) ga) c)]
  else [].
Proof.
  intros Hpart. rewrite transaction_with_analysis_in_group.
  pose proof (window_pair (filter (same_group c) ga) a Hpart) as Wa.
  pose proof (window_pair (filter (same_group c) ga) c Hpart) as Wc.
  assert (Ka : holds (Analysis.where_clause
                        (window (filter (same_group c) ga) a)) = false).
  { apply where_clause_auth; rewrite Wa; reflexivity. }
  assert (Kc : holds (Analysis.where_clause
                        (window (filter (same_group c) ga) c))
               = holds (eq_str (Analysis.transaction_outcome c) (Some "Success"))).
  { apply where_clause_capture; rewrite Wc; reflexivity. }
  revert Ka Kc. generalize (window (filter (same_group c) ga)) as w.
  intros w Ka Kc.
  destruct Hpart as [-> | ->]; simpl; rewrite Ka, Kc;
    destruct (holds (eq_str (Analysis.transaction_outcome c) (Some "Success")));
    reflexivity.
Qed.
End MergeFacts.

(** C1 (amended). Let the rows of [gateway_analysis] that share the key
    [(gateway_order_id, gateway_transaction_id)] of [c] be exactly an
    authorisation row [a] and a capture row [c] that is no authorisation
    and has neither RRN nor authorisation code.  Then the authorisation row
    is never in the output of [transaction_with_analysis], and the stage
    puts out for that key
    - exactly one row, the capture, with [final_rrn] and
      [final_authorization_code] taken from the authorisation, when the
      outcome computed for the capture is Success;
    - no row at all otherwise (the success-only filter of the stage). *)
Theorem auth_capture_merge :
  forall (ga : list GA.row) (a c : GA.row),
    (filter (same_group c) ga = [a; c] \/ filter (same_group c) ga = [c; a]) ->
    Sql.holds (GA.is_auth a) = true ->
    GA.is_auth c = Some false ->
    GA.is_capture c = Some true ->
    GA.rrn c = None ->
    GA.authorization_code c = None ->
    let out := filter (in_group c) (transaction_with_analysis ga) in
    (Analysis.transaction_outcome c = Some "Success" ->
       exists t, out = [t] /\
         RT.ga (TA.rt t) = c /\
         TA.final_rrn t = GA.rrn a /\
         TA.final_authorization_code t = GA.authorization_code a /\
         TA.transaction_outcome t = Some "Success") /\
    (Analysis.transaction_outcome c <> Some "Success" -> out = []) /\
    Forall (fun t => RT.ga (TA.rt t) = c /\ RT.ga (TA.rt t) <> a) out.
Proof.
  intros ga a c Hpart Ha Hc Hcap Hrrn Hcode out.
  assert (Hne : c <> a).
  { intros ->. rewrite Hc in Ha. discriminate. }
  pose proof (merge_output a c Ha Hc Hcap ga Hpart) as Hout. fold out in Hout.
  pose proof (window_pair a c Ha Hc Hcap (filter (same_group c) ga) c Hpart) as Wc.
  assert (Hfin : forall t,
    t = Analysis.select (window (filter (same_group c) ga) c) ->
    RT.ga (TA.rt t) = c /\ TA.final_rrn t = GA.rrn a /\
    TA.final_authorization_code t = GA.authorization_code a /\
    TA.transaction_outcome t = Analysis.transaction_outcome c).
  { intros t ->. rewrite Wc. unfold Analysis.select. simpl.
    unfold Analysis.final_rrn, Analysis.final_authorization_code,
      Analysis.capture_with_auth, Analysis.is_capture. simpl.
    rewrite Hcap. simpl. repeat split; reflexivity. }
  split; [|split].
  - intros Hs. rewrite Hs in Hout. simpl in Hout.
    eexists. split; [exact Hout|].
    destruct (Hfin _ eq_refl) as (H1 & H2 & H3 & H4).
    rewrite H4. repeat split; assumption.
  - intros Hs. rewrite Hout.
    destruct (outcome_cases c) as [E|E]; [contradiction|].
    rewrite E. reflexivity.
  - rewrite Hout.
    destruct (Sql.holds (Sql.eq_str (Analysis.transaction_outcome c) (Some "Success")));
      constructor; [|constructor].
    destruct (Hfin _ eq_refl) as (H1 & _). rewrite H1. split; [reflexivity|exact Hne].
Qed.

Lemma auth_capture_merge_witness :
  exists t,
    transaction_with_analysis [Sample.ga_authorisation; Sample.ga_capture] = [t] /\
    RT.ga (TA.rt t) = Sample.ga_capture /\
    TA.final_rrn t = Some "A1" /\
    TA.final_authorization_code t = Some "C1" /\
    TA.transaction_outcome t = Some "Success".
Proof.
  destruct (auth_capture_merge
              [Sample.ga_authorisation; Sample.ga_capture]
              Sample.ga_authorisation Sample.ga_capture) as (H & _).
  - left. reflexivity.
  - reflexivity.
  - reflexivity.
  - reflexivity.
  - reflexivity.
  - reflexivity.
  - destruct (H eq_refl) as (t & Ht & Hrest).
    exists t. split; [|exact Hrest].
    rewrite <- Ht. reflexivity.
Defined.

(** The claim C1 as first stated fails: an authorisation and its capture,
    the capture with a response code other than 10000 and a status other
    than APPROVED, form a group of the stated shape for which the stage
    puts out no row at all, not the one capture row. *)
Lemma auth_capture_merge_counterexample :
  let a := Sample.ga_authorisation in
  let c := Sample.ga_declined_capture in
  let ga := gateway_analysis None (Sample.db [Sample.declined_capture]) in
  ga = [a; c] /\
  filter (same_group c) ga = [a; c] /\
  GA.is_auth a = Some true /\ GA.rrn a = Some "A1" /\
  GA.authorization_code a = Some "C1" /\
  GA.is_capture c = Some true /\ GA.is_auth c = Some false /\
  GA.rrn c = None /\ GA.authorization_code c = None /\
  transaction_with_analysis ga = [].
Proof. vm_compute. repeat split; reflexivity. Qed.

(** ** Strings and lists of strings *)

Lemma append_assoc (s1 s2 s3 : string) : ((s1 ++ s2) ++ s3 = s1 ++ (s2 ++ s3))%string.
Proof. induction s1 as [|c s1 IH]; simpl; [reflexivity | now rewrite IH]. Qed.

Lemma append_empty_r (s : string) : (s ++ EmptyString)%string = s.
Proof. induction s as [|c s IH]; simpl; [reflexivity | now rewrite IH]. Qed.

Lemma mem_In (x : string) (l : list string) : Str.mem x l = true <-> In x l.
Proof.
  unfold Str.mem. rewrite existsb_exists. split.
  - intros (y & Hy & E). apply String.eqb_eq in E. now subst.
  - intros H. exists x. split; [exact H | apply String.eqb_refl].
Qed.

Lemma not_mem_In (x : string) (l : list string) : Str.mem x l = false <-> ~ In x l.
Proof.
  rewrite <- mem_In. destruct (Str.mem x l); split; congruence.
Qed.

Lemma forallb_mem_incl (l view : list string) :
  forallb (fun x => Str.mem x view) l = true -> incl l view.
Proof.
  rewrite forallb_forall. intros H x Hx. apply mem_In. now apply H.
Qed.

Lemma remove_first_In (x y : string) (l : list string) :
  In y (Py.remove_first x l) -> In y l.
Proof.
  induction l as [|z l IH]; simpl; [tauto|].
  destruct (String.eqb x z); simpl; tauto.
Qed.


Lemma In_insert_unique (x y : string) (l : list string) :
  In x (Py.insert_unique y l) <-> x = y \/ In x l.
Proof.
  induction l as [|z l IH]; simpl; [intuition auto|].
  destruct (String.compare y z) eqn:E; simpl.
  - apply String.compare_eq_iff in E. subst. intuition auto.
  - intuition auto.
  - rewrite IH. intuition auto.
Qed.

Lemma In_sorted_set (x : string) (l : list string) :
  In x (Py.sorted_set l) <-> In x l.
Proof.
  induction l as [|y l IH]; simpl; [tauto|].
  rewrite In_insert_unique, IH. intuition auto.
Qed.

(** ** The aliases that the beginning of a text settles *)

Section FindallFacts.
Import QueryText.

Lemma run_app (p : ascii -> bool) (s w r x : string) :
  run p s = Some (w, r) ->
  Py.take_while p (s ++ x) = w /\ Py.drop_while p (s ++ x) = (r ++ x)%string.
Proof.
  revert w r. induction s as [|c s IH]; intros w r; simpl; [discriminate|].
  destruct (p c) eqn:Hc.
  - destruct (run p s) as [[w' r']|]; [|discriminate].
    intros H. inversion H; subst. destruct (IH w' r eq_refl) as [H1 H2].
    now rewrite H1, H2.
  - intros H. inversion H; subst. split; reflexivity.
Qed.

Lemma run_rest_head (p : ascii -> bool) (s w r : string) :
  run p s = Some (w, r) -> exists c r', r = String c r' /\ p c = false.
Proof.
  revert w r. induction s as [|c s IH]; intros w r; simpl; [discriminate|].
  destruct (p c) eqn:Hc.
  - destruct (run p s) as [[w' r']|] eqn:E; [|discriminate].
    intros H. inversion H; subst. exact (IH w' r eq_refl).
  - intros H. inversion H; subst. eauto.
Qed.

Lemma match_alias_within_found (s w x : string) (n : nat) :
  match_alias_within s = Found w n -> Py.match_alias (s ++ x) = Some (w, n).
Proof.
  destruct s as [|a [|b rest]]; simpl.
  - discriminate.
  - destruct (Ascii.eqb a "A"); discriminate.
  - destruct (Ascii.eqb a "A" && Ascii.eqb b "S")%bool; [|discriminate].
    destruct (run Str.is_space rest) as [[ws rest']|] eqn:Ews; [|discriminate].
    destruct (run_app _ _ _ _ x Ews) as [H1 H2]. rewrite H1, H2.
    destruct ws as [|c0 ws]; [discriminate|].
    destruct (run Py.is_word rest') as [[w' r']|] eqn:Ew; [|discriminate].
    destruct (run_app _ _ _ _ x Ew) as [H3 _]. rewrite H3.
    destruct w' as [|c1 w']; [discriminate|].
    intros H. inversion H; subst. reflexivity.
Qed.

Lemma match_alias_within_nothing (s x : string) :
  match_alias_within s = Nothing -> Py.match_alias (s ++ x) = None.
Proof.
  destruct s as [|a [|b rest]]; simpl.
  - discriminate.
  - destruct (Ascii.eqb a "A") eqn:Ea; [discriminate|]. intros _.
    destruct x as [|b x]; reflexivity.
  - destruct (Ascii.eqb a "A" && Ascii.eqb b "S")%bool; [|reflexivity].
    destruct (run Str.is_space rest) as [[ws rest']|] eqn:Ews; [|discriminate].
    destruct (run_app _ _ _ _ x Ews) as [H1 H2]. rewrite H1, H2.
    destruct ws as [|c0 ws]; [reflexivity|].
    destruct (run Py.is_word rest') as [[w' r']|] eqn:Ew; [|discriminate].
    destruct (run_app _ _ _ _ x Ew) as [H3 _]. rewrite H3.
    destruct w' as [|c1 w']; [reflexivity | discriminate].
Qed.

(** What the beginning settles is found in every text that begins so. *)
Lemma findall_within_sound (s x : string) :
  forall skip, incl (findall_within skip s) (Py.findall_from skip (s ++ x)).
Proof.
  induction s as [|c s IH]; intros skip w; [simpl; tauto|].
  change (String c s ++ x)%string with (String c (s ++ x)).
  cbn [findall_within Py.findall_from].
  destruct skip as [|k]; [|apply IH].
  change (String c (s ++ x)) with (String c s ++ x)%string.
  destruct (match_alias_within (String c s)) as [w' n| |] eqn:E.
  - rewrite (match_alias_within_found _ _ x _ E).
    intros [->|H]; [now left | right; now apply IH].
  - rewrite (match_alias_within_nothing _ x E). apply IH.
  - simpl. tauto.
Qed.
End FindallFacts.

(** ** The aliases of the view *)

Section ViewAliasFacts.
Import QueryText.

Variable a : args.

(** The UNION ALL part begins with the head of the [checkout_v1] section,
    whatever the date filter puts behind it. *)
Lemma union_begins_with_head :
  exists rest,
    Str.join union_all (gw_sections_sql a)
    = (section_head "checkout_v1" ++ rest)%string.
Proof.
  unfold gw_sections_sql, gateway_names_ordered, Str.join. simpl map.
  unfold String.concat. unfold section_sql at 1.
  rewrite !append_assoc. eexists. reflexivity.
Qed.

Lemma view_aliases_of_head (w : string) :
  In w (findall_within 0 (section_head "checkout_v1")) -> In w (view_aliases a).
Proof.
  intros Hw. destruct union_begins_with_head as [rest Hrest].
  unfold view_aliases, extract_view_field_aliases.
  apply in_flat_map. exists (Str.join union_all (gw_sections_sql a)). split.
  - unfold query_parts. rewrite !in_app_iff. do 3 right. left. now left.
  - rewrite Hrest. unfold Py.findall. now apply findall_within_sound.
Qed.

Lemma view_aliases_of_analysis (w : string) :
  In w (flat_map Py.findall transaction_with_analysis_sql) -> In w (view_aliases a).
Proof.
  intros Hw. apply in_flat_map in Hw. destruct Hw as (part & Hp & Hw).
  unfold view_aliases, extract_view_field_aliases.
  apply in_flat_map. exists part. split; [|exact Hw].
  unfold query_parts. rewrite !in_app_iff. do 6 right. now left.
Qed.

(** The aliases that every view defines, whatever the arguments. *)
Lemma settled_in_view (w : string) :
  In w (findall_within 0 (section_head "checkout_v1")
        ++ flat_map Py.findall transaction_with_analysis_sql) ->
  In w (view_aliases a).
Proof.
  intros Hw.
  destruct (in_app_or (findall_within 0 (section_head "checkout_v1"))
              (flat_map Py.findall transaction_with_analysis_sql) w Hw) as [H|H].
  - exact (view_aliases_of_head w H).
  - exact (view_aliases_of_analysis w H).
Qed.

Lemma essential_settled :
  forallb (fun w => Str.mem w
             (findall_within 0 (section_head "checkout_v1")
              ++ flat_map Py.findall transaction_with_analysis_sql))
          ESSENTIAL_FIELDS = true.
Proof. vm_compute. reflexivity. Qed.

Lemma essential_in_view : incl ESSENTIAL_FIELDS (view_aliases a).
Proof.
  intros w Hw. apply settled_in_view.
  exact (forallb_mem_incl _ _ essential_settled w Hw).
Qed.

Lemma gateway_order_id_in_view : In "gateway_order_id" (view_aliases a).
Proof. apply essential_in_view. unfold ESSENTIAL_FIELDS. simpl. tauto. Qed.

Lemma validate_in_view (view : list string) (al w : string) :
  In w (validate view al) -> In w view.
Proof.
  unfold validate. destruct (Str.mem al view) eqn:E.
  - intros [<-|[]]. now apply mem_In.
  - destruct (Py.get al get_field_mapping) as [m|]; [|intros []].
    destruct (Str.mem m view) eqn:Em; [|intros []].
    intros [<-|[]]. now apply mem_In.
Qed.


(** Every column of the final SELECT is an alias of the view. *)
Lemma validated_in_view : incl (validated_select_aliases a) (view_aliases a).
Proof.
  assert (H : incl (flat_map (validate (view_aliases a)) (final_select_aliases a))
                   (view_aliases a)).
  { intros w Hw. apply in_flat_map in Hw. destruct Hw as (al & _ & Hw).
    exact (validate_in_view _ _ _ Hw). }
  unfold validated_select_aliases.
  destruct (return_distinct_orders a); [|exact H].
  pose proof gateway_order_id_in_view as Hg.
  destruct (Str.mem "gateway_order_id"
              (flat_map (validate (view_aliases a)) (final_select_aliases a)));
    intros w Hw; destruct Hw as [Hw|Hw].
  - rewrite <- Hw. exact Hg.
  - apply H. exact (remove_first_In _ _ _ Hw).
  - rewrite <- Hw. exact Hg.
  - exact (H w Hw).
Qed.




End ViewAliasFacts.

(** ** The date bounds in the text of the view *)

Section QuotedText.
Import QueryText.

















End QuotedText.

(** ** The aliases of the view, with and without the date filter *)

Section DateBounds.
Import QueryText.

















End DateBounds.

(** ** The column list of the final SELECT, read back from its text *)

Section SelectList.
Import QueryText.

















Variable a : args.




End SelectList.





(** ** The success-only filter *)

Lemma where_clause_holds (r : RT.row) :
  Sql.holds (Analysis.where_clause r) = true ->
  Analysis.transaction_outcome (RT.ga r) = Some "Success" /\
  Analysis.auth_with_capture r = Some false.
Proof.
  unfold Analysis.where_clause. rewrite holds_and3, andb_true_iff.
  intros [H1 H2]. apply holds_not3 in H1. split; [|exact H1].
  destruct (outcome_cases (RT.ga r)) as [E|E]; [exact E|].
  rewrite E in H2. discriminate.
Qed.

Lemma transaction_with_analysis_success_only (ga : list GA.row) :
  Forall success_only (transaction_with_analysis ga).
Proof.
  apply Forall_forall. intros t Ht. unfold transaction_with_analysis in Ht.
  apply in_map_iff in Ht. destruct Ht as (r & <- & Hr).
  apply filter_In in Hr. destruct Hr as [_ Hw].
  exact (where_clause_holds r Hw).
Qed.

Lemma view_rows_from_stage (incl : bool) (range : option (Z * Z)) (db : database)
    (r : View.row) :
  In r (payment_analysis_view incl range db) ->
  In (View.ta r) (transaction_with_analysis (gateway_analysis range db)).
Proof.
  unfold payment_analysis_view. destruct incl; intros Hr.
  - apply in_flat_map in Hr. destruct Hr as (t & Ht & Hr).
    unfold left_join_bank in Hr.
    destruct (filter _ (bank db)).
    + destruct Hr as [<-|[]]. exact Ht.
    + apply in_map_iff in Hr. destruct Hr as (b' & <- & _). exact Ht.
  - apply in_map_iff in Hr. destruct Hr as (t & <- & Ht). exact Ht.
Qed.

(** C2. Whatever the arguments of the generator, the text of the view
    contains the [transaction_with_analysis] stage with its WHERE clause
    unchanged, and every row that the stage puts out, hence every row of
    the view, has [transaction_outcome = 'Success'] and is not an
    authorisation that was merged into a capture of its group: rows with
    another outcome and merged authorisations never reach the view. *)
Theorem view_is_success_only :
  forall (date_of : string -> Z) (a : QueryText.args) (db : database),
    (exists before after,
       QueryText.query_parts a
       = (before ++ QueryText.transaction_with_analysis_sql ++ after)%list) /\
    (forall ga : list GA.row,
       Forall (fun t => TA.transaction_outcome t = Some "Success" /\
                        Analysis.auth_with_capture (TA.rt t) = Some false)
              (transaction_with_analysis ga)) /\
    Forall (fun r => TA.transaction_outcome (View.ta r) = Some "Success" /\
                     Analysis.auth_with_capture (TA.rt (View.ta r)) = Some false)
           (view_of_query date_of a db).
Proof.
  intros date_of a db. split; [|split].
  - unfold QueryText.query_parts.
    exists (QueryText.index_statements
            ++ (if QueryText.include_reconciliation a
                then QueryText.bank_index_statements else [])
            ++ QueryText.view_header
            ++ [Str.join QueryText.union_all (QueryText.gw_sections_sql a)]
            ++ ["),"] ++ QueryText.ranked_transactions_sql)%list.
    exists (if QueryText.include_reconciliation a
            then QueryText.reconciliation_select else QueryText.plain_select).
    rewrite <- !app_assoc. reflexivity.
  - exact transaction_with_analysis_success_only.
  - apply Forall_forall. intros r Hr. unfold view_of_query in Hr.
    apply view_rows_from_stage in Hr.
    pose proof (transaction_with_analysis_success_only
                  (gateway_analysis (date_range date_of a) db)) as H.
    rewrite Forall_forall in H. exact (H _ Hr).
Qed.

(** ** Type inference: the override for [rrn] *)

Section InferenceFacts.
Import Inference.

Variable sample : nat -> list string -> list string.
Variable looks_like_date : string -> bool.

Lemma guess_rrn (ser : series) :
  guess_py_type sample looks_like_date ser "rrn" = "string".
Proof. reflexivity. Qed.

Lemma enforce_rrn (py : string) : enforce_py_type "rrn" py = "string".
Proof. reflexivity. Qed.

Lemma rrn_not_text (src : string) : Str.mem "rrn" (text_columns src) = false.
Proof.
  unfold text_columns, TEXT_COLUMNS.
  repeat (destruct (String.eqb src _); [reflexivity|]). reflexivity.
Qed.

Lemma sql_type_rrn (src : string) : sql_type_for src "rrn" "string" = "VARCHAR(255)".
Proof.
  unfold sql_type_for. rewrite rrn_not_text.
  destruct (String.eqb src "payfort"); reflexivity.
Qed.

(** What the last loop of [build] leaves under the key [rrn]. *)
Definition rrn_is_string (cfg : source_config) : Prop :=
  forall spec, In ("rrn", spec) (columns cfg) ->
               py_type spec = "string" /\ sql_type spec = "VARCHAR(255)".

Lemma finish_spec_rrn (src : string) (cols : list (string * col_spec)) :
  rrn_is_string {| target_table := src; columns := map (finish_spec src) cols |}.
Proof.
  intros spec H. simpl in H. apply in_map_iff in H.
  destruct H as ([k s0] & E & _). unfold finish_spec in E.
  inversion E; subst. simpl. rewrite enforce_rrn. split; [reflexivity|].
  apply sql_type_rrn.
Qed.

Lemma build_from_rrn (sources : list (string * list (option dataframe))) :
  forall seen out registry,
    Forall (fun e => rrn_is_string (snd e)) out ->
    build_from sample looks_like_date sources seen out = inr registry ->
    Forall (fun e => rrn_is_string (snd e)) registry.
Proof.
  induction sources as [|[src files] sources IH]; intros seen out registry Hout; simpl.
  - intros E. inversion E; subst. exact Hout.
  - destruct (source_mapping src); [|discriminate].
    destruct (Str.mem src seen); [discriminate|].
    destruct (source_columns sample looks_like_date src files []) as [cols|];
      [|discriminate].
    apply IH. apply Forall_app. split; [exact Hout|].
    constructor; [|constructor]. apply finish_spec_rrn.
Qed.
End InferenceFacts.

(** C8. A column whose canonical name is [rrn] is typed [string]:
    [guess_py_type] answers from the override table before it looks at the
    dtype or at any value, so also for a column of digits only, and the
    last loop of [build] sets the type of [rrn] to [string] again, for
    every source of every registry that [build] returns. *)
Theorem rrn_override_precedence :
  forall (sample : nat -> list string -> list string)
         (looks_like_date : string -> bool),
    (forall ser : Inference.series,
       Inference.guess_py_type sample looks_like_date ser "rrn" = "string") /\
    (forall py : string, Inference.enforce_py_type "rrn" py = "string") /\
    (forall sources registry src cfg spec,
       Inference.build sample looks_like_date sources = inr registry ->
       In (src, cfg) registry ->
       In ("rrn", spec) (Inference.columns cfg) ->
       Inference.py_type spec = "string" /\
       Inference.sql_type spec = "VARCHAR(255)").
Proof.
  intros sample looks_like_date. split; [|split].
  - apply guess_rrn.
  - apply enforce_rrn.
  - intros sources registry src cfg spec Hb Hin Hspec.
    pose proof (build_from_rrn sample looks_like_date sources [] [] registry
                  (Forall_nil _) Hb) as H.
    rewrite Forall_forall in H. exact (H (src, cfg) Hin spec Hspec).
Qed.

Lemma rrn_override_precedence_witness :
  exists registry cfg spec,
    Inference.build Sample.first_n Sample.no_date [("bank", [Some Sample.bank_file])]
      = inr registry /\
    In ("bank", cfg) registry /\
    In ("rrn", spec) (Inference.columns cfg) /\
    Inference.py_type spec = "string" /\
    Inference.sql_type spec = "VARCHAR(255)" /\
    In ("terminal",
        {| Inference.original := "Terminal"; Inference.map_to := "terminal";
           Inference.py_type := "integer"; Inference.sql_type := "INTEGER" |})
       (Inference.columns cfg).
Proof.
  eexists. eexists. eexists.
  split; [vm_compute; reflexivity|].
  split; [left; reflexivity|].
  split; [left; reflexivity|].
  assert (H := proj2 (proj2 (rrn_override_precedence Sample.first_n Sample.no_date))).
  match goal with
  | |- Inference.py_type ?s = _ /\ _ =>
      destruct (H [("bank", [Some Sample.bank_file])] _ "bank" _ s
                  ltac:(vm_compute; reflexivity)
                  (or_introl eq_refl) (or_introl eq_refl)) as [H1 H2]
  end.
  split; [exact H1|]. split; [exact H2|].
  simpl. tauto.
Defined.

(** ** The batch loop: fail-fast on the first batch that fails *)

Section BatchFacts.
Import Batch.

Lemma process_written (rows : list nat) (rest : list step) (s : loop_state) :
  process_batches (all_written rows ++ rest) s =
  process_batches rest
    {| counters := {| total_rows := total_rows (counters s) + list_sum rows;
                      error_count := error_count (counters s) |};
       written := written s ++ rows;
       taken := taken s + List.length rows |}.
Proof.
  revert s. induction rows as [|n rows IH]; intros s; simpl.
  - rewrite Nat.add_0_r, app_nil_r, Nat.add_0_r. now destruct s as [[? ?] ? ?].
  - rewrite IH. simpl. f_equal. f_equal.
    + f_equal. lia.
    + now rewrite <- app_assoc.
    + lia.
Qed.

Lemma process_first_failure (b : batch) (rest : list step) (s : loop_state) :
  fails b = true -> error_count (counters s) = 0 ->
  exists rows,
    process_batches (Chunk b :: rest) s = (count_error rows s, true).
Proof.
  intros Hb He. destruct b as [n| |n]; [discriminate| |]; simpl; rewrite He; simpl.
  - now exists 0.
  - now exists n.
Qed.

(** No failure raises once an error has been counted. *)
Lemma process_counts_at_most_one (steps : list step) (s : loop_state) :
  error_count (counters s) = 0 ->
  error_count (counters (fst (process_batches steps s))) <= 1.
Proof.
  revert s. induction steps as [|[[n| |n]|] steps IH]; intros s He; simpl.
  - lia.
  - apply IH. exact He.
  - rewrite He. simpl. lia.
  - rewrite He. simpl. lia.
  - lia.
Qed.
End BatchFacts.

(** C9 (amended). With the counters as [process_file] resets them, the run
    stops at the first batch that fails, whichever its position: the
    handler counts the error, the count is 1, and the loop raises; no later
    chunk is taken from the reader, the error count never exceeds 1, and
    the partial output file is removed (where [os.remove] succeeds).  A run
    whose batches all succeed finishes with all of them written. *)
Theorem batch_fail_fast :
  forall (steps : list Batch.step) (remove_ok : bool),
    Batch.error_count (Batch.final (Batch.process_file steps remove_ok)) <= 1 /\
    (forall rows b rest,
       steps = (Batch.all_written rows ++ Batch.Chunk b :: rest)%list ->
       Batch.fails b = true ->
       let r := Batch.process_file steps remove_ok in
       Batch.outcome r = Batch.RuntimeError /\
       Batch.chunks_taken r = S (List.length rows) /\
       Batch.error_count (Batch.final r) = 1 /\
       (remove_ok = true -> Batch.output r = None)) /\
    (forall rows,
       steps = Batch.all_written rows ->
       let r := Batch.process_file steps remove_ok in
       Batch.outcome r = Batch.Finished /\
       Batch.output r = Some rows /\
       Batch.error_count (Batch.final r) = 0 /\
       Batch.total_rows (Batch.final r) = list_sum rows).
Proof.
  intros steps remove_ok. split; [|split].
  - unfold Batch.process_file, Batch._process_file_in_batches.
    pose proof (process_counts_at_most_one steps
      {| Batch.counters := {| Batch.total_rows := 0; Batch.error_count := 0 |};
         Batch.written := []; Batch.taken := 0 |} eq_refl) as H.
    destruct (Batch.process_batches steps _) as [s [|]]; exact H.
  - intros rows b rest -> Hb r. subst r.
    unfold Batch.process_file, Batch._process_file_in_batches.
    rewrite process_written.
    match goal with
    | |- context [Batch.process_batches _ ?s] =>
        destruct (process_first_failure b rest s Hb eq_refl) as [n Hn]; rewrite Hn
    end.
    simpl. repeat split. intros ->. reflexivity.
  - intros rows -> r. subst r.
    unfold Batch.process_file, Batch._process_file_in_batches.
    rewrite <- (app_nil_r (Batch.all_written rows)), process_written.
    simpl. repeat split.
Qed.

Lemma batch_fail_fast_witness :
  let r := Batch.process_file
             [Batch.Chunk (Batch.Written 10); Batch.Chunk Batch.FailsBeforeCount;
              Batch.Chunk (Batch.Written 5)] true in
  Batch.outcome r = Batch.RuntimeError /\
  Batch.chunks_taken r = 2 /\
  Batch.error_count (Batch.final r) = 1 /\
  Batch.output r = None.
Proof.
  destruct (proj1 (proj2 (batch_fail_fast
              [Batch.Chunk (Batch.Written 10); Batch.Chunk Batch.FailsBeforeCount;
               Batch.Chunk (Batch.Written 5)] true))
              [10] Batch.FailsBeforeCount [Batch.Chunk (Batch.Written 5)]
              eq_refl eq_refl) as (H1 & H2 & H3 & H4).
  cbv zeta.
  split; [exact H1 | split; [exact H2 | split; [exact H3 | exact (H4 eq_refl)]]].
Defined.

(** The claim C9 as first stated fails in its second half: an error in a
    later batch is not merely collected.  Here the first batch is written,
    the second fails, and the run is aborted there: the third chunk is
    never taken and the output is removed. *)
Lemma batch_error_policy_counterexample :
  let steps := [Batch.Chunk (Batch.Written 10); Batch.Chunk Batch.FailsBeforeCount;
                Batch.Chunk (Batch.Written 5)] in
  let r := Batch.process_file steps true in
  Batch.outcome r = Batch.RuntimeError /\
  Batch.chunks_taken r = 2 /\
  Batch.chunks_taken r < List.length steps /\
  Batch.output r = None.
Proof. vm_compute. repeat split; lia. Qed.

(** ** The date cleaner: stages *)

Section StageFacts.
Import Frame Cleaner.

Lemma write_back_length (series : list cell) :
  forall result parsed,
    List.length series = List.length result ->
    List.length (write_back series result parsed) = List.length result.
Proof.
  induction series as [|c series IH]; intros [|r result] parsed H;
    try discriminate; [reflexivity|].
  simpl in *. injection H as H.
  destruct (negb (null_mask c) && is_none r).
  - destruct parsed; simpl; now rewrite IH.
  - simpl. now rewrite IH.
Qed.

(** A stage never touches a cell that has a result. *)
Lemma write_back_keeps (series : list cell) :
  forall result parsed i v,
    List.length series = List.length result ->
    nth_error result i = Some (Some v) ->
    nth_error (write_back series result parsed) i = Some (Some v).
Proof.
  induction series as [|c series IH]; intros [|r result] parsed i v Hlen Hi;
    try discriminate; [destruct i; discriminate|].
  simpl in Hlen. injection Hlen as Hlen. simpl.
  destruct i as [|i]; simpl in Hi.
  - injection Hi as ->. simpl. rewrite andb_false_r. reflexivity.
  - destruct (negb (null_mask c) && is_none r).
    + destruct parsed; simpl; now apply IH.
    + simpl. now apply IH.
Qed.

(** A stage never gives a result to a cell that the mask takes for null. *)
Lemma write_back_masked (series : list cell) :
  forall result parsed i c,
    List.length series = List.length result ->
    nth_error series i = Some c -> null_mask c = true ->
    nth_error result i = Some None ->
    nth_error (write_back series result parsed) i = Some None.
Proof.
  induction series as [|c0 series IH]; intros [|r result] parsed i c Hlen Hc Hm Hi;
    try discriminate; [destruct i; discriminate|].
  simpl in Hlen. injection Hlen as Hlen. simpl.
  destruct i as [|i]; simpl in Hi, Hc.
  - injection Hi as ->. injection Hc as ->. rewrite Hm. reflexivity.
  - destruct (negb (null_mask c0) && is_none r).
    + destruct parsed; simpl; now apply (IH _ _ _ c).
    + simpl. now apply (IH _ _ _ c).
Qed.


Lemma stage_length (parse : list string -> list (option Z)) (series : list cell)
    (result : list (option Z)) :
  List.length series = List.length result ->
  List.length (stage parse series result) = List.length series.
Proof. intros H. unfold stage. now rewrite write_back_length. Qed.

Lemma stages_length (parse : string -> list string -> list (option Z))
    (series : list cell) (fmts : list string) :
  forall result,
    List.length series = List.length result ->
    List.length (fold_left (fun r fmt => stage (parse fmt) series r) fmts result)
    = List.length series.
Proof.
  induction fmts as [|fmt fmts IH]; intros result H; [now symmetry|].
  simpl. apply IH. symmetry. now apply stage_length.
Qed.

Lemma stages_keep (parse : string -> list string -> list (option Z))
    (series : list cell) (fmts : list string) :
  forall result i v,
    List.length series = List.length result ->
    nth_error result i = Some (Some v) ->
    nth_error (fold_left (fun r fmt => stage (parse fmt) series r) fmts result) i
    = Some (Some v).
Proof.
  induction fmts as [|fmt fmts IH]; intros result i v Hlen Hi; [exact Hi|].
  simpl. apply IH.
  - symmetry. now apply stage_length.
  - unfold stage. now apply write_back_keeps.
Qed.



End StageFacts.

(** ** Binary64: the numbers that rounding leaves alone, and how far it moves the others *)

Section Binary64Facts.
Import QArith Qround Qpower Lqa Binary64.
Local Open Scope Q_scope.


















End Binary64Facts.

(** ** The date cleaner: spreadsheet serials *)

Section SerialFacts.
Import Frame Cleaner.

Variable to_datetime_format : string -> string -> option Z.
Variable to_datetime_infer : list string -> list (option Z).








Section Serial64.
Import QArith Qround Qpower Lqa.
Local Open Scope Q_scope.







End Serial64.


Lemma excel_stage_length (series : list cell) :
  List.length (excel_stage series) = List.length series.
Proof. apply length_map. Qed.



End SerialFacts.




(** ** Null tokens *)

Section TokenFacts.
Import Frame Cleaner.





End TokenFacts.


Section NullFacts.
Import Frame Cleaner.

Variable to_numeric : string -> option number.
Variable to_datetime_format : string -> string -> option Z.
Variable to_datetime_infer : list string -> list (option Z).
Variable strptime_time : string -> string -> option Z.
Variable int_base16 : string -> option Z.
Variable uuid_str : Z -> string.











End NullFacts.

(** The cleaners that leave the nulls to pandas and to [strptime]: what
    they return for a null input when these parsers read no null token. *)
Section ParserFacts.
Import Frame Cleaner.

Variable to_numeric : string -> option number.
Variable to_datetime_format : string -> string -> option Z.
Variable to_datetime_infer : list string -> list (option Z).
Variable strptime_time : string -> string -> option Z.








End ParserFacts.

Section ReturnFacts.
Import Frame Cleaner.

Variable to_numeric : string -> option number.
Variable to_datetime_format : string -> string -> option Z.
Variable strptime_time : string -> string -> option Z.





End ReturnFacts.




(** ** Frames: labels, selection and assignment *)

Section FrameFacts.
Import Transformer.

Context {A : Type}.

Lemma names_assign (label : string) (col : A) (cols : list (string * A)) :
  map fst (assign label col cols) =
  if Str.mem label (map fst cols) then map fst cols
  else (map fst cols ++ [label])%list.
Proof.
  induction cols as [|[n c] cols IH]; simpl; [reflexivity|].
  destruct (String.eqb_spec label n) as [->|Hne]; simpl; [reflexivity|].
  rewrite IH. unfold Str.mem. now destruct (existsb _ _).
Qed.

Lemma names_assign_incl (label : string) (col : A) (cols : list (string * A)) (x : string) :
  In x (map fst cols) -> In x (map fst (assign label col cols)).
Proof.
  rewrite names_assign. destruct (Str.mem _ _); [tauto|].
  intros H. apply in_or_app. now left.
Qed.

Lemma names_assign_new (label : string) (col : A) (cols : list (string * A)) :
  In label (map fst (assign label col cols)).
Proof.
  rewrite names_assign. destruct (Str.mem label (map fst cols)) eqn:E.
  - now apply mem_In.
  - apply in_or_app. right. now left.
Qed.

Lemma names_assign_NoDup (label : string) (col : A) (cols : list (string * A)) :
  NoDup (map fst cols) -> NoDup (map fst (assign label col cols)).
Proof.
  intros H. rewrite names_assign. destruct (Str.mem label (map fst cols)) eqn:E;
    [exact H|].
  apply not_mem_In in E. apply NoDup_app; [exact H | repeat constructor; tauto |].
  intros x Hx [<-|[]]. contradiction.
Qed.

Lemma get_assign_same (label : string) (col : A) (f : frame A) :
  get_column label (set_column label col f) = Some col.
Proof.
  unfold get_column, set_column. simpl.
  induction (columns f) as [|[n c] cols IH]; simpl.
  - now rewrite String.eqb_refl.
  - destruct (String.eqb label n) eqn:E; simpl; rewrite E; [reflexivity | exact IH].
Qed.

Lemma get_assign_other (label other : string) (col : A) (f : frame A) :
  label <> other ->
  get_column other (set_column label col f) = get_column other f.
Proof.
  intros Hne. unfold get_column, set_column. simpl.
  induction (columns f) as [|[n c] cols IH]; simpl.
  - destruct (String.eqb_spec other label); [congruence | reflexivity].
  - destruct (String.eqb_spec label n) as [->|Hn]; simpl.
    + destruct (String.eqb_spec other n); [congruence | reflexivity].
    + destruct (String.eqb_spec other n); [reflexivity | exact IH].
Qed.

Lemma filter_label_twice (n l : string) (cols : list (string * A)) :
  filter (fun c => String.eqb n (fst c)) (filter (fun c => String.eqb l (fst c)) cols)
  = if String.eqb n l then filter (fun c => String.eqb n (fst c)) cols else [].
Proof.
  destruct (String.eqb_spec n l) as [->|Hne].
  - induction cols as [|[m c] cols IH]; simpl; [reflexivity|].
    destruct (String.eqb l m) eqn:E; simpl; [rewrite E|]; now rewrite IH.
  - induction cols as [|[m c] cols IH]; simpl; [reflexivity|].
    destruct (String.eqb_spec l m) as [->|Hl]; simpl; [|exact IH].
    destruct (String.eqb_spec n m); [contradiction | exact IH].
Qed.

(** A selection hands out the column of a label that it lists. *)
Lemma get_select (n : string) (labels : list string) (f : frame A) :
  In n labels -> get_column n (select labels f) = get_column n f.
Proof.
  unfold get_column, select. simpl. induction labels as [|l labels IH]; [intros []|].
  intros Hin. simpl. rewrite filter_app, filter_label_twice.
  destruct (String.eqb_spec n l) as [->|Hne].
  - destruct (filter (fun c => String.eqb l (fst c)) (columns f)); [|reflexivity].
    simpl. destruct (in_dec string_dec l labels) as [Hl|Hl]; [now apply IH|].
    clear IH Hin. induction labels as [|l' labels IH']; [reflexivity|].
    simpl. rewrite filter_app, filter_label_twice.
    destruct (String.eqb_spec l l') as [->|Hne'].
    + exfalso. apply Hl. now left.
    + simpl. apply IH'. intros H. apply Hl. now right.
  - simpl. destruct Hin as [->|Hin]; [contradiction | now apply IH].
Qed.

Lemma names_filter_label (n : string) (cols : list (string * A)) :
  NoDup (map fst cols) ->
  map fst (filter (fun c => String.eqb n (fst c)) cols)
  = if Str.mem n (map fst cols) then [n] else [].
Proof.
  induction cols as [|[m c] cols IH]; simpl; [reflexivity|].
  intros Hnd. inversion Hnd as [|? ? Hm Hnd']; subst.
  unfold Str.mem in *. simpl. destruct (String.eqb_spec n m) as [->|Hne]; simpl.
  - rewrite (IH Hnd'). apply not_mem_In in Hm. unfold Str.mem in Hm.
    now rewrite Hm.
  - exact (IH Hnd').
Qed.

(** The labels of a selection from a frame with distinct labels: those
    listed that the frame has. *)
Lemma names_select (labels : list string) (f : frame A) :
  NoDup (names f) ->
  names (select labels f) = filter (fun n => Str.mem n (names f)) labels.
Proof.
  intros Hnd. unfold names, select. simpl.
  induction labels as [|l labels IH]; [reflexivity|].
  simpl. rewrite map_app, IH, (names_filter_label l _ Hnd).
  now destruct (Str.mem l (map fst (columns f))).
Qed.

Lemma filter_all (p : string -> bool) (l : list string) :
  (forall x, In x l -> p x = true) -> filter p l = l.
Proof.
  induction l as [|x l IH]; intros H; [reflexivity|].
  simpl. rewrite (H x (or_introl eq_refl)). f_equal. apply IH.
  intros y Hy. apply H. now right.
Qed.

End FrameFacts.

(** ** The transformer and schema conformance *)

Section TransformFacts.
Import Frame Transformer.

Variable DATA_CLEANERS : string -> option cleaner.
Variable list_of_set : list string -> list string.
Variables now now_at_conformance : Z.
Variable config : column_config.
Variable source_id : string.
Variable convert : arrow_type -> column -> option column.

Hypothesis list_of_set_NoDup : forall l, NoDup (list_of_set l).

Abbreviation transform := (transform DATA_CLEANERS list_of_set now config source_id).
Abbreviation conform_field := (conform_field now_at_conformance source_id convert).

(** *** The cleaned table *)

Lemma index_filter_columns (df : raw_frame) :
  index (_filter_columns list_of_set config df) = index df.
Proof.
  unfold _filter_columns. destruct (list_of_set _); [reflexivity|].
  destruct (empty _ && negb (empty df)); reflexivity.
Qed.

Lemma names_filter_columns_NoDup (df : raw_frame) :
  NoDup (names df) -> NoDup (names (_filter_columns list_of_set config df)).
Proof.
  intros Hnd. unfold _filter_columns.
  pose proof (list_of_set_NoDup
                (filter (fun n => Str.mem n (names df)) (originals config))) as Hk.
  destruct (list_of_set _) as [|k keep]; [constructor|].
  destruct (empty _ && negb (empty df)); [constructor|].
  rewrite (names_select _ _ Hnd). now apply NoDup_filter.
Qed.

Lemma index_remove_null_bytes (df : raw_frame) :
  index (_remove_null_bytes df) = index df.
Proof. unfold _remove_null_bytes. destruct (empty df); reflexivity. Qed.

Lemma names_remove_null_bytes (df : raw_frame) :
  names (_remove_null_bytes df) = names df.
Proof.
  unfold _remove_null_bytes. destruct (empty df); [reflexivity|].
  unfold names. simpl. rewrite map_map. reflexivity.
Qed.

Lemma transform_column_index (df : raw_frame) (acc : table) (entry : string * col_spec) :
  index (transform_column DATA_CLEANERS source_id df acc entry) = index acc.
Proof.
  unfold transform_column. destruct (get_column _ df); [|reflexivity].
  destruct (match DATA_CLEANERS _ with Some c => c | None => StringCleaner end _ _);
    reflexivity.
Qed.

Lemma transform_column_NoDup (df : raw_frame) (acc : table) (entry : string * col_spec) :
  NoDup (names acc) ->
  NoDup (names (transform_column DATA_CLEANERS source_id df acc entry)).
Proof.
  intros H. unfold transform_column. destruct (get_column _ df); [|exact H].
  destruct (match DATA_CLEANERS _ with Some c => c | None => StringCleaner end _ _);
    now apply names_assign_NoDup.
Qed.

Lemma transform_columns_index (df : raw_frame) :
  index (_transform_columns DATA_CLEANERS config source_id df) = index df.
Proof.
  unfold _transform_columns. destruct (empty df); [reflexivity|].
  assert (H : forall l acc,
            index (fold_left (transform_column DATA_CLEANERS source_id df) l acc)
            = index acc).
  { induction l as [|e l IH]; intros acc; [reflexivity|].
    simpl. rewrite IH. apply transform_column_index. }
  now rewrite H.
Qed.

Lemma transform_columns_NoDup (df : raw_frame) :
  NoDup (names df) ->
  NoDup (names (_transform_columns DATA_CLEANERS config source_id df)).
Proof.
  intros Hnd. unfold _transform_columns. destruct (empty df).
  - unfold names. simpl. rewrite map_map. exact Hnd.
  - assert (H : forall l acc, NoDup (names acc) ->
              NoDup (names (fold_left (transform_column DATA_CLEANERS source_id df) l acc))).
    { induction l as [|e l IH]; intros acc Hacc; [exact Hacc|].
      simpl. apply IH. now apply transform_column_NoDup. }
    apply H. constructor.
Qed.

Lemma transform_index (df : raw_frame) : index (transform df) = index df.
Proof.
  unfold Transformer.transform, _add_metadata. simpl.
  now rewrite transform_columns_index, index_remove_null_bytes, index_filter_columns.
Qed.

Lemma transform_NoDup (df : raw_frame) :
  NoDup (names df) -> NoDup (names (transform df)).
Proof.
  intros Hnd. unfold Transformer.transform, _add_metadata, names. simpl.
  do 2 apply names_assign_NoDup.
  apply transform_columns_NoDup. rewrite names_remove_null_bytes.
  now apply names_filter_columns_NoDup.
Qed.

Lemma transform_data_source (df : raw_frame) :
  get_column "data_source" (transform df)
  = Some (constant ObjectDtype (Str source_id) (index df)).
Proof.
  unfold Transformer.transform, _add_metadata.
  rewrite get_assign_other by discriminate. rewrite get_assign_same.
  now rewrite transform_columns_index, index_remove_null_bytes, index_filter_columns.
Qed.

Lemma transform_processed_at (df : raw_frame) :
  get_column "processed_at" (transform df)
  = Some (constant Datetime64 (Timestamp now) (index df)).
Proof.
  unfold Transformer.transform, _add_metadata. rewrite get_assign_same. simpl.
  now rewrite transform_columns_index, index_remove_null_bytes, index_filter_columns.
Qed.

Lemma get_column_In {A : Type} (n : string) (f : frame A) (c : A) :
  get_column n f = Some c -> In n (names f).
Proof.
  unfold get_column, names.
  destruct (filter _ (columns f)) as [|[m c'] l] eqn:E; [discriminate|].
  intros _. assert (H : In (m, c') (filter (fun c0 => String.eqb n (fst c0)) (columns f)))
    by (rewrite E; now left).
  apply filter_In in H. destruct H as [H1 H2]. simpl in H2.
  apply String.eqb_eq in H2. subst. apply in_map_iff. now exists (m, c').
Qed.

Lemma In_get_column {A : Type} (n : string) (f : frame A) :
  In n (names f) -> exists c, get_column n f = Some c.
Proof.
  unfold get_column, names. intros H. apply in_map_iff in H.
  destruct H as ([m c] & E & Hin). simpl in E. subst m.
  destruct (filter _ (columns f)) as [|x l] eqn:F; [|eauto].
  assert (H : In (n, c) (filter (fun c0 => String.eqb n (fst c0)) (columns f))).
  { apply filter_In. split; [exact Hin | apply String.eqb_refl]. }
  rewrite F in H. destruct H.
Qed.

(** *** The loop over the fields of the schema *)

Variable current : list string.

Lemma conform_field_index (acc : table) (field : string * arrow_type) :
  index (conform_field current acc field) = index acc.
Proof.
  unfold Transformer.conform_field. destruct field as [n t].
  destruct (is_metadata n).
  - destruct (Str.mem n current); [reflexivity|].
    destruct (String.eqb n "data_source"); reflexivity.
  - destruct (negb (Str.mem n current)); [reflexivity|].
    destruct (get_column n acc) as [col|]; [|reflexivity].
    destruct (needs_conversion t (dtype_of col)); [|reflexivity].
    destruct (convert t col); reflexivity.
Qed.

Lemma conform_field_names (acc : table) (field : string * arrow_type) (x : string) :
  In x (names acc) -> In x (names (conform_field current acc field)).
Proof.
  intros H. unfold Transformer.conform_field. destruct field as [n t].
  destruct (is_metadata n).
  - destruct (Str.mem n current); [exact H|].
    destruct (String.eqb n "data_source"); now apply names_assign_incl.
  - destruct (negb (Str.mem n current)); [now apply names_assign_incl|].
    destruct (get_column n acc) as [col|]; [|exact H].
    destruct (needs_conversion t (dtype_of col)); [|exact H].
    destruct (convert t col); [now apply names_assign_incl | exact H].
Qed.

Lemma conform_field_NoDup (acc : table) (field : string * arrow_type) :
  NoDup (names acc) -> NoDup (names (conform_field current acc field)).
Proof.
  intros H. unfold Transformer.conform_field. destruct field as [n t].
  destruct (is_metadata n).
  - destruct (Str.mem n current); [exact H|].
    destruct (String.eqb n "data_source"); now apply names_assign_NoDup.
  - destruct (negb (Str.mem n current)); [now apply names_assign_NoDup|].
    destruct (get_column n acc) as [col|]; [|exact H].
    destruct (needs_conversion t (dtype_of col)); [|exact H].
    destruct (convert t col); [now apply names_assign_NoDup | exact H].
Qed.

(** After its turn the field has a column. *)
Lemma conform_field_present (acc : table) (field : string * arrow_type) :
  incl current (names acc) ->
  In (fst field) (names (conform_field current acc field)).
Proof.
  intros Hcur. unfold Transformer.conform_field. destruct field as [n t]. simpl.
  destruct (is_metadata n).
  - destruct (Str.mem n current) eqn:E.
    + apply Hcur. now apply mem_In.
    + destruct (String.eqb n "data_source"); apply names_assign_new.
  - destruct (Str.mem n current) eqn:E; simpl; [|apply names_assign_new].
    assert (Hn : In n (names acc)) by (apply Hcur; now apply mem_In).
    destruct (get_column n acc) as [col|]; [|exact Hn].
    destruct (needs_conversion t (dtype_of col)); [|exact Hn].
    destruct (convert t col); [apply names_assign_new | exact Hn].
Qed.

(** A turn leaves the columns of the other labels alone, and a metadata
    column that came in as well. *)
Lemma conform_field_other (acc : table) (field : string * arrow_type) (n : string) :
  fst field <> n ->
  get_column n (conform_field current acc field) = get_column n acc.
Proof.
  intros Hne. unfold Transformer.conform_field. destruct field as [m t].
  simpl in Hne. destruct (is_metadata m).
  - destruct (Str.mem m current); [reflexivity|].
    destruct (String.eqb m "data_source"); now apply get_assign_other.
  - destruct (negb (Str.mem m current)); [now apply get_assign_other|].
    destruct (get_column m acc) as [col|]; [|reflexivity].
    destruct (needs_conversion t (dtype_of col)); [|reflexivity].
    destruct (convert t col); [now apply get_assign_other | reflexivity].
Qed.

Lemma conform_field_metadata (acc : table) (field : string * arrow_type) (n : string) :
  is_metadata n = true -> Str.mem n current = true ->
  get_column n (conform_field current acc field) = get_column n acc.
Proof.
  intros Hm Hc. destruct (string_dec (fst field) n) as [E|Hne];
    [|now apply conform_field_other].
  unfold Transformer.conform_field. destruct field as [m t]. simpl in E. subst m.
  now rewrite Hm, Hc.
Qed.

Lemma conform_field_backfill (acc : table) (n : string) (t : arrow_type) :
  is_metadata n = false -> Str.mem n current = false ->
  get_column n (conform_field current acc (n, t))
  = Some (null_column t (index acc)).
Proof.
  intros Hm Hc. unfold Transformer.conform_field. rewrite Hm, Hc. simpl.
  apply get_assign_same.
Qed.

Section Loop.
Variable schema : list (string * arrow_type).

Abbreviation run := (fold_left (conform_field current)).

Lemma loop_index (fields : list (string * arrow_type)) :
  forall acc, index (run fields acc) = index acc.
Proof.
  induction fields as [|f fields IH]; intros acc; [reflexivity|].
  simpl. rewrite IH. apply conform_field_index.
Qed.

Lemma loop_names (fields : list (string * arrow_type)) (x : string) :
  forall acc, In x (names acc) -> In x (names (run fields acc)).
Proof.
  induction fields as [|f fields IH]; intros acc H; [exact H|].
  simpl. apply IH. now apply conform_field_names.
Qed.

Lemma loop_NoDup (fields : list (string * arrow_type)) :
  forall acc, NoDup (names acc) -> NoDup (names (run fields acc)).
Proof.
  induction fields as [|f fields IH]; intros acc H; [exact H|].
  simpl. apply IH. now apply conform_field_NoDup.
Qed.

Lemma loop_present (fields : list (string * arrow_type)) :
  forall acc, incl current (names acc) ->
    forall f, In f fields -> In (fst f) (names (run fields acc)).
Proof.
  induction fields as [|f0 fields IH]; intros acc Hcur f Hf; [destruct Hf|].
  simpl. destruct Hf as [->|Hf].
  - apply loop_names. now apply conform_field_present.
  - apply IH; [|exact Hf]. intros x Hx. apply conform_field_names. now apply Hcur.
Qed.

Lemma loop_metadata (fields : list (string * arrow_type)) (n : string) :
  is_metadata n = true -> Str.mem n current = true ->
  forall acc, get_column n (run fields acc) = get_column n acc.
Proof.
  intros Hm Hc. induction fields as [|f fields IH]; intros acc; [reflexivity|].
  simpl. rewrite IH. now apply conform_field_metadata.
Qed.

(** A data column that did not come in is, after the loop, the null
    column of a field of its name. *)
Lemma loop_backfill (n : string) (rows : nat) (fields : list (string * arrow_type)) :
  is_metadata n = false -> Str.mem n current = false ->
  incl fields schema ->
  forall acc,
    index acc = rows ->
    (exists t, In (n, t) fields) \/
    (exists t, In (n, t) schema /\ get_column n acc = Some (null_column t rows)) ->
    exists t, In (n, t) schema /\
              get_column n (run fields acc) = Some (null_column t rows).
Proof.
  intros Hm Hc. induction fields as [|[m t0] fields IH]; intros Hsub acc Hrows H.
  - destruct H as [[t []]|H]; exact H.
  - cbn [fold_left]. apply IH.
    + intros x Hx. apply Hsub. now right.
    + now rewrite conform_field_index.
    + destruct (string_dec m n) as [->|Hne].
      * right. exists t0. split; [apply Hsub; now left|].
        rewrite conform_field_backfill by assumption. now rewrite Hrows.
      * destruct H as [[t [E|Hin]]|[t [Hin Hg]]].
        -- inversion E. contradiction.
        -- left. now exists t.
        -- right. exists t. split; [exact Hin|].
           now rewrite conform_field_other.
Qed.
End Loop.

End TransformFacts.

(** C4. For every raw chunk (with distinct headers), every source id and
    every column config, the table that the transform step followed by
    schema conformance puts out has exactly the columns of the target
    schema, in its order: the canonical names of the config, then
    [data_source] and [processed_at], whichever original headers the chunk
    lacked, and as many rows as the chunk.  A canonical column that the
    cleaned table lacks is back-filled as the all-null column of the dtype
    that goes with its type; [data_source] holds the source id in every
    row and [processed_at] the timestamp taken at the transform step. *)
Theorem normalized_schema :
  forall (DATA_CLEANERS : string -> option Transformer.cleaner)
         (list_of_set : list string -> list string)
         (now now_at_conformance : Z)
         (config : Transformer.column_config) (source_id : string)
         (convert : Transformer.arrow_type -> Transformer.column
                    -> option Transformer.column)
         (df : Transformer.raw_frame),
    (forall l, NoDup (list_of_set l)) ->
    NoDup (Transformer.names df) ->
    let cleaned :=
      Transformer.transform DATA_CLEANERS list_of_set now config source_id df in
    let out :=
      Transformer.normalized DATA_CLEANERS list_of_set now now_at_conformance
        config source_id convert df in
    Transformer.names out
      = (map (fun entry => Inference.map_to (snd entry)) config
         ++ ["data_source"; "processed_at"])%list /\
    Transformer.index out = Transformer.index df /\
    (forall n,
       In n (map (fun entry => Inference.map_to (snd entry)) config) ->
       Transformer.is_metadata n = false ->
       ~ In n (Transformer.names cleaned) ->
       exists spec,
         In spec (map snd config) /\ Inference.map_to spec = n /\
         Transformer.get_column n out
         = Some (Transformer.null_column
                   (Transformer.arrow_of_py_type (Inference.py_type spec))
                   (Transformer.index df))) /\
    Transformer.get_column "data_source" out
      = Some (Transformer.constant Transformer.ObjectDtype (Frame.Str source_id)
                (Transformer.index df)) /\
    Transformer.get_column "processed_at" out
      = Some (Transformer.constant Transformer.Datetime64 (Frame.Timestamp now)
                (Transformer.index df)).
Proof.
  intros DATA_CLEANERS list_of_set now now' config source_id convert df Hset Hdf
    cleaned out.
  set (schema := Transformer.create_target_schema config).
  set (current := Transformer.names cleaned).
  set (R := fold_left (Transformer.conform_field now' source_id convert current)
                      schema cleaned).
  assert (Hout : out = Transformer.select
                         (filter (fun n => Str.mem n (Transformer.names R))
                                 (Transformer.target_column_names config)) R)
    by reflexivity.
  assert (Hnd : NoDup (Transformer.names R)).
  { apply loop_NoDup.
    exact (transform_NoDup DATA_CLEANERS list_of_set now config source_id Hset df Hdf). }
  assert (Hall : forall n, In n (Transformer.target_column_names config) ->
                           In n (Transformer.names R)).
  { intros n Hn. unfold Transformer.target_column_names in Hn.
    apply in_map_iff in Hn. destruct Hn as (f & <- & Hf).
    apply (loop_present now' source_id convert current schema cleaned);
      [apply incl_refl | exact Hf]. }
  assert (Hfinal : filter (fun n => Str.mem n (Transformer.names R))
                          (Transformer.target_column_names config)
                   = Transformer.target_column_names config).
  { apply filter_all. intros n Hn. apply mem_In. now apply Hall. }
  rewrite Hfinal in Hout.
  assert (Hnames : Transformer.target_column_names config
                   = (map (fun entry => Inference.map_to (snd entry)) config
                      ++ ["data_source"; "processed_at"])%list).
  { unfold Transformer.target_column_names, Transformer.create_target_schema.
    rewrite map_app, map_map. reflexivity. }
  assert (Hidx : Transformer.index R = Transformer.index df).
  { unfold R. rewrite loop_index.
    apply (transform_index DATA_CLEANERS list_of_set now config source_id). }
  assert (Hmeta : forall n, Transformer.is_metadata n = true ->
                  In n (Transformer.target_column_names config) ->
                  Str.mem n current = true ->
                  Transformer.get_column n out = Transformer.get_column n cleaned).
  { intros n Hm Hn Hc. rewrite Hout, (get_select n _ R Hn).
    now apply loop_metadata. }
  split; [|split; [|split; [|split]]].
  - rewrite Hout, (names_select _ _ Hnd), <- Hnames. apply filter_all.
    intros n Hn. apply mem_In. now apply Hall.
  - rewrite Hout. exact Hidx.
  - intros n Hn Hm Hmiss.
    assert (Hc : Str.mem n current = false) by now apply not_mem_In.
    assert (Hfield : exists t, In (n, t) schema).
    { apply in_map_iff in Hn. destruct Hn as (entry & <- & He).
      exists (Transformer.arrow_of_py_type (Inference.py_type (snd entry))).
      unfold schema, Transformer.create_target_schema. apply in_or_app. left.
      apply in_map_iff. now exists entry. }
    destruct (loop_backfill now' source_id convert current schema n
                (Transformer.index df) schema Hm Hc (incl_refl _) cleaned
                (transform_index DATA_CLEANERS list_of_set now config source_id df)
                (or_introl Hfield)) as (t & Ht & Hg).
    unfold schema, Transformer.create_target_schema in Ht.
    apply in_app_or in Ht. destruct Ht as [Ht|Ht].
    + apply in_map_iff in Ht. destruct Ht as (entry & E & He).
      inversion E; subst. exists (snd entry). split; [now apply in_map|].
      split; [reflexivity|].
      rewrite Hout, get_select; [exact Hg|].
      rewrite Hnames. apply in_or_app. left.
      apply in_map_iff. now exists entry.
    + exfalso. destruct Ht as [E|[E|[]]]; inversion E; subst; discriminate.
  - rewrite (Hmeta "data_source" eq_refl).
    + apply transform_data_source.
    + rewrite Hnames. apply in_or_app. right. now left.
    + apply mem_In.
      exact (get_column_In _ _ _
               (transform_data_source DATA_CLEANERS list_of_set now config source_id df)).
  - rewrite (Hmeta "processed_at" eq_refl).
    + apply transform_processed_at.
    + rewrite Hnames. apply in_or_app. right. right. now left.
    + apply mem_In.
      exact (get_column_In _ _ _
               (transform_processed_at DATA_CLEANERS list_of_set now config source_id df)).
Qed.

Lemma normalized_schema_witness :
  let out := Transformer.normalized Sample.registry Sample.set_order 1700000000 0
               Sample.bank_config "bank" Sample.no_conversion Sample.chunk in
  Transformer.names out = ["rrn"; "order_id"; "status"; "data_source"; "processed_at"] /\
  Transformer.get_column "order_id" out
    = Some (Transformer.constant Transformer.Int64Dtype (Frame.Null Frame.PdNA) 2) /\
  Transformer.get_column "data_source" out
    = Some (Transformer.constant Transformer.ObjectDtype (Frame.Str "bank") 2).
Proof.
  assert (Hset : forall l, NoDup (Sample.set_order l))
    by (intros l; apply NoDup_nodup).
  assert (Hdf : NoDup (Transformer.names Sample.chunk)).
  { unfold Transformer.names. simpl.
    repeat (constructor; [simpl; intuition discriminate|]). constructor. }
  destruct (normalized_schema Sample.registry Sample.set_order 1700000000 0
              Sample.bank_config "bank" Sample.no_conversion Sample.chunk Hset Hdf)
    as (H1 & _ & H3 & H4 & _).
  split; [exact H1|]. split; [|exact H4].
  destruct (H3 "order_id") as (spec & Hs & Hn & Hg).
  - simpl. tauto.
  - reflexivity.
  - apply not_mem_In. vm_compute. reflexivity.
  - rewrite Hg. simpl in Hs.
    destruct Hs as [<-|[<-|[<-|[]]]]; try discriminate Hn. reflexivity.
Defined.

(* ===================================================================== *)
(** * Part III. Further properties of the code                            *)
(* ===================================================================== *)

(** ** The view: the LEFT JOIN with the bank *)

Section JoinFacts.
Import Sql Recon.

Lemma bank_match_type_null_row (t : TA.row) :
  bank_match_type t Bank.null_row = None.
Proof.
  unfold bank_match_type, when_a, when_b, when_c, when_d, when_e, when_f, when_g,
    auth_eq, rrn_eq. simpl.
  destruct (TA.final_authorization_code t), (TA.final_rrn t); reflexivity.
Qed.

Lemma join_on_tier (t : TA.row) (b : Bank.row) :
  holds (join_on t b) = true ->
  holds (auth_eq t b) = true \/ holds (rrn_eq t b) = true.
Proof.
  unfold join_on, join_a, join_b, join_c, join_d, join_e, join_f, join_g.
  rewrite !holds_or3, !holds_and3.
  destruct (holds (auth_eq t b)), (holds (rrn_eq t b)); auto.
Qed.

(** A bank row that the join takes has an authorisation code or an RRN,
    and the CASE labels the pair. *)
Lemma joined_not_null_row (t : TA.row) (b : Bank.row) :
  holds (join_on t b) = true ->
  b <> Bank.null_row /\ bank_match_type t b <> None.
Proof.
  intros H. split.
  - intros ->. destruct (join_on_tier _ _ H) as [E|E];
      [unfold auth_eq in E | unfold rrn_eq in E]; simpl in E;
      [destruct (TA.final_authorization_code t) | destruct (TA.final_rrn t)];
      discriminate.
  - revert H. unfold join_on, bank_match_type.
    rewrite when_a_join, when_b_join, when_c_join, when_d_join, when_e_join,
      when_f_join, when_g_join, !holds_or3.
    destruct (holds (join_a t b)), (holds (join_b t b)), (holds (join_c t b)),
      (holds (join_d t b)), (holds (join_e t b)), (holds (join_f t b)),
      (holds (join_g t b)); simpl; congruence.
Qed.

Lemma left_join_bank_rows (bank : list Bank.row) (t : TA.row) (r : View.row) :
  In r (left_join_bank bank t) ->
  View.ta r = t /\
  View.bank_match_type r = bank_match_type t (View.b r) /\
  ((View.b r = Bank.null_row /\
    filter (fun b => holds (join_on t b)) bank = [])
   \/ (In (View.b r) bank /\ holds (join_on t (View.b r)) = true)).
Proof.
  unfold left_join_bank.
  destruct (filter (fun b => holds (join_on t b)) bank) as [|b0 l] eqn:E.
  - intros [<-|[]]. simpl. auto.
  - intros H. apply in_map_iff in H. destruct H as (b & <- & Hb). simpl.
    rewrite <- E in Hb. apply filter_In in Hb. auto.
Qed.

End JoinFacts.

(** X1. The reconciliation never loses a transaction and never invents
    one: with or without the bank side, the transactions of the rows of
    the view are exactly the rows of [transaction_with_analysis].  A
    transaction that no bank row joins appears once, with all bank columns
    and the match label NULL; a transaction that [k > 0] bank rows join
    appears [k] times, once for each of them. *)
Theorem reconciliation_keeps_every_transaction
    (include_reconciliation : bool) (range : option (Z * Z)) (db : database) :
  let twa := transaction_with_analysis (gateway_analysis range db) in
  let view := payment_analysis_view include_reconciliation range db in
  (forall t, In t twa <-> exists r, In r view /\ View.ta r = t) /\
  (include_reconciliation = false -> map View.ta view = twa) /\
  (forall t,
     let matched := filter (fun b => Sql.holds (Recon.join_on t b)) (bank db) in
     List.length (left_join_bank (bank db) t) = Nat.max 1 (List.length matched) /\
     (matched = [] ->
      left_join_bank (bank db) t
      = [{| View.ta := t; View.b := Bank.null_row;
            View.bank_match_type := None |}])).
Proof.
  cbv zeta. split; [|split].
  - intros t. split.
    + intros Ht. unfold payment_analysis_view. destruct include_reconciliation.
      * unfold left_join_bank.
        destruct (filter (fun b => Sql.holds (Recon.join_on t b)) (bank db))
          as [|b0 l] eqn:E.
        -- exists {| View.ta := t; View.b := Bank.null_row;
                     View.bank_match_type := Recon.bank_match_type t Bank.null_row |}.
           split; [|reflexivity].
           apply in_flat_map. exists t. split; [exact Ht|].
           unfold left_join_bank. rewrite E. now left.
        -- exists {| View.ta := t; View.b := b0;
                     View.bank_match_type := Recon.bank_match_type t b0 |}.
           split; [|reflexivity].
           apply in_flat_map. exists t. split; [exact Ht|].
           unfold left_join_bank. rewrite E. now left.
      * exists {| View.ta := t; View.b := Bank.null_row;
                  View.bank_match_type := None |}.
        split; [|reflexivity].
        apply in_map_iff. exists t. split; [reflexivity | exact Ht].
    + intros (r & Hr & <-). exact (view_rows_from_stage _ _ _ _ Hr).
  - intros ->. unfold payment_analysis_view. rewrite map_map. simpl.
    apply map_id.
  - intros t. unfold left_join_bank.
    destruct (filter (fun b => Sql.holds (Recon.join_on t b)) (bank db))
      as [|b0 l].
    + split; [reflexivity|]. intros _. now rewrite bank_match_type_null_row.
    + split; [|discriminate]. now rewrite length_map.
Qed.

(** X2. In the view with reconciliation a row has no match label exactly
    when it has no bank side: [bank_match_type] is NULL if and only if the
    LEFT JOIN found no bank row for the transaction, and then every bank
    column of the row is NULL and no row of the bank table satisfies the
    join for it. *)
Theorem unmatched_rows_have_no_label
    (range : option (Z * Z)) (db : database) (r : View.row) :
  In r (payment_analysis_view true range db) ->
  (View.bank_match_type r = None <-> View.b r = Bank.null_row) /\
  (View.bank_match_type r = None ->
   forall b, In b (bank db) -> Sql.holds (Recon.join_on (View.ta r) b) = false) /\
  (View.bank_match_type r <> None ->
   In (View.b r) (bank db) /\
   Sql.holds (Recon.join_on (View.ta r) (View.b r)) = true).
Proof.
  unfold payment_analysis_view. intros Hr.
  apply in_flat_map in Hr. destruct Hr as (t & _ & Hr).
  destruct (left_join_bank_rows _ _ _ Hr) as (Ht & Hl & Hcase).
  rewrite Hl, Ht.
  destruct Hcase as [[Hb Hnone]|[Hb Hj]].
  - rewrite Hb, bank_match_type_null_row. split; [tauto|]. split.
    + intros _ b Hin. destruct (Sql.holds (Recon.join_on t b)) eqn:E; auto.
      assert (Hf : In b (filter (fun b => Sql.holds (Recon.join_on t b)) (bank db)))
        by (apply filter_In; auto).
      rewrite Hnone in Hf. destruct Hf.
    + congruence.
  - destruct (joined_not_null_row _ _ Hj) as [Hn Hl']. split; [tauto|]. split.
    + intros E. contradiction.
    + auto.
Qed.

Lemma unmatched_rows_have_no_label_witness :
  exists r,
    In r (payment_analysis_view true None (Sample.db [Sample.capture])) /\
    View.bank_match_type r <> None /\
    In (View.b r) (bank (Sample.db [Sample.capture])).
Proof.
  assert (H : payment_analysis_view true None (Sample.db [Sample.capture]) <> []).
  { vm_compute. discriminate. }
  destruct (payment_analysis_view true None (Sample.db [Sample.capture])) as [|r l] eqn:E;
    [contradiction|].
  assert (Hr : In r (payment_analysis_view true None (Sample.db [Sample.capture])))
    by (rewrite E; now left).
  destruct (unmatched_rows_have_no_label None (Sample.db [Sample.capture]) r Hr) as (_ & _ & H3).
  exists r. rewrite <- E.
  assert (Hl : View.bank_match_type r <> None).
  { assert (Hhd : hd_error (payment_analysis_view true None (Sample.db [Sample.capture])) = Some r)
      by (rewrite E; reflexivity).
    vm_compute in Hhd. injection Hhd as <-. discriminate. }
  split; [exact Hr|]. split; [exact Hl|]. exact (proj1 (H3 Hl)).
Defined.

(** ** The window of [ranked_transactions] *)

Section WindowFacts.
Import Sql.

Lemma MAX_flags (p : GA.row -> tv) (part : list GA.row) :
  part <> [] ->
  MAX Z.leb (map (fun x => flag_to_int (p x)) part)
  = Some (if existsb (fun x => holds (p x)) part then 1 else 0)%Z.
Proof.
  induction part as [|x l IH]; [congruence|]. intros _.
  destruct l as [|y l].
  - simpl. unfold flag_to_int. now destruct (holds (p x)).
  - change (MAX Z.leb (map (fun x => flag_to_int (p x)) (x :: y :: l)))
      with (max_opt Z.leb (flag_to_int (p x))
              (MAX Z.leb (map (fun x => flag_to_int (p x)) (y :: l)))).
    rewrite IH by discriminate.
    change (existsb (fun x => holds (p x)) (x :: y :: l))
      with (holds (p x) || existsb (fun x => holds (p x)) (y :: l)).
    unfold flag_to_int.
    destruct (holds (p x)), (existsb (fun x => holds (p x)) (y :: l)); reflexivity.
Qed.

Lemma existsb_filter {A : Type} (f g : A -> bool) (l : list A) :
  existsb f (filter g l) = existsb (fun x => g x && f x) l.
Proof.
  induction l as [|x l IH]; [reflexivity|]. simpl.
  destruct (g x); simpl; now rewrite IH.
Qed.

Lemma group_not_empty (ga : list GA.row) (r : GA.row) :
  In r ga -> filter (same_group r) ga <> [].
Proof.
  intros H E.
  assert (Hin : In r (filter (same_group r) ga))
    by (apply filter_In; split; [exact H | apply same_group_refl]).
  rewrite E in Hin. destruct Hin.
Qed.

Lemma has_auth_in_group_spec (ga : list GA.row) (r : GA.row) :
  In r ga ->
  RT.has_auth_in_group (rank_row ga r)
  = Some (if existsb (fun x => same_group r x && holds (GA.is_auth x)) ga
          then 1 else 0)%Z.
Proof.
  intros H. unfold rank_row, window. simpl.
  rewrite (MAX_flags GA.is_auth) by now apply group_not_empty.
  now rewrite existsb_filter.
Qed.

Lemma has_capture_in_group_spec (ga : list GA.row) (r : GA.row) :
  In r ga ->
  RT.has_capture_in_group (rank_row ga r)
  = Some (if existsb (fun x => same_group r x && holds (GA.is_capture x)) ga
          then 1 else 0)%Z.
Proof.
  intros H. unfold rank_row, window. simpl.
  rewrite (MAX_flags GA.is_capture) by now apply group_not_empty.
  now rewrite existsb_filter.
Qed.

End WindowFacts.

(** X3. The two group flags of [ranked_transactions] are never NULL and
    say what their names say: for every row of [gateway_analysis],
    [has_auth_in_group] is 1 if some row with the same
    [gateway_order_id] and [gateway_transaction_id] (NULL keys grouped
    together) is an authorisation and 0 otherwise, and likewise
    [has_capture_in_group] for captures.  A flag that is NULL counts as
    not set. *)
Theorem group_flags_describe_the_group (ga : list GA.row) (r : GA.row) :
  In r ga ->
  RT.has_auth_in_group (rank_row ga r)
  = Some (if existsb (fun x => same_group r x && Sql.holds (GA.is_auth x)) ga
          then 1 else 0)%Z /\
  RT.has_capture_in_group (rank_row ga r)
  = Some (if existsb (fun x => same_group r x && Sql.holds (GA.is_capture x)) ga
          then 1 else 0)%Z.
Proof.
  intros H. split;
    [now apply has_auth_in_group_spec | now apply has_capture_in_group_spec].
Qed.

Lemma group_flags_describe_the_group_witness :
  RT.has_auth_in_group
    (rank_row [Sample.ga_authorisation; Sample.ga_capture] Sample.ga_capture)
  = Some 1%Z /\
  RT.has_capture_in_group
    (rank_row [Sample.ga_authorisation; Sample.ga_capture] Sample.ga_capture)
  = Some 1%Z.
Proof.
  exact (group_flags_describe_the_group
           [Sample.ga_authorisation; Sample.ga_capture] Sample.ga_capture
           (or_intror (or_introl eq_refl))).
Defined.

Section FinalCodes.
Import Sql.

Lemma capture_with_auth_spec (ga : list GA.row) (r : GA.row) :
  In r ga ->
  holds (Analysis.capture_with_auth (rank_row ga r))
  = holds (GA.is_capture r)
    && existsb (fun x => same_group r x && holds (GA.is_auth x)) ga.
Proof.
  intros H. unfold Analysis.capture_with_auth. rewrite !holds_and3.
  rewrite has_auth_in_group_spec, has_capture_in_group_spec by exact H.
  unfold Analysis.is_capture, rank_row, window. simpl.
  destruct (holds (GA.is_capture r)) eqn:Ec; [|reflexivity].
  assert (Hc : existsb (fun x => same_group r x && holds (GA.is_capture x)) ga = true).
  { apply existsb_exists. exists r. split; [exact H|].
    now rewrite same_group_refl, Ec. }
  rewrite Hc.
  destruct (existsb (fun x => same_group r x && holds (GA.is_auth x)) ga);
    reflexivity.
Qed.

End FinalCodes.

(** X4. [final_rrn] and [final_authorization_code] differ from the row's
    own [rrn] and [authorization_code] only through the merge: for a row
    that is no capture, or whose group holds no authorisation, they are
    the row's own values.  For a capture whose group holds an
    authorisation they are the greatest RRN and the greatest authorisation
    code, each taken on its own, among the authorisations of the group. *)
Theorem final_codes_come_from_the_group (ga : list GA.row) (r : GA.row) :
  In r ga ->
  let group := filter (same_group r) ga in
  let merged :=
    Sql.holds (GA.is_capture r)
    && existsb (fun x => same_group r x && Sql.holds (GA.is_auth x)) ga in
  Analysis.final_rrn (rank_row ga r)
  = (if merged
     then Sql.MAX String.leb (map (fun x => case_when (GA.is_auth x) (GA.rrn x)) group)
     else GA.rrn r) /\
  Analysis.final_authorization_code (rank_row ga r)
  = (if merged
     then Sql.MAX String.leb
            (map (fun x => case_when (GA.is_auth x) (GA.authorization_code x)) group)
     else GA.authorization_code r).
Proof.
  intros H. cbv zeta.
  unfold Analysis.final_rrn, Analysis.final_authorization_code.
  rewrite (capture_with_auth_spec ga r H).
  destruct (Sql.holds (GA.is_capture r)
            && existsb (fun x => same_group r x && Sql.holds (GA.is_auth x)) ga);
    split; reflexivity.
Qed.

Lemma final_codes_come_from_the_group_witness :
  Analysis.final_rrn
    (rank_row [Sample.ga_authorisation; Sample.ga_capture] Sample.ga_capture)
  = Some "A1" /\
  Analysis.final_rrn
    (rank_row [Sample.ga_authorisation; Sample.ga_capture] Sample.ga_authorisation)
  = GA.rrn Sample.ga_authorisation.
Proof.
  split.
  - exact (proj1 (final_codes_come_from_the_group
                    [Sample.ga_authorisation; Sample.ga_capture] Sample.ga_capture
                    (or_intror (or_introl eq_refl)))).
  - exact (proj1 (final_codes_come_from_the_group
                    [Sample.ga_authorisation; Sample.ga_capture]
                    Sample.ga_authorisation (or_introl eq_refl))).
Defined.

(** ** The two CASE expressions of [transaction_with_analysis] *)

Section LabelFacts.
Import Sql Analysis.

Lemma outcome_success_cascade (g : GA.row) :
  transaction_outcome g = Some "Success" -> cascade g = Some "Success".
Proof.
  unfold transaction_outcome.
  assert (H : cascade g = Some "Success" \/ cascade g = Some "Failure").
  { unfold cascade.
    repeat match goal with
           | |- context [if holds ?c then _ else _] => destruct (holds c)
           end; auto. }
  destruct H as [-> | ->]; simpl; congruence.
Qed.

(** The labels that [transaction_analysis] gives to a row whose outcome
    is Success. *)
Lemma analysis_of_success (r : RT.row) :
  transaction_outcome (RT.ga r) = Some "Success" ->
  RT.has_auth_in_group r = Some 0%Z \/ RT.has_auth_in_group r = Some 1%Z ->
  In (transaction_analysis r)
     [Some "Refund Successful"; Some "Void Successful";
      Some "Capture Successful (auth_less)";
      Some "Capture Successful (Authorisation Merged)";
      Some "Authorisation Successful";
      Some "General Success (Code 10000)"; Some "General Success (Approved)"].
Proof.
  intros H Hflag. apply outcome_success_cascade in H. revert H.
  unfold cascade, transaction_analysis.
  destruct Hflag as [-> | ->]; simpl eq_Z;
    (destruct (holds (GA.is_refund (RT.ga r)));
     [destruct (holds (refund_ok (RT.ga r))); simpl; intros H;
      [tauto | discriminate H]|]);
    (destruct (holds (or3 (GA.is_void (RT.ga r)) (status_is (RT.ga r) "CANCEL")));
     [destruct (holds (void_ok (RT.ga r))); simpl; intros H;
      [tauto | discriminate H]|]);
    (destruct (holds (GA.is_capture (RT.ga r)));
     [destruct (holds (approved (RT.ga r))); simpl; intros H;
      [tauto | discriminate H]|]);
    (destruct (holds (GA.is_auth (RT.ga r)));
     [destruct (holds (approved (RT.ga r))); simpl; intros H;
      [tauto | discriminate H]|]);
    (destruct (holds (code_10000 (RT.ga r))); [simpl; tauto|]);
    (destruct (holds (status_is (RT.ga r) "APPROVED")); [simpl; tauto|]);
    simpl; intros H; discriminate H.
Qed.

Lemma stage_row_origin (ga : list GA.row) (t : TA.row) :
  In t (transaction_with_analysis ga) ->
  exists g, In g ga /\ t = select (rank_row ga g) /\
            holds (where_clause (rank_row ga g)) = true.
Proof.
  unfold transaction_with_analysis, ranked_transactions. intros H.
  apply in_map_iff in H. destruct H as (r & <- & Hr).
  apply filter_In in Hr. destruct Hr as [Hr Hw].
  apply in_map_iff in Hr. destruct Hr as (g & <- & Hg). eauto.
Qed.

End LabelFacts.

(** X5. The label [transaction_analysis] of a row of the view never
    contradicts the success-only filter: it is one of the seven labels of
    success.  No row of the view is labelled Failed, Pending, General
    Failure or Unknown, and the plain label Capture Successful is never
    given at all, since [has_auth_in_group] is 0 or 1. *)
Theorem view_labels_are_labels_of_success
    (include_reconciliation : bool) (range : option (Z * Z)) (db : database) :
  Forall (fun r =>
            In (TA.transaction_analysis (View.ta r))
               [Some "Refund Successful"; Some "Void Successful";
                Some "Capture Successful (auth_less)";
                Some "Capture Successful (Authorisation Merged)";
                Some "Authorisation Successful";
                Some "General Success (Code 10000)";
                Some "General Success (Approved)"])
         (payment_analysis_view include_reconciliation range db).
Proof.
  apply Forall_forall. intros r Hr.
  apply view_rows_from_stage in Hr.
  destruct (stage_row_origin _ _ Hr) as (g & Hg & -> & Hw).
  simpl TA.transaction_analysis.
  apply analysis_of_success.
  - exact (proj1 (where_clause_holds _ Hw)).
  - rewrite (has_auth_in_group_spec _ _ Hg).
    destruct (existsb _ _); auto.
Qed.

(** ** The date filter *)

Section DateFilterFacts.

Lemma flat_map_filter_guard {A B : Type} (c d : A -> bool) (x : B) (l : list A) :
  flat_map (fun p => if c p && d p then [x] else []) l
  = flat_map (fun p => if c p && true then [x] else []) (filter d l).
Proof.
  induction l as [|p l IH]; [reflexivity|]. simpl.
  destruct (d p); simpl; rewrite IH.
  - now rewrite !andb_true_r.
  - now rewrite andb_false_r.
Qed.

End DateFilterFacts.

Lemma gateway_section_within (cfg : gateway_config) (lo hi : Z)
    (tbl : list Src.row) (db : database) :
  gateway_section cfg (Some (lo, hi)) tbl db
  = gateway_section cfg None tbl (portal_within lo hi db).
Proof.
  unfold gateway_section. apply flat_map_ext. intros g.
  simpl metabase. apply flat_map_ext. intros m.
  destruct (Sql.holds (join_m_condition cfg g m)); [|reflexivity].
  simpl portal. unfold date_filter_here.
  apply (flat_map_filter_guard
           (fun p => Sql.holds (Sql.eq_Z (Metabase.portal_order_id m)
                                         (Portal.order_id p)))).
Qed.

(** X6. The date filter acts on the portal side only, and before
    everything else: the rows of [gateway_analysis] under an active filter
    from [lo] to [hi] are the rows that the unfiltered query gives on the
    database whose portal table holds only the orders with a transaction
    date in that range (an order without a date is left out), and so are
    the rows of the view.  The dates of the gateway rows and of the bank
    rows play no part in the filter. *)
Theorem date_filter_restricts_the_portal
    (lo hi : Z) (db : database) (include_reconciliation : bool) :
  gateway_analysis (Some (lo, hi)) db
  = gateway_analysis None (portal_within lo hi db) /\
  payment_analysis_view include_reconciliation (Some (lo, hi)) db
  = payment_analysis_view include_reconciliation None (portal_within lo hi db).
Proof.
  assert (H : gateway_analysis (Some (lo, hi)) db
              = gateway_analysis None (portal_within lo hi db)).
  { unfold gateway_analysis. now rewrite !gateway_section_within. }
  split; [exact H|]. unfold payment_analysis_view. now rewrite H.
Qed.

(** ** The status tests of the outcome *)

Section StatusFacts.
Import Sql Analysis.

(** The four statuses that the outcome reads. *)
Lemma outcome_by_code (g : GA.row) :
  (forall s, UPPER (GA.status g) = Some s ->
             Str.mem s ["FULLY_REFUNDED"; "PARTIALLY_REFUNDED"; "CANCELED"; "APPROVED"]
             = false) ->
  transaction_outcome g
  = if holds (code_10000 g) then Some "Success" else Some "Failure".
Proof.
  intros Hs. unfold transaction_outcome, cascade, refund_ok, void_ok, approved,
    status_is, in_strs.
  set (c := code_10000 g). set (fr := GA.is_refund g). set (fv := GA.is_void g).
  set (fc := GA.is_capture g). set (fa := GA.is_auth g).
  clearbody c fr fv fc fa.
  destruct (UPPER (GA.status g)) as [s|] eqn:E.
  - specialize (Hs s eq_refl). simpl in Hs.
    rewrite !orb_false_r in Hs. apply orb_false_iff in Hs. destruct Hs as [H1 Hs].
    apply orb_false_iff in Hs. destruct Hs as [H2 Hs].
    apply orb_false_iff in Hs. destruct Hs as [H3 H4].
    simpl. rewrite H1, H2, H3, H4.
    destruct c as [[|]|], fr as [[|]|], fv as [[|]|], fc as [[|]|], fa as [[|]|],
      (String.eqb s "CANCEL"); reflexivity.
  - simpl.
    destruct c as [[|]|], fr as [[|]|], fv as [[|]|], fc as [[|]|], fa as [[|]|];
      reflexivity.
Qed.

Lemma like_not_status (status : option string) (pat : string) :
  holds (like_contains (UPPER status) pat) = true ->
  forallb (fun v => negb (Str.contains pat v))
          ["FULLY_REFUNDED"; "PARTIALLY_REFUNDED"; "CANCELED"; "APPROVED"] = true ->
  forall s, UPPER status = Some s ->
            Str.mem s ["FULLY_REFUNDED"; "PARTIALLY_REFUNDED"; "CANCELED"; "APPROVED"]
            = false.
Proof.
  intros H Hpat s Hs. rewrite Hs in H. simpl in H.
  destruct (Str.contains pat s) eqn:Ec; [|discriminate].
  apply not_mem_In. intros Hin.
  rewrite forallb_forall in Hpat. specialize (Hpat s Hin).
  rewrite Ec in Hpat. discriminate.
Qed.

Lemma cancel_not_status (status : option string) :
  holds (eq_str (UPPER status) (Some "CANCEL")) = true ->
  forall s, UPPER status = Some s ->
            Str.mem s ["FULLY_REFUNDED"; "PARTIALLY_REFUNDED"; "CANCELED"; "APPROVED"]
            = false.
Proof.
  intros H s Hs. rewrite Hs in H. simpl in H.
  destruct (String.eqb s "CANCEL") eqn:E; [|discriminate].
  apply String.eqb_eq in E. now subst.
Qed.

(** The lifecycle flags of the three card gateways exclude the statuses
    that the outcome reads. *)
Lemma card_flags_not_status (cfg : gateway_config) (g : Src.row) :
  In cfg [GatewaysConfig.checkout_v1; GatewaysConfig.checkout_v2;
          GatewaysConfig.payfort] ->
  holds (is_auth_expr cfg g) || holds (is_capture_expr cfg g)
  || holds (is_void_expr cfg g) = true ->
  forall s, UPPER (Src.status g) = Some s ->
            Str.mem s ["FULLY_REFUNDED"; "PARTIALLY_REFUNDED"; "CANCELED"; "APPROVED"]
            = false.
Proof.
  intros Hcfg Hflag.
  assert (Hcases :
    holds (GatewaysConfig.status_like g "AUTHORISATION") = true \/
    holds (GatewaysConfig.status_like g "AUTHORIZATION") = true \/
    holds (GatewaysConfig.status_like g "CAPTURE") = true \/
    holds (GatewaysConfig.status_like g "VOID") = true \/
    holds (eq_str (UPPER (Src.status g)) (Some "CANCEL")) = true).
  { destruct Hcfg as [<-|[<-|[<-|[]]]]; simpl in Hflag;
      rewrite ?holds_or3 in Hflag;
      repeat (apply orb_true_iff in Hflag; destruct Hflag as [Hflag|Hflag]);
      tauto. }
  destruct Hcases as [H|[H|[H|[H|H]]]];
    [apply (like_not_status _ _ H); reflexivity ..
    | apply (cancel_not_status _ H)].
Qed.

End StatusFacts.

Section GatewayRows.
Import Sql.

Lemma gateway_section_rows (cfg : gateway_config) (range : option (Z * Z))
    (tbl : list Src.row) (db : database) (r : GA.row) :
  In r (gateway_section cfg range tbl db) ->
  exists g, In g tbl /\ r = gateway_select cfg g.
Proof.
  unfold gateway_section. intros H.
  apply in_flat_map in H. destruct H as (g & Hg & H).
  apply in_flat_map in H. destruct H as (m & _ & H).
  destruct (holds (join_m_condition cfg g m)); [|destruct H].
  apply in_flat_map in H. destruct H as (p & _ & H).
  destruct (_ && _); [|destruct H].
  destruct H as [<-|[]]. eauto.
Qed.

Lemma gateway_analysis_rows (range : option (Z * Z)) (db : database) (r : GA.row) :
  In r (gateway_analysis range db) ->
  exists cfg g,
    In cfg [GatewaysConfig.checkout_v1; GatewaysConfig.checkout_v2;
            GatewaysConfig.payfort; GatewaysConfig.tamara] /\
    r = gateway_select cfg g.
Proof.
  unfold gateway_analysis. rewrite !in_app_iff.
  intros [H|[H|[H|H]]]; apply gateway_section_rows in H;
    destruct H as (g & _ & ->); eexists; exists g; split;
    try reflexivity; simpl; tauto.
Qed.

Lemma card_row_outcome (cfg : gateway_config) (g : Src.row) :
  In cfg [GatewaysConfig.checkout_v1; GatewaysConfig.checkout_v2;
          GatewaysConfig.payfort] ->
  holds (is_auth_expr cfg g) || holds (is_capture_expr cfg g)
  || holds (is_void_expr cfg g) = true ->
  Analysis.transaction_outcome (gateway_select cfg g)
  = if holds (eq_str (response_code_col cfg g) (Some "10000"))
    then Some "Success" else Some "Failure".
Proof.
  intros Hcfg Hflag. apply outcome_by_code.
  exact (card_flags_not_status cfg g Hcfg Hflag).
Qed.

End GatewayRows.

(** X7. For a row of checkout_v1, checkout_v2 or payfort that is an
    authorisation, a capture or a void, the status tests of the outcome
    can never succeed: a status that contains AUTHORISATION,
    AUTHORIZATION, CAPTURE or VOID, or that is CANCEL, is none of APPROVED,
    CANCELED, FULLY_REFUNDED and PARTIALLY_REFUNDED.  The outcome of such a
    row is Success exactly when its response code is 10000, whichever
    branch of the CASE takes it; for payfort, whose response code is the
    empty string, it is always Failure. *)
Theorem lifecycle_rows_succeed_by_code_only (cfg : gateway_config) (g : Src.row) :
  In cfg [GatewaysConfig.checkout_v1; GatewaysConfig.checkout_v2;
          GatewaysConfig.payfort] ->
  Sql.holds (is_auth_expr cfg g) || Sql.holds (is_capture_expr cfg g)
  || Sql.holds (is_void_expr cfg g) = true ->
  (Analysis.transaction_outcome (gateway_select cfg g) = Some "Success"
   <-> response_code_col cfg g = Some "10000") /\
  (cfg = GatewaysConfig.payfort ->
   Analysis.transaction_outcome (gateway_select cfg g) = Some "Failure").
Proof.
  intros Hcfg Hflag. rewrite (card_row_outcome cfg g Hcfg Hflag). split.
  - destruct (response_code_col cfg g) as [c|]; simpl.
    + destruct (String.eqb c "10000") eqn:E.
      * apply String.eqb_eq in E. subst. tauto.
      * apply String.eqb_neq in E. split; [discriminate|]. congruence.
    + split; discriminate.
  - intros ->. reflexivity.
Qed.

Lemma lifecycle_rows_succeed_by_code_only_witness :
  Analysis.transaction_outcome
    (gateway_select GatewaysConfig.checkout_v1 Sample.declined_capture)
  = Some "Failure" /\
  Analysis.transaction_outcome
    (gateway_select GatewaysConfig.payfort (Sample2.payfort_row "Capture"))
  = Some "Failure".
Proof.
  split.
  - destruct (lifecycle_rows_succeed_by_code_only GatewaysConfig.checkout_v1
                Sample.declined_capture (or_introl eq_refl) eq_refl) as [H _].
    destruct (outcome_cases
                (gateway_select GatewaysConfig.checkout_v1 Sample.declined_capture))
      as [E|E]; [|exact E].
    apply H in E. discriminate E.
  - exact (proj2 (lifecycle_rows_succeed_by_code_only GatewaysConfig.payfort
                    (Sample2.payfort_row "Capture")
                    (or_intror (or_intror (or_introl eq_refl))) eq_refl) eq_refl).
Defined.

(** X8. No authorisation, capture or void of payfort ever reaches the
    view: for every database, date range and either setting of the
    reconciliation, a row of the view whose [gateway_source] is payfort
    has none of [is_auth], [is_capture] and [is_void] set.  Only payfort
    rows that are refunds with a refunded status, or that carry no
    lifecycle word and the status APPROVED, can appear. *)
Theorem payfort_lifecycle_rows_never_in_view
    (include_reconciliation : bool) (range : option (Z * Z)) (db : database) :
  Forall (fun r =>
            let g := RT.ga (TA.rt (View.ta r)) in
            GA.gateway_source g = "payfort" ->
            Sql.holds (GA.is_auth g) = false /\
            Sql.holds (GA.is_capture g) = false /\
            Sql.holds (GA.is_void g) = false)
         (payment_analysis_view include_reconciliation range db).
Proof.
  apply Forall_forall. intros r Hr. cbv zeta. intros Hsrc.
  apply view_rows_from_stage in Hr.
  destruct (stage_row_origin _ _ Hr) as (g0 & Hg0 & E & Hw).
  rewrite E in Hsrc |- *. simpl in Hsrc |- *.
  pose proof (proj1 (where_clause_holds _ Hw)) as Hout. simpl in Hout.
  destruct (gateway_analysis_rows _ _ _ Hg0) as (cfg & s & Hcfg & ->).
  assert (cfg = GatewaysConfig.payfort) as ->.
  { destruct Hcfg as [<-|[<-|[<-|[<-|[]]]]]; simpl in Hsrc;
      try discriminate Hsrc; reflexivity. }
  destruct (Sql.holds (is_auth_expr GatewaysConfig.payfort s)
            || Sql.holds (is_capture_expr GatewaysConfig.payfort s)
            || Sql.holds (is_void_expr GatewaysConfig.payfort s)) eqn:Ef.
  - rewrite (card_row_outcome GatewaysConfig.payfort s) in Hout;
      [discriminate Hout | simpl; tauto | exact Ef].
  - apply orb_false_iff in Ef. destruct Ef as [Ef Hv].
    apply orb_false_iff in Ef. destruct Ef as [Ha Hc].
    change (GA.is_auth (gateway_select GatewaysConfig.payfort s))
      with (is_auth_expr GatewaysConfig.payfort s).
    change (GA.is_capture (gateway_select GatewaysConfig.payfort s))
      with (is_capture_expr GatewaysConfig.payfort s).
    change (GA.is_void (gateway_select GatewaysConfig.payfort s))
      with (is_void_expr GatewaysConfig.payfort s).
    auto.
Qed.

(** The capture of the sample order of payfort is not in the view; its
    refund and its approved purchase are. *)
Lemma payfort_lifecycle_rows_never_in_view_witness :
  map (fun r => GA.status (RT.ga (TA.rt (View.ta r))))
      (payment_analysis_view true None Sample2.payfort_db)
  = [Some "Fully_Refunded"; Some "Approved"] /\
  Forall (fun r =>
            Sql.holds (GA.is_capture (RT.ga (TA.rt (View.ta r)))) = false)
         (payment_analysis_view true None Sample2.payfort_db).
Proof.
  split; [reflexivity|].
  pose proof (payfort_lifecycle_rows_never_in_view true None Sample2.payfort_db) as H.
  rewrite Forall_forall in H |- *. intros r Hr.
  refine (proj1 (proj2 (H r Hr _))).
  apply view_rows_from_stage in Hr.
  destruct (stage_row_origin _ _ Hr) as (g0 & Hg0 & -> & _).
  simpl. vm_compute in Hg0.
  destruct Hg0 as [<-|[<-|[<-|[]]]]; reflexivity.
Defined.

(** ** The columns of the final SELECT *)

From Stdlib Require OrderedTypeEx Sorting.Sorted.

Section SortedSetFacts.
Import Stdlib.Sorting.Sorted.

Lemma str_lt_trans (x y z : string) : str_lt x y -> str_lt y z -> str_lt x z.
Proof.
  unfold str_lt. intros H1 H2.
  apply OrderedTypeEx.String_as_OT.cmp_lt in H1, H2.
  apply OrderedTypeEx.String_as_OT.cmp_lt.
  exact (OrderedTypeEx.String_as_OT.lt_trans _ _ _ H1 H2).
Qed.

Lemma str_lt_irrefl (x : string) : ~ str_lt x x.
Proof.
  unfold str_lt. intros H.
  assert (E : String.compare x x = Eq)
    by now apply OrderedTypeEx.String_as_OT.cmp_eq.
  congruence.
Qed.

Lemma insert_unique_sorted (x : string) (l : list string) :
  StronglySorted str_lt l -> StronglySorted str_lt (Py.insert_unique x l).
Proof.
  induction l as [|y l IH]; intros Hs; simpl.
  - constructor; constructor.
  - inversion Hs as [|? ? Hl Hy]; subst.
    destruct (String.compare x y) eqn:E.
    + exact Hs.
    + constructor; [exact Hs|]. constructor; [exact E|].
      apply Forall_forall. intros z Hz. rewrite Forall_forall in Hy.
      exact (str_lt_trans _ _ _ E (Hy z Hz)).
    + constructor; [now apply IH|].
      apply Forall_forall. intros z Hz. apply In_insert_unique in Hz.
      destruct Hz as [->|Hz].
      * unfold str_lt. rewrite String.compare_antisym, E. reflexivity.
      * rewrite Forall_forall in Hy. now apply Hy.
Qed.

Lemma sorted_set_sorted (l : list string) : StronglySorted str_lt (Py.sorted_set l).
Proof.
  induction l as [|x l IH]; simpl; [constructor|].
  now apply insert_unique_sorted.
Qed.

Lemma sorted_filter (p : string -> bool) (l : list string) :
  StronglySorted str_lt l -> StronglySorted str_lt (filter p l).
Proof.
  induction 1 as [|x l Hl IH Hx]; simpl; [constructor|].
  destruct (p x); [|exact IH]. constructor; [exact IH|].
  apply Forall_forall. intros z Hz. apply filter_In in Hz.
  rewrite Forall_forall in Hx. now apply Hx.
Qed.

Lemma sorted_NoDup (l : list string) : StronglySorted str_lt l -> NoDup l.
Proof.
  induction 1 as [|x l Hl IH Hx]; constructor; [|exact IH].
  intros Hin. rewrite Forall_forall in Hx.
  exact (str_lt_irrefl x (Hx x Hin)).
Qed.

Lemma remove_first_NoDup (x : string) (l : list string) :
  NoDup l -> NoDup (Py.remove_first x l) /\ ~ In x (Py.remove_first x l).
Proof.
  induction 1 as [|y l Hy Hl IH]; simpl; [split; [constructor | tauto]|].
  destruct (String.eqb_spec x y) as [->|Hne].
  - split; assumption.
  - destruct IH as [IH1 IH2]. split.
    + constructor; [|exact IH1]. intros Hin. apply Hy.
      exact (remove_first_In _ _ _ Hin).
    + simpl. intros [E|Hin]; [congruence | contradiction].
Qed.

End SortedSetFacts.

Section MappingFacts.
Import QueryText.

Variable a : args.

Lemma mapped_values_are_no_keys :
  forallb (fun v => negb (Str.mem v (map fst get_field_mapping)))
          (map snd get_field_mapping ++ ESSENTIAL_FIELDS ++ default_fields) = true.
Proof. vm_compute. reflexivity. Qed.

Lemma get_key (k : string) (d : list (string * string)) :
  (exists v, Py.get k d = Some v) <-> In k (map fst d).
Proof.
  induction d as [|[k' v'] d IH]; simpl.
  - split; [intros [v H]; discriminate | tauto].
  - destruct (String.eqb_spec k k') as [->|Hne].
    + split; eauto.
    + rewrite IH. split; [tauto|]. intros [E|H]; [congruence | exact H].
Qed.

Lemma get_value (k v : string) (d : list (string * string)) :
  Py.get k d = Some v -> In v (map snd d).
Proof.
  induction d as [|[k' v'] d IH]; simpl; [discriminate|].
  destruct (String.eqb k k'); [intros H; injection H as ->; now left | auto].
Qed.

Lemma no_key_of_checked (v : string) :
  In v (map snd get_field_mapping ++ ESSENTIAL_FIELDS ++ default_fields)%list ->
  ~ In v (map fst get_field_mapping).
Proof.
  intros Hv Hk. pose proof mapped_values_are_no_keys as H.
  rewrite forallb_forall in H. specialize (H v Hv).
  apply mem_In in Hk. rewrite Hk in H. discriminate.
Qed.

(** No name that the selection loop adds is a key of the alias map. *)
Lemma processed_are_no_keys (al : string) :
  In al (processed_selected_fields a) -> ~ In al (map fst get_field_mapping).
Proof.
  unfold processed_selected_fields.
  set (selected := flat_map _ (selected_fields a)).
  assert (Hsel : forall x, In x selected -> ~ In x (map fst get_field_mapping)).
  { intros x Hx. unfold selected in Hx.
    apply in_flat_map in Hx. destruct Hx as (item & _ & Hx).
    apply in_flat_map in Hx. destruct Hx as (f & _ & Hx).
    unfold processed_field in Hx.
    destruct (alias_to_add a (fst item) f) as [al0|]; [|destruct Hx].
    destruct (truthy al0); [|destruct Hx].
    destruct (Py.get al0 get_field_mapping) as [m|] eqn:E.
    - destruct Hx as [<-|[]]. apply no_key_of_checked.
      apply in_or_app. left. exact (get_value _ _ _ E).
    - destruct Hx as [<-|[]]. intros Hk. apply get_key in Hk.
      destruct Hk as [v Hv]. congruence. }
  assert (Hess : forall x, In x ESSENTIAL_FIELDS -> ~ In x (map fst get_field_mapping)).
  { intros x Hx. apply no_key_of_checked. apply in_or_app. right.
    apply in_or_app. now left. }
  destruct (selected ++ ESSENTIAL_FIELDS)%list as [|y l] eqn:E.
  - intros Hd. apply no_key_of_checked. apply in_or_app. right.
    apply in_or_app. now right.
  - rewrite <- E. intros Hin. apply in_app_or in Hin.
    destruct Hin as [Hin|Hin]; auto.
Qed.

(** On such names the validation keeps or skips; its second branch, the
    look-up in the alias map, is never taken. *)
Lemma validate_is_filter (view l : list string) :
  (forall al, In al l -> ~ In al (map fst get_field_mapping)) ->
  flat_map (validate view) l = filter (fun al => Str.mem al view) l.
Proof.
  induction l as [|x l IH]; intros H; [reflexivity|]. simpl.
  rewrite IH by (intros al Hal; apply H; now right).
  unfold validate. destruct (Str.mem x view); [reflexivity|].
  destruct (Py.get x get_field_mapping) as [m|] eqn:E; [|reflexivity].
  exfalso. apply (H x (or_introl eq_refl)). apply get_key. eauto.
Qed.

Lemma validated_is_filter :
  flat_map (validate (view_aliases a)) (final_select_aliases a)
  = filter (fun al => Str.mem al (view_aliases a)) (final_select_aliases a).
Proof.
  apply validate_is_filter. intros al Hal.
  apply processed_are_no_keys. unfold final_select_aliases in Hal.
  exact (proj1 (In_sorted_set _ _) Hal).
Qed.

Lemma gateway_order_id_kept :
  In "gateway_order_id"
     (filter (fun al => Str.mem al (view_aliases a)) (final_select_aliases a)).
Proof.
  apply filter_In. split.
  - unfold final_select_aliases. apply In_sorted_set.
    unfold processed_selected_fields.
    set (selected := flat_map _ (selected_fields a)).
    assert (H : In "gateway_order_id" (selected ++ ESSENTIAL_FIELDS)%list).
    { apply in_or_app. right. unfold ESSENTIAL_FIELDS. simpl. tauto. }
    destruct (selected ++ ESSENTIAL_FIELDS)%list; [destruct H | exact H].
  - apply mem_In. apply gateway_order_id_in_view.
Qed.

End MappingFacts.

(** X9. The final SELECT lists each requested column that the view
    defines exactly once, in ascending order of [sorted]; with
    [return_distinct_orders] it lists [gateway_order_id] first and the
    others in that order.  [gateway_order_id] is always among the columns,
    so the branch that would insert it is never taken, and neither is the
    second branch of the validation, the look-up of a missing alias in the
    alias map: every name has gone through the map before. *)
Theorem final_select_columns_are_sorted_and_distinct (a : QueryText.args) :
  let kept :=
    filter (fun al => Str.mem al (QueryText.view_aliases a))
           (QueryText.final_select_aliases a) in
  Stdlib.Sorting.Sorted.StronglySorted str_lt kept /\
  QueryText.validated_select_aliases a
  = (if QueryText.return_distinct_orders a
     then "gateway_order_id" :: Py.remove_first "gateway_order_id" kept
     else kept) /\
  NoDup (QueryText.validated_select_aliases a) /\
  In "gateway_order_id" (QueryText.validated_select_aliases a).
Proof.
  cbv zeta.
  assert (Hs : Stdlib.Sorting.Sorted.StronglySorted str_lt
                 (filter (fun al => Str.mem al (QueryText.view_aliases a))
                         (QueryText.final_select_aliases a))).
  { apply sorted_filter. apply sorted_set_sorted. }
  assert (Hv : QueryText.validated_select_aliases a
               = (if QueryText.return_distinct_orders a
                  then "gateway_order_id"
                       :: Py.remove_first "gateway_order_id"
                            (filter (fun al => Str.mem al (QueryText.view_aliases a))
                                    (QueryText.final_select_aliases a))
                  else filter (fun al => Str.mem al (QueryText.view_aliases a))
                              (QueryText.final_select_aliases a))).
  { unfold QueryText.validated_select_aliases. rewrite validated_is_filter.
    destruct (QueryText.return_distinct_orders a); [|reflexivity].
    now rewrite (proj2 (mem_In _ _) (gateway_order_id_kept a)). }
  split; [exact Hs|]. split; [exact Hv|]. rewrite Hv.
  pose proof (sorted_NoDup _ Hs) as Hn.
  destruct (QueryText.return_distinct_orders a).
  - destruct (remove_first_NoDup "gateway_order_id" _ Hn) as [H1 H2].
    split; [constructor; assumption | now left].
  - split; [exact Hn | apply gateway_order_id_kept].
Qed.

(** X10. A key of the alias map is never a column of the final SELECT,
    whatever is requested.  Eight of the keys are aliases that every view
    defines (the payment ids of the four gateways among them): these
    columns of the view cannot be selected at all, because a request for
    one of them is redirected to a name of the map. *)
Theorem alias_map_keys_are_never_selected (a : QueryText.args) (k : string) :
  In k (map fst QueryText.get_field_mapping) ->
  ~ In k (QueryText.validated_select_aliases a) /\
  (In k ["checkout_v1_payment_id"; "checkout_v2_payment_id";
         "checkout_v2_payment_method"; "checkout_v2_currency";
         "payfort_payment_id"; "tamara_payment_id";
         "tamara_transaction_date"; "tamara_order_created_at"] ->
   In k (QueryText.view_aliases a)).
Proof.
  intros Hk. split.
  - intros Hin.
    assert (Hkept : In k (filter (fun al => Str.mem al (QueryText.view_aliases a))
                                 (QueryText.final_select_aliases a))).
    { unfold QueryText.validated_select_aliases in Hin.
      rewrite validated_is_filter in Hin.
      destruct (QueryText.return_distinct_orders a); [|exact Hin].
      rewrite (proj2 (mem_In _ _) (gateway_order_id_kept a)) in Hin.
      destruct Hin as [<-|Hin].
      - exfalso. revert Hk. apply no_key_of_checked.
        apply in_or_app. right. apply in_or_app. left.
        unfold QueryText.ESSENTIAL_FIELDS. simpl. tauto.
      - exact (remove_first_In _ _ _ Hin). }
    apply filter_In in Hkept. destruct Hkept as [Hfin _].
    unfold QueryText.final_select_aliases in Hfin.
    apply (proj1 (In_sorted_set _ _)) in Hfin.
    exact (processed_are_no_keys a k Hfin Hk).
  - intros H8. apply settled_in_view.
    assert (Hall : forallb
              (fun w => Str.mem w
                 (QueryText.findall_within 0 (QueryText.section_head "checkout_v1")
                  ++ flat_map Py.findall QueryText.transaction_with_analysis_sql))
              ["checkout_v1_payment_id"; "checkout_v2_payment_id";
               "checkout_v2_payment_method"; "checkout_v2_currency";
               "payfort_payment_id"; "tamara_payment_id";
               "tamara_transaction_date"; "tamara_order_created_at"] = true)
      by (vm_compute; reflexivity).
    exact (forallb_mem_incl _ _ Hall k H8).
Qed.

Lemma alias_map_keys_are_never_selected_witness :
  ~ In "tamara_payment_id"
       (QueryText.validated_select_aliases Sample3.tamara_request) /\
  In "tamara_payment_id" (QueryText.view_aliases Sample3.tamara_request).
Proof.
  assert (Hk : In "tamara_payment_id" (map fst QueryText.get_field_mapping)).
  { apply mem_In. reflexivity. }
  destruct (alias_map_keys_are_never_selected Sample3.tamara_request
              "tamara_payment_id" Hk) as [H1 H2].
  split; [exact H1|]. apply H2. clear H1 H2 Hk.
  apply mem_In. reflexivity.
Defined.

(** ** What the text depends on *)

Section TextDependsOn.
Import QueryText.

Lemma query_parts_ext (a b : args) :
  include_reconciliation a = include_reconciliation b ->
  date_filter_active a = date_filter_active b ->
  query_parts a = query_parts b.
Proof.
  intros Hr Hd. unfold query_parts, gw_sections_sql.
  assert (Hs : map (section_sql a) gateway_names_ordered
               = map (section_sql b) gateway_names_ordered).
  { apply map_ext. intros gw. unfold section_sql, date_filter_clause.
    now rewrite Hd. }
  now rewrite Hr, Hs.
Qed.

End TextDependsOn.

Section DateFilterAndValidation.
Import QueryText.





End DateFilterAndValidation.



Lemma no_bank_alias_without_reconciliation :
  forallb (fun c => negb (String.prefix "bank_" c))
          (QueryText.view_aliases Sample3.tamara_request_unfiltered) = true.
Proof. vm_compute. reflexivity. Qed.

(** X12. Without reconciliation, and with no active date filter, no
    column of the final SELECT is a bank column: a request for bank
    fields, under the source bank or under any other source, is dropped,
    because the view then defines no alias that begins with [bank_]. *)
Theorem no_bank_columns_without_reconciliation (a : QueryText.args) :
  QueryText.include_reconciliation a = false ->
  QueryText.date_filter_active a = None ->
  Forall (fun c => String.prefix "bank_" c = false)
         (QueryText.validated_select_aliases a).
Proof.
  intros Hr Hd. apply Forall_forall. intros c Hc.
  apply validated_in_view in Hc. unfold QueryText.view_aliases in Hc.
  rewrite (query_parts_ext a Sample3.tamara_request_unfiltered Hr Hd) in Hc.
  pose proof no_bank_alias_without_reconciliation as H.
  rewrite forallb_forall in H. specialize (H c Hc).
  now apply negb_true_iff in H.
Qed.

Lemma no_bank_columns_without_reconciliation_witness :
  Forall (fun c => String.prefix "bank_" c = false)
         (QueryText.validated_select_aliases Sample3.tamara_request).
Proof.
  apply (no_bank_columns_without_reconciliation Sample3.tamara_request);
    reflexivity.
Defined.

(** ** The registry that [build] returns *)

Section RegistryFacts.
Import Inference.

Variable sample : nat -> list string -> list string.
Variable looks_like_date : string -> bool.

Lemma has_key_In {V : Type} (k : string) (d : list (string * V)) :
  has_key k d = true <-> In k (map fst d).
Proof.
  unfold has_key. rewrite existsb_exists. split.
  - intros ([k' v] & Hin & E). apply String.eqb_eq in E. simpl in E. subst.
    apply in_map_iff. exists (k', v). auto.
  - intros H. apply in_map_iff in H. destruct H as ([k' v] & E & Hin).
    simpl in E. subst. exists (k, v). split; [exact Hin | apply String.eqb_refl].
Qed.

Lemma columns_ok_add (cols : list (string * col_spec)) (kv : string * col_spec) :
  columns_ok cols -> has_key (fst kv) cols = false -> entry_ok kv ->
  columns_ok (cols ++ [kv]).
Proof.
  intros [Hn Hf] Hk He. split.
  - rewrite map_app. simpl. apply NoDup_app_remove_l with (l := []).
    simpl. apply (Permutation_NoDup (l := fst kv :: map fst cols)).
    + apply Permutation_cons_append.
    + constructor; [|exact Hn]. intros Hin. apply has_key_In in Hin. congruence.
  - apply Forall_app. split; [exact Hf|]. constructor; [exact He | constructor].
Qed.

Lemma mapping_values_not_id :
  forallb (fun sm => forallb (fun kv => negb (String.eqb (snd kv) "id")) (snd sm))
          SOURCE_MAPPINGS = true.
Proof. vm_compute. reflexivity. Qed.

Lemma source_mapping_In (src : string) (m : list (string * string)) :
  source_mapping src = Some m -> In (src, m) SOURCE_MAPPINGS.
Proof.
  unfold source_mapping. generalize SOURCE_MAPPINGS.
  induction l as [|[k v] l IH]; [discriminate|].
  destruct (String.eqb_spec src k) as [->|Hne].
  - intros E. injection E as ->. now left.
  - intros E. right. now apply IH.
Qed.

Lemma mapping_value_not_id (src : string) (m : list (string * string))
    (k v : string) :
  source_mapping src = Some m -> In (k, v) m -> v <> "id".
Proof.
  intros Hm Hin. apply source_mapping_In in Hm.
  pose proof mapping_values_not_id as H. rewrite forallb_forall in H.
  specialize (H _ Hm). simpl in H. rewrite forallb_forall in H.
  specialize (H _ Hin). simpl in H. apply negb_true_iff in H.
  now apply String.eqb_neq in H.
Qed.

Lemma get_In (k v : string) (d : list (string * string)) :
  Py.get k d = Some v -> In (k, v) d.
Proof.
  induction d as [|[k' v'] d IH]; simpl; [discriminate|].
  destruct (String.eqb_spec k k') as [->|Hne].
  - intros E. injection E as ->. now left.
  - intros E. right. now apply IH.
Qed.

(** [map_standard_name] never answers [id]. *)
Lemma map_standard_name_not_id (col source : string) :
  map_standard_name col source <> "id".
Proof.
  unfold map_standard_name.
  destruct (source_mapping source) as [m|] eqn:Em.
  - destruct (Py.get col m) as [v|] eqn:Eg.
    + exact (mapping_value_not_id _ _ _ _ Em (get_In _ _ _ Eg)).
    + destruct (String.eqb_spec (snake col) "id"); [discriminate | assumption].
  - destruct (String.eqb_spec (snake col) "id"); [discriminate | assumption].
Qed.

End RegistryFacts.

Section AnalyseFacts.
Import Inference.

Variable sample : nat -> list string -> list string.
Variable looks_like_date : string -> bool.

Lemma analyse_mapped_ok (df : dataframe) (src : string)
    (m0 mapping : list (string * string)) :
  source_mapping src = Some m0 -> incl mapping m0 ->
  forall out, columns_ok out ->
              columns_ok (analyse_mapped sample looks_like_date df mapping out).
Proof.
  intros Hm. induction mapping as [|[orig mapped] mapping IH]; intros Hincl out Hout;
    [exact Hout|].
  assert (Hincl' : incl mapping m0) by (intros x Hx; apply Hincl; now right).
  simpl. destruct (filter _ df) as [|col cols]; [now apply IH|].
  destruct (has_key mapped out) eqn:Ek; [now apply IH|].
  apply IH; [exact Hincl'|]. apply columns_ok_add; [exact Hout | exact Ek|].
  split; [reflexivity|]. simpl.
  exact (mapping_value_not_id _ _ _ _ Hm (Hincl _ (or_introl eq_refl))).
Qed.

Lemma analyse_rest_ok (src : string) (cols : dataframe) :
  forall out, columns_ok out ->
              columns_ok (analyse_rest sample looks_like_date src cols out).
Proof.
  induction cols as [|col cols IH]; intros out Hout; [exact Hout|]. simpl.
  destruct (match source_mapping src with
            | Some m => has_key (clean_header (name col)) m
            | None => false
            end); [now apply IH|].
  destruct (has_key (map_standard_name (clean_header (name col)) src) out) eqn:Ek;
    [now apply IH|].
  apply IH. apply columns_ok_add; [exact Hout | exact Ek|].
  split; [reflexivity|]. simpl. apply map_standard_name_not_id.
Qed.

Lemma analyse_csv_ok (df : dataframe) (src : string) :
  columns_ok (analyse_csv sample looks_like_date df src).
Proof.
  unfold analyse_csv. apply analyse_rest_ok.
  destruct (source_mapping src) as [m|] eqn:Em.
  - apply (analyse_mapped_ok df src m m Em (incl_refl m)).
    split; constructor.
  - split; constructor.
Qed.

Lemma merge_columns_ok (file_columns : list (string * col_spec)) :
  Forall entry_ok file_columns ->
  forall columns, columns_ok columns ->
                  columns_ok (merge_columns file_columns columns).
Proof.
  induction 1 as [|[k spec] rest Hk Hrest IH]; intros columns Hc; [exact Hc|].
  simpl. destruct (has_key k columns) eqn:Ek; [now apply IH|].
  apply IH. now apply columns_ok_add.
Qed.

Lemma source_columns_ok (src : string) (files : list (option dataframe)) :
  forall columns cols,
    columns_ok columns ->
    source_columns sample looks_like_date src files columns = Some cols ->
    columns_ok cols.
Proof.
  induction files as [|[df|] files IH]; intros columns cols Hc; simpl.
  - intros E. injection E as <-. exact Hc.
  - apply IH. apply merge_columns_ok; [|exact Hc].
    exact (proj2 (analyse_csv_ok df src)).
  - discriminate.
Qed.

Lemma enforce_py_type_idempotent (k py : string) :
  enforce_py_type k (enforce_py_type k py) = enforce_py_type k py.
Proof.
  unfold enforce_py_type.
  destruct (Str.mem k DATE_COLUMNS || Str.contains "date" k); [reflexivity|].
  destruct (Str.mem k ["order_id"; "portal_order_id"; "gateway_order_id"]);
    [reflexivity|].
  destruct (String.eqb k "rrn"); [reflexivity|].
  destruct (any_in ["amount"; "total"; "fee"; "cash"] k); reflexivity.
Qed.

End AnalyseFacts.

Section BuildFacts.
Import Inference.

Variable sample : nat -> list string -> list string.
Variable looks_like_date : string -> bool.

Lemma finish_spec_fst (src : string) (cols : list (string * col_spec)) :
  map fst (map (finish_spec src) cols) = map fst cols.
Proof.
  rewrite map_map. apply map_ext. intros [k spec]. reflexivity.
Qed.

Lemma build_from_inv (sources : list (string * list (option dataframe))) :
  forall seen out registry,
    NoDup seen ->
    (forall s, In s (map fst out) -> In s seen) ->
    NoDup (map fst out) ->
    build_from sample looks_like_date sources seen out = inr registry ->
    map fst registry = (map fst out ++ map fst sources)%list /\
    NoDup (map fst registry) /\
    (forall e, In e registry ->
       In e out \/
       exists cols,
         source_mapping (fst e) <> None /\
         columns_ok cols /\
         snd e = {| target_table := fst e;
                    columns := map (finish_spec (fst e)) cols |}).
Proof.
  induction sources as [|[src files] sources IH];
    intros seen out registry Hseen Hsub Hout; simpl.
  - intros E. injection E as <-. rewrite app_nil_r. auto.
  - destruct (source_mapping src) as [m|] eqn:Em; [|discriminate].
    destruct (Str.mem src seen) eqn:Es; [discriminate|].
    destruct (source_columns sample looks_like_date src files []) as [cols|] eqn:Ec;
      [|discriminate].
    intros E. apply not_mem_In in Es.
    apply IH in E.
    + destruct E as (Hn & Hd & He). split; [|split; [exact Hd|]].
      * rewrite Hn, map_app, <- app_assoc. reflexivity.
      * intros e Hin. destruct (He e Hin) as [Ho|Hx]; [|now right].
        apply in_app_or in Ho. destruct Ho as [Ho|[<-|[]]]; [now left|].
        right. exists cols. simpl. split; [congruence|]. split; [|reflexivity].
        apply (source_columns_ok sample looks_like_date src files [] cols);
          [split; constructor | exact Ec].
    + constructor; assumption.
    + intros s Hs. rewrite map_app in Hs. apply in_app_or in Hs.
      destruct Hs as [Hs|[<-|[]]]; [right; now apply Hsub | now left].
    + rewrite map_app. simpl.
      apply (Permutation_NoDup (l := src :: map fst out)).
      * apply Permutation_cons_append.
      * constructor; [|exact Hout]. intros Hin. apply Es. now apply Hsub.
Qed.

End BuildFacts.

(** X13. Every registry that [build] returns is well formed.  It holds
    the sources of the paths file, each once and in their order, each with
    a mapping of its own and with its name as target table.  Within a
    source no canonical name is defined twice (of two headers with the
    same canonical name, and of two files with the same column, the first
    wins); the key of an entry is its [map_to]; no column is called [id];
    the [py_type] is the one that the rules by name enforce (date names,
    the order ids, rrn, the amounts), whatever was guessed from the data;
    and the [sql_type] is the one that goes with the source, the name and
    that final [py_type]. *)
Theorem registry_is_well_formed
    (sample : nat -> list string -> list string)
    (looks_like_date : string -> bool)
    (sources : list (string * list (option Inference.dataframe)))
    (registry : list (string * Inference.source_config)) :
  Inference.build sample looks_like_date sources = inr registry ->
  map fst registry = map fst sources /\
  NoDup (map fst registry) /\
  Forall (fun e =>
            Inference.target_table (snd e) = fst e /\
            Inference.source_mapping (fst e) <> None /\
            NoDup (map fst (Inference.columns (snd e))) /\
            Forall (fun kv =>
                      Inference.map_to (snd kv) = fst kv /\
                      fst kv <> "id" /\
                      Inference.py_type (snd kv)
                      = Inference.enforce_py_type (fst kv)
                          (Inference.py_type (snd kv)) /\
                      Inference.sql_type (snd kv)
                      = Inference.sql_type_for (fst e) (fst kv)
                          (Inference.py_type (snd kv)))
                   (Inference.columns (snd e)))
         registry.
Proof.
  intros Hb. unfold Inference.build in Hb.
  apply build_from_inv in Hb;
    [|apply NoDup_nil | intros s [] | apply NoDup_nil].
  destruct Hb as (Hn & Hd & He). split; [exact Hn|]. split; [exact Hd|].
  apply Forall_forall. intros e Hin.
  destruct (He e Hin) as [[]|(cols & Hm & [Hnd Hok] & Hcfg)].
  rewrite Hcfg. simpl. split; [reflexivity|]. split; [exact Hm|]. split.
  - now rewrite finish_spec_fst.
  - apply Forall_forall. intros kv Hkv. apply in_map_iff in Hkv.
    destruct Hkv as ([k spec] & <- & Hks).
    rewrite Forall_forall in Hok. destruct (Hok _ Hks) as [Hmap Hid].
    simpl in Hmap, Hid |- *. split; [exact Hmap|]. split; [exact Hid|].
    split; [|reflexivity]. symmetry. apply enforce_py_type_idempotent.
Qed.

Lemma registry_is_well_formed_witness :
  exists registry,
    Inference.build Sample.first_n Sample.no_date [("bank", [Some Sample.bank_file])]
    = inr registry /\
    map fst registry = ["bank"] /\
    Forall (fun e => NoDup (map fst (Inference.columns (snd e)))) registry.
Proof.
  destruct (Inference.build Sample.first_n Sample.no_date
              [("bank", [Some Sample.bank_file])]) as [err|registry] eqn:E.
  - vm_compute in E. discriminate E.
  - exists registry. split; [reflexivity|].
    destruct (registry_is_well_formed Sample.first_n Sample.no_date
                [("bank", [Some Sample.bank_file])] registry E) as (Hn & _ & Hf).
    split; [exact Hn|].
    rewrite Forall_forall in Hf |- *. intros e He. exact (proj1 (proj2 (proj2 (Hf e He)))).
Defined.

(** ** The cleaners: a stage, cell by cell *)

Section StagePointwise.
Import Frame Cleaner.

(** What a stage that parses text by text leaves in a cell. *)
Lemma stage_map_nth (f : string -> option Z) (series : list cell) :
  forall result i c r,
    nth_error series i = Some c -> nth_error result i = Some r ->
    nth_error (stage (map f) series result) i
    = Some (if negb (null_mask c) && is_none r then f (astype_str c) else r).
Proof.
  unfold stage.
  induction series as [|c0 series IH]; intros [|r0 result] i c r Hc Hr;
    try (destruct i; discriminate).
  simpl. destruct i as [|i]; simpl in Hc, Hr.
  - injection Hc as ->. injection Hr as ->.
    destruct (negb (null_mask c) && is_none r); reflexivity.
  - destruct (negb (null_mask c0) && is_none r0); simpl; now apply IH.
Qed.

Lemma remaining_nil (series : list cell) :
  forall result,
    List.length series = List.length result ->
    (remaining series result = [] <->
     forall i c r, nth_error series i = Some c -> nth_error result i = Some r ->
                   negb (null_mask c) && is_none r = false).
Proof.
  induction series as [|c0 series IH]; intros [|r0 result] Hlen; try discriminate.
  - split; [|reflexivity]. intros _ [|i] c r H; discriminate H.
  - simpl in Hlen. injection Hlen as Hlen. simpl. split.
    + intros H i c r Hc Hr.
      destruct (negb (null_mask c0) && is_none r0) eqn:E; [discriminate|].
      destruct i as [|i]; simpl in Hc, Hr.
      * injection Hc as <-. injection Hr as <-. exact E.
      * exact (proj1 (IH result Hlen) H i c r Hc Hr).
    + intros H. rewrite (H 0%nat c0 r0 eq_refl eq_refl).
      apply (IH result Hlen). intros i c r Hc Hr. exact (H (S i) c r Hc Hr).
Qed.

End StagePointwise.

Lemma TimeCleaner_None_iff
    (to_datetime_format : string -> string -> option Z)
    (strptime_time : string -> string -> option Z)
    (series : list Frame.cell) :
  Cleaner.TimeCleaner to_datetime_format strptime_time series = None <->
  (exists c, In c series /\ Cleaner.null_mask c = false) /\
  (forall c, In c series -> Cleaner.null_mask c = false ->
             to_datetime_format "%H:%M:%S" (Frame.astype_str c) <> None).
Proof.
  unfold Cleaner.TimeCleaner. cbv zeta.
  set (r0 := map (fun _ : Frame.cell => @None Z) series).
  assert (Hlen0 : List.length series = List.length r0)
    by (unfold r0; now rewrite length_map).
  assert (Hr0 : forall i c, nth_error series i = Some c -> nth_error r0 i = Some None)
    by (intros i c Hc; unfold r0; now rewrite (map_nth_error _ i _ Hc)).
  set (r1 := Cleaner.first_pass to_datetime_format series r0).
  assert (Hlen1 : List.length series = List.length r1)
    by (symmetry; unfold r1, Cleaner.first_pass; now apply stage_length).
  assert (Hr1 : forall i c, nth_error series i = Some c ->
                nth_error r1 i
                = Some (if negb (Cleaner.null_mask c)
                        then option_map Cleaner.dt_time
                               (to_datetime_format "%H:%M:%S" (Frame.astype_str c))
                        else None)).
  { intros i c Hc. unfold r1, Cleaner.first_pass.
    rewrite (stage_map_nth _ series r0 i c None Hc (Hr0 i c Hc)).
    simpl. now rewrite andb_true_r. }
  destruct (forallb Cleaner.null_mask series) eqn:Eall.
  - split; [discriminate|]. intros [(c & Hc & Hm) _].
    rewrite forallb_forall in Eall. rewrite (Eall c Hc) in Hm. discriminate.
  - assert (Hex : exists c, In c series /\ Cleaner.null_mask c = false).
    { destruct (existsb (fun c => negb (Cleaner.null_mask c)) series) eqn:Ex.
      - apply existsb_exists in Ex. destruct Ex as (c & Hc & Hm).
        exists c. split; [exact Hc|]. now apply negb_true_iff in Hm.
      - assert (Hall : forallb Cleaner.null_mask series = true).
        { apply forallb_forall. intros c Hc.
          destruct (Cleaner.null_mask c) eqn:Em; [reflexivity|].
          assert (Hx : existsb (fun c => negb (Cleaner.null_mask c)) series = true)
            by (apply existsb_exists; exists c; rewrite Em; auto).
          congruence. }
        congruence. }
    pose proof (remaining_nil series r1 Hlen1) as Hnil.
    destruct (Cleaner.remaining series r1) as [|t ts].
    + split; [|reflexivity]. intros _. split; [exact Hex|].
      intros c Hc Hm Hp. apply In_nth_error in Hc. destruct Hc as [i Hi].
      pose proof (proj1 Hnil eq_refl i c _ Hi (Hr1 i c Hi)) as H.
      rewrite Hm, Hp in H. discriminate.
    + split; [discriminate|]. intros [_ Hall]. exfalso.
      assert (Hn : t :: ts = []); [|discriminate].
      apply (proj2 Hnil). intros i c r Hc Hr. rewrite (Hr1 i c Hc) in Hr.
      injection Hr as <-. destruct (Cleaner.null_mask c) eqn:Em; [reflexivity|].
      simpl. destruct (to_datetime_format "%H:%M:%S" (Frame.astype_str c)) eqn:Ep;
        [reflexivity|].
      exfalso. exact (Hall c (nth_error_In _ _ Hc) Em Ep).
Qed.


(** X14. The time cleaner raises on the columns it should find easiest:
    it raises (an UnboundLocalError, the name [problematic] being read
    without having been bound) exactly when the column has a cell that its
    null mask does not take and pandas reads every such cell with the
    first format, [%H:%M:%S].  It returns when all cells are nulls of the
    mask, or when at least one cell is left unparsed by the first pass. *)
Theorem TimeCleaner_raises_on_well_formed_column
    (to_datetime_format : string -> string -> option Z)
    (strptime_time : string -> string -> option Z)
    (series : list Frame.cell) :
  Cleaner.TimeCleaner to_datetime_format strptime_time series = None <->
  (exists c, In c series /\ Cleaner.null_mask c = false) /\
  (forall c, In c series -> Cleaner.null_mask c = false ->
             to_datetime_format "%H:%M:%S" (Frame.astype_str c) <> None).
Proof. apply TimeCleaner_None_iff. Qed.

(** A column with one well-formed time of day. *)
Lemma TimeCleaner_raises_on_well_formed_column_witness :
  Cleaner.TimeCleaner Sample4.clock Sample4.clock [Frame.Text "12:30:00"] = None.
Proof.
  apply (proj2 (TimeCleaner_raises_on_well_formed_column Sample4.clock
                  Sample4.clock [Frame.Text "12:30:00"])).
  split.
  - exists (Frame.Text "12:30:00"). split; [now left | reflexivity].
  - intros c [<-|[]] _. discriminate.
Defined.

Section IntegerFacts.
Import Frame Cleaner.

Variable to_numeric : string -> option number.

Lemma astype_Int64_spec (l : list (option number)) :
  astype_Int64 l
  = if existsb (fun x => match x with Some (NotWhole _) => true | _ => false end) l
    then None
    else Some (map (fun x => match x with Some (Whole z) => Int z | _ => Null PdNA end)
                   l).
Proof.
  induction l as [|x l IH]; [reflexivity|]. simpl.
  destruct x as [[z|t]|]; simpl; try reflexivity; rewrite IH;
    destruct (existsb _ l); reflexivity.
Qed.

Lemma existsb_of_map {A B : Type} (f : B -> bool) (g : A -> B) (l : list A) :
  existsb f (map g l) = existsb (fun x => f (g x)) l.
Proof. induction l as [|x l IH]; simpl; [reflexivity | now rewrite IH]. Qed.

End IntegerFacts.

(** X15. The integer cleaner is all or nothing.  If some cell of the
    column reads as a number that is not whole, the cast to Int64 raises
    and the cleaner returns nothing for the whole column.  Otherwise it
    returns a column of the same length in which a cell is the whole
    number that pandas reads from it, and [pd.NA] where pandas reads no
    number or the cell is null. *)
Theorem IntegerCleaner_is_all_or_nothing
    (to_numeric : string -> option Frame.number) (series : list Frame.cell) :
  Cleaner.IntegerCleaner to_numeric series
  = if existsb (fun c => match Cleaner.numeric_cell to_numeric c with
                         | Some (Frame.NotWhole _) => true
                         | _ => false
                         end) series
    then None
    else Some (map (fun c => match Cleaner.numeric_cell to_numeric c with
                             | Some (Frame.Whole z) => Frame.Int z
                             | _ => Frame.Null Frame.PdNA
                             end) series).
Proof.
  unfold Cleaner.IntegerCleaner. rewrite astype_Int64_spec.
  rewrite existsb_of_map, map_map. reflexivity.
Qed.

(** ** The date cleaner: rows and formats *)

Section DateStages.
Import Frame Cleaner.

Variable to_datetime_format : string -> string -> option Z.
Variable to_datetime_infer : list string -> list (option Z).

Lemma format_stages_length (series : list cell) (fmts : list string) :
  forall result,
    List.length series = List.length result ->
    List.length (fold_left (format_stage to_datetime_format series) fmts result)
    = List.length series.
Proof.
  apply (stages_length (fun fmt => map (to_datetime_format fmt)) series fmts).
Qed.

Lemma DateCleaner_results_length (source : string) (series : list cell) :
  List.length (DateCleaner_results to_datetime_format to_datetime_infer source series)
  = List.length series.
Proof.
  unfold DateCleaner_results. cbv zeta. unfold stage.
  assert (Hl0 : List.length series
                = List.length (excel_stage series))
    by (symmetry; apply excel_stage_length).
  assert (Hl1 : List.length
                  (fold_left (format_stage to_datetime_format series)
                     (source_formats source) (excel_stage series))
                = List.length series)
    by now apply format_stages_length.
  assert (Hl2 : List.length
                  (fold_left (format_stage to_datetime_format series) date_formats
                     (fold_left (format_stage to_datetime_format series)
                        (source_formats source)
                        (excel_stage series)))
                = List.length series)
    by (apply format_stages_length; now symmetry).
  rewrite write_back_length; [exact Hl2 | now symmetry].
Qed.

Lemma format_stages_masked (series : list cell) (fmts : list string) :
  forall result i c,
    List.length series = List.length result ->
    nth_error series i = Some c -> null_mask c = true ->
    nth_error result i = Some None ->
    nth_error (fold_left (format_stage to_datetime_format series) fmts result) i
    = Some None.
Proof.
  induction fmts as [|fmt fmts IH]; intros result i c Hlen Hc Hm Hi; [exact Hi|].
  simpl. apply (IH _ i c); auto.
  - symmetry. unfold format_stage. now apply stage_length.
  - unfold format_stage, stage. now apply (write_back_masked _ _ _ _ c).
Qed.

Lemma DateCleaner_masked (source : string) (series : list cell) (i : nat) (c : cell) :
  nth_error series i = Some c -> null_mask c = true ->
  nth_error (DateCleaner to_datetime_format to_datetime_infer source series) i
  = Some (Null NaT).
Proof.
  intros Hc Hm. unfold DateCleaner, DateCleaner_results. cbv zeta.
  apply (map_nth_error timestamp_value i) with (d := None).
  assert (H0 : nth_error (excel_stage series) i = Some None).
  { unfold excel_stage. rewrite (map_nth_error _ i _ Hc). now rewrite Hm. }
  assert (Hl0 : List.length series
                = List.length (excel_stage series))
    by (symmetry; apply excel_stage_length).
  unfold stage. apply (write_back_masked _ _ _ _ c); auto.
  - symmetry. apply format_stages_length. symmetry.
    now apply format_stages_length.
  - apply (format_stages_masked _ _ _ i c); auto.
    + symmetry. now apply format_stages_length.
    + now apply (format_stages_masked _ _ _ i c).
Qed.

(** The formats of a list, tried in order on one cell that is open. *)
Lemma format_stages_first (series : list cell) (i : nat) (c : cell) (v : Z) :
  nth_error series i = Some c -> null_mask c = false ->
  forall before fmt after result,
    List.length series = List.length result ->
    nth_error result i = Some None ->
    (forall f, In f before -> to_datetime_format f (astype_str c) = None) ->
    to_datetime_format fmt (astype_str c) = Some v ->
    nth_error (fold_left (format_stage to_datetime_format series)
                 (before ++ fmt :: after) result) i
    = Some (Some v).
Proof.
  intros Hc Hm. induction before as [|f before IH];
    intros fmt after result Hlen Hi Hb Hf.
  - simpl.
    apply (stages_keep (fun fmt => map (to_datetime_format fmt)) series after).
    + symmetry. now apply stage_length.
    + unfold format_stage. rewrite (stage_map_nth _ series result i c None Hc Hi).
      rewrite Hm. simpl. now rewrite Hf.
  - simpl. apply IH.
    + symmetry. unfold format_stage. now apply stage_length.
    + unfold format_stage. rewrite (stage_map_nth _ series result i c None Hc Hi).
      rewrite Hm. simpl. now rewrite (Hb f (or_introl eq_refl)).
    + intros g Hg. apply Hb. now right.
    + exact Hf.
Qed.

End DateStages.

(** X16. The date cleaner returns one value for every cell, in place: the
    cleaned column has the length of the column, whatever pandas returns,
    and a cell that the null mask takes (a real null, None or NaN in any
    case, or <NA>) is NaT whatever the parsers would read from its text. *)
Theorem DateCleaner_keeps_the_rows
    (to_datetime_format : string -> string -> option Z)
    (to_datetime_infer : list string -> list (option Z))
    (source : string) (series : list Frame.cell) :
  List.length (Cleaner.DateCleaner to_datetime_format to_datetime_infer source series)
  = List.length series /\
  (forall i c,
     nth_error series i = Some c -> Cleaner.null_mask c = true ->
     nth_error (Cleaner.DateCleaner to_datetime_format to_datetime_infer source series) i
     = Some (Frame.Null Frame.NaT)).
Proof.
  split.
  - unfold Cleaner.DateCleaner. rewrite length_map.
    apply DateCleaner_results_length.
  - intros i c. apply DateCleaner_masked.
Qed.

(** X17. For a cell that is no null of the mask and no spreadsheet
    serial, the first format that parses its text decides the date: the
    formats of the source are tried before the thirteen generic ones, in
    the order written, and a later format or the inference of pandas
    never replaces what an earlier format has read.  For the portal, whose
    format is day first, 01/02/2024 is the first of February even though
    the generic month-first format reads it as well. *)
Theorem DateCleaner_first_format_wins
    (to_datetime_format : string -> string -> option Z)
    (to_datetime_infer : list string -> list (option Z))
    (source : string) (series : list Frame.cell) (i : nat) (c : Frame.cell)
    (before after : list string) (fmt : string) (v : Z) :
  nth_error series i = Some c ->
  Cleaner.null_mask c = false ->
  Cleaner.excel_date (Frame.astype_str c) = None ->
  (Cleaner.source_formats source ++ Cleaner.date_formats
   = before ++ fmt :: after)%list ->
  (forall f, In f before -> to_datetime_format f (Frame.astype_str c) = None) ->
  to_datetime_format fmt (Frame.astype_str c) = Some v ->
  nth_error (Cleaner.DateCleaner to_datetime_format to_datetime_infer source series) i
  = Some (Frame.Timestamp v).
Proof.
  intros Hc Hm Hx Hfmts Hb Hf.
  unfold Cleaner.DateCleaner, Cleaner.DateCleaner_results. cbv zeta.
  apply (map_nth_error Cleaner.timestamp_value i) with (d := Some v).
  rewrite <- fold_left_app, Hfmts.
  assert (H0 : nth_error (Cleaner.excel_stage series) i
               = Some None).
  { unfold Cleaner.excel_stage. rewrite (map_nth_error _ i _ Hc).
    now rewrite Hm, Hx. }
  assert (Hl0 : List.length series
                = List.length (Cleaner.excel_stage series))
    by (symmetry; apply excel_stage_length).
  unfold Cleaner.stage. apply write_back_keeps.
  - symmetry. now apply format_stages_length.
  - now apply (format_stages_first to_datetime_format series i c v Hc Hm).
Qed.

Lemma DateCleaner_first_format_wins_witness :
  nth_error (Cleaner.DateCleaner Sample4.clock Sample.no_inference
               "portal" [Frame.Text "01/02/2024"]) 0
  = Some (Frame.Timestamp 1706745600000000000) /\
  nth_error (Cleaner.DateCleaner Sample4.clock Sample.no_inference
               "checkout_v1" [Frame.Text "01/02/2024"]) 0
  = Some (Frame.Timestamp 1704153600000000000).
Proof.
  split.
  - apply (DateCleaner_first_format_wins Sample4.clock Sample.no_inference "portal" [Frame.Text "01/02/2024"] 0%nat
             (Frame.Text "01/02/2024") [] (Cleaner.date_formats) "%d/%m/%Y");
      try reflexivity.
    intros f [].
  - apply (DateCleaner_first_format_wins Sample4.clock Sample.no_inference "checkout_v1" [Frame.Text "01/02/2024"] 0%nat
             (Frame.Text "01/02/2024") []
             ("%Y-%m-%d %H:%M:%S" :: Cleaner.date_formats) "%m/%d/%Y");
      try reflexivity.
    intros f [].
Defined.

(** ** The string, text and float cleaners *)

Section StringFacts.
Import Frame Cleaner.

Lemma filter_existsb (p : ascii -> bool) (s : string) :
  Str.existsb p (Str.filter (fun c => negb (p c)) s) = false.
Proof.
  induction s as [|c s IH]; [reflexivity|]. simpl.
  destruct (p c) eqn:E; simpl; [exact IH | now rewrite E, IH].
Qed.

Lemma clean_string_no_control (s : string) :
  Str.existsb is_control (clean_string s) = false.
Proof. unfold clean_string, strip_control. apply filter_existsb. Qed.

Lemma collapse_spaces_spec (s : string) :
  forall in_run,
    double_space (collapse_spaces in_run s) = false /\
    Str.existsb odd_space (collapse_spaces in_run s) = false /\
    (in_run = true ->
     match collapse_spaces in_run s with
     | String c _ => Str.is_space c = false
     | EmptyString => True
     end).
Proof.
  induction s as [|c s IH]; intros in_run; simpl; [auto|].
  destruct (Str.is_space c) eqn:Ec.
  - destruct in_run.
    + apply IH.
    + destruct (IH true) as (H1 & H2 & H3). specialize (H3 eq_refl).
      split; [|split; [|discriminate]].
      * simpl. destruct (collapse_spaces true s) as [|d t]; [reflexivity|].
        rewrite H3. exact H1.
      * simpl. exact H2.
  - destruct (IH false) as (H1 & H2 & _). split; [|split].
    + simpl. destruct (collapse_spaces false s) as [|d t]; [reflexivity|].
      rewrite Ec. exact H1.
    + simpl. unfold odd_space at 1. now rewrite Ec.
    + intros _. exact Ec.
Qed.

End StringFacts.

(** X18. The string cleaner keeps every row and never turns a text into a
    null: a real null becomes [pd.NA], and a text, the empty one and the
    null tokens included, comes back as a text, in which no control
    character (0x00 to 0x1F, 0x7F), hence no tab and no line break, is
    left. *)
Theorem StringCleaner_removes_control_characters (series : list Frame.cell) :
  List.length (Cleaner.StringCleaner series) = List.length series /\
  (forall i c,
     nth_error series i = Some c ->
     exists v,
       nth_error (Cleaner.StringCleaner series) i = Some v /\
       match c with
       | Frame.Missing _ => v = Frame.Null Frame.PdNA
       | Frame.Text s =>
           exists t, v = Frame.Str t /\ Str.existsb Cleaner.is_control t = false
       end).
Proof.
  unfold Cleaner.StringCleaner. split; [apply length_map|].
  intros i c Hc. exists (Cleaner.string_cell c).
  split; [exact (map_nth_error _ i _ Hc)|].
  destruct c as [k|s]; [reflexivity|].
  exists (Cleaner.clean_string s). split; [reflexivity|].
  apply clean_string_no_control.
Qed.

Lemma StringCleaner_removes_control_characters_witness :
  exists v,
    nth_error (Cleaner.StringCleaner
                 [Frame.Text (String (ascii_of_nat 9) "a" ++ Str.nl ++ "b")]) 0
    = Some v /\
    exists t, v = Frame.Str t /\ Str.existsb Cleaner.is_control t = false.
Proof.
  exact (proj2 (StringCleaner_removes_control_characters
                  [Frame.Text (String (ascii_of_nat 9) "a" ++ Str.nl ++ "b")])
               0%nat _ eq_refl).
Defined.

(** X19. In a text that the text cleaner returns, white space occurs
    only as single spaces: no two white-space characters stand side by
    side, and no white-space character other than the space is left. *)
Theorem TextCleaner_leaves_single_spaces (series : list Frame.cell) (i : nat)
    (s : string) :
  nth_error series i = Some (Frame.Text s) ->
  exists t,
    nth_error (Cleaner.TextCleaner series) i = Some (Frame.Str t) /\
    double_space t = false /\
    Str.existsb odd_space t = false.
Proof.
  intros Hc. exists (Cleaner.repair_text (Cleaner.clean_string s)).
  split.
  - unfold Cleaner.TextCleaner. now rewrite (map_nth_error _ i _ Hc).
  - unfold Cleaner.repair_text. cbv zeta.
    destruct (collapse_spaces_spec
                (Str.replace "&quot;" Str.dquote
                   (Str.replace "&gt;" ">"
                      (Str.replace "&lt;" "<"
                         (Str.replace "&amp;" "&"
                            (fold_left
                               (fun acc r => Str.replace (fst r) (snd r) acc)
                               Cleaner.common_replacements
                               (Cleaner.clean_string s))))))
                false) as (H1 & H2 & _).
    split; assumption.
Qed.

Lemma TextCleaner_leaves_single_spaces_witness :
  nth_error (Cleaner.TextCleaner [Frame.Text "a  &amp;   b"]) 0
  = Some (Frame.Str "a & b").
Proof.
  destruct (TextCleaner_leaves_single_spaces [Frame.Text "a  &amp;   b"] 0%nat
              "a  &amp;   b" eq_refl) as (t & Ht & _).
  rewrite Ht. vm_compute in Ht. injection Ht as <-. reflexivity.
Defined.

Section StripFacts.

Lemma rev_onto_rev_onto (s a b : string) :
  Str.rev_onto (Str.rev_onto s a) b = Str.rev_onto a (s ++ b)%string.
Proof.
  revert a b. induction s as [|c s IH]; intros a b; simpl; [reflexivity|].
  now rewrite IH.
Qed.

Lemma rev_involutive (s : string) : Str.rev (Str.rev s) = s.
Proof.
  unfold Str.rev. rewrite rev_onto_rev_onto. simpl. apply append_empty_r.
Qed.

Lemma existsb_rev_onto (p : ascii -> bool) (s acc : string) :
  Str.existsb p (Str.rev_onto s acc) = Str.existsb p s || Str.existsb p acc.
Proof.
  revert acc. induction s as [|c s IH]; intros acc; simpl; [reflexivity|].
  rewrite IH. simpl. destruct (p c), (Str.existsb p s); reflexivity.
Qed.

Lemma lstrip_none (p : ascii -> bool) (s : string) :
  Str.existsb p s = false -> Str.lstrip p s = s.
Proof.
  destruct s as [|c s]; simpl; [reflexivity|].
  destruct (p c); [discriminate | reflexivity].
Qed.

(** Stripping leaves a string without any of the characters alone. *)
Lemma strip_by_none (p : ascii -> bool) (s : string) :
  Str.existsb p s = false -> Str.strip_by p s = s.
Proof.
  intros H. unfold Str.strip_by, Str.rstrip.
  rewrite (lstrip_none p s H).
  rewrite lstrip_none; [apply rev_involutive|].
  unfold Str.rev. rewrite existsb_rev_onto, H. reflexivity.
Qed.

Lemma filter_idempotent (p : ascii -> bool) (s : string) :
  Str.filter p (Str.filter p s) = Str.filter p s.
Proof.
  induction s as [|c s IH]; [reflexivity|]. simpl.
  destruct (p c) eqn:E; simpl; [now rewrite E, IH | exact IH].
Qed.

Lemma filter_no_other (p q : ascii -> bool) (s : string) :
  (forall c, p c = true -> q c = false) ->
  Str.existsb q (Str.filter p s) = false.
Proof.
  intros H. induction s as [|c s IH]; [reflexivity|]. simpl.
  destruct (p c) eqn:E; simpl; [now rewrite (H c E), IH | exact IH].
Qed.

End StripFacts.

Section FloatFacts.
Import Frame Cleaner.

Variable to_numeric : string -> option number.

Lemma numeric_char_no_space (c : ascii) :
  is_numeric_char c = true -> Str.is_space c = false.
Proof.
  destruct c as [[|] [|] [|] [|] [|] [|] [|] [|]]; vm_compute;
    intros H; (discriminate H || reflexivity).
Qed.

Lemma null_strings_not_numeric :
  forallb (fun t => String.eqb t EmptyString
                    || negb (String.eqb (Str.filter is_numeric_char t) t))
          float_null_strings = true.
Proof. vm_compute. reflexivity. Qed.

(** A text of numeric characters is no null string of the float cleaner,
    unless it is empty. *)
Lemma numeric_text_not_masked (s : string) :
  let t := Str.filter is_numeric_char s in
  t = EmptyString \/ Str.mem (Str.strip t) float_null_strings = false.
Proof.
  cbv zeta. set (t := Str.filter is_numeric_char s).
  assert (Hs : Str.strip t = t).
  { apply strip_by_none. apply filter_no_other. apply numeric_char_no_space. }
  rewrite Hs.
  destruct (Str.mem t float_null_strings) eqn:Em; [|now right].
  left. apply mem_In in Em. pose proof null_strings_not_numeric as H.
  rewrite forallb_forall in H. specialize (H t Em).
  apply orb_true_iff in H. destruct H as [H|H].
  - now apply String.eqb_eq in H.
  - unfold t in H. rewrite filter_idempotent, String.eqb_refl in H. discriminate.
Qed.

End FloatFacts.

(** X20. The float cleaner reads nothing but the digits, the points and
    the minus signs of a value: a text that is none of its null strings
    is cleaned exactly as the text of its numeric characters alone.
    Currency signs, letters, spaces and parentheses are dropped without a
    trace, and so is every comma, which is never a decimal separator. *)
Theorem FloatCleaner_reads_numeric_characters_only
    (to_numeric : string -> option Frame.number) (s : string) :
  Str.mem (Str.strip s) Cleaner.float_null_strings = false ->
  Cleaner.float_cell to_numeric (Frame.Text s)
  = Cleaner.float_cell to_numeric
      (Frame.Text (Str.filter Cleaner.is_numeric_char s)).
Proof.
  intros Hm.
  assert (Hl : Cleaner.float_cell to_numeric (Frame.Text s)
               = match Str.filter Cleaner.is_numeric_char s with
                 | EmptyString => Frame.Null Frame.PdNA
                 | String _ _ =>
                     match to_numeric (Str.filter Cleaner.is_numeric_char s) with
                     | Some x => Frame.Float x
                     | None => Frame.Null Frame.PdNA
                     end
                 end).
  { unfold Cleaner.float_cell. cbv zeta.
    change (Frame.astype_str (Frame.Text s)) with s.
    change (Frame.isna (Frame.Text s)) with false.
    rewrite Hm. reflexivity. }
  rewrite Hl. unfold Cleaner.float_cell. cbv zeta.
  change (Frame.astype_str
            (Frame.Text (Str.filter Cleaner.is_numeric_char s)))
    with (Str.filter Cleaner.is_numeric_char s).
  change (Frame.isna (Frame.Text (Str.filter Cleaner.is_numeric_char s)))
    with false.
  rewrite filter_idempotent.
  destruct (numeric_text_not_masked s) as [E|E].
  - rewrite E.
    destruct (false || Str.mem (Str.strip EmptyString) Cleaner.float_null_strings);
      reflexivity.
  - rewrite E. reflexivity.
Qed.

Lemma FloatCleaner_reads_numeric_characters_only_witness :
  Cleaner.float_cell Sample.whole_numbers (Frame.Text "SAR 1,250")
  = Frame.Float (Frame.Whole 1250).
Proof.
  rewrite (FloatCleaner_reads_numeric_characters_only Sample.whole_numbers
             "SAR 1,250" eq_refl).
  reflexivity.
Defined.

(** ** The transformer, column by column *)

Section TransformColumns.
Import Frame Transformer.

Variable DATA_CLEANERS : string -> option cleaner.
Variable list_of_set : list string -> list string.
Variable now : Z.
Variable config : column_config.
Variable source_id : string.

Hypothesis list_of_set_In : forall l x, In x (list_of_set l) <-> In x l.

Lemma empty_false {A : Type} (f : frame A) :
  empty f = false <-> index f <> 0 /\ columns f <> [].
Proof.
  unfold empty. destruct (Nat.eqb_spec (index f) 0) as [E|E]; simpl.
  - split; [discriminate|]. intros [H _]. contradiction.
  - destruct (columns f) as [|c cols].
    + split; [discriminate|]. intros [_ H]. congruence.
    + split; [|reflexivity]. intros _. split; [exact E | discriminate].
Qed.

Lemma get_column_columns {A : Type} (n : string) (f : frame A) (c : A) :
  get_column n f = Some c -> columns f <> [].
Proof.
  unfold get_column. destruct (columns f); [discriminate | discriminate].
Qed.

(** A configured column of a chunk with rows goes through the filter. *)
Lemma filter_columns_keeps (df : raw_frame) (n : string) (raw : list cell) :
  index df <> 0 -> In n (originals config) -> get_column n df = Some raw ->
  get_column n (_filter_columns list_of_set config df) = Some raw /\
  empty (_filter_columns list_of_set config df) = false.
Proof.
  intros Hrows Hn Hraw. unfold _filter_columns. cbv zeta.
  set (keep := list_of_set (filter (fun n => Str.mem n (names df)) (originals config))).
  assert (Hkeep : In n keep).
  { unfold keep. apply list_of_set_In. apply filter_In. split; [exact Hn|].
    apply mem_In. exact (get_column_In n df raw Hraw). }
  assert (Hsel : get_column n (select keep df) = Some raw)
    by (now rewrite get_select).
  assert (He : empty (select keep df) = false).
  { apply empty_false. split; [exact Hrows|].
    exact (get_column_columns _ _ _ Hsel). }
  destruct keep as [|k keep']; [destruct Hkeep|].
  rewrite He. simpl. auto.
Qed.

Lemma get_column_map {A B : Type} (g : A -> B) (n : string) (cols : list (string * A)) :
  match filter (fun c => String.eqb n (fst c)) (map (fun c => (fst c, g (snd c))) cols) with
  | c :: _ => Some (snd c)
  | [] => None
  end
  = option_map g match filter (fun c => String.eqb n (fst c)) cols with
                 | c :: _ => Some (snd c)
                 | [] => None
                 end.
Proof.
  induction cols as [|[m c] cols IH]; [reflexivity|]. simpl.
  destruct (String.eqb n m); [reflexivity | exact IH].
Qed.

Lemma remove_null_bytes_column (f : raw_frame) (n : string) (raw : list cell) :
  empty f = false -> get_column n f = Some raw ->
  get_column n (_remove_null_bytes f)
  = Some (map (fun x => Text (Cleaner.strip_control (astype_str x))) raw) /\
  empty (_remove_null_bytes f) = false.
Proof.
  intros He Hraw. unfold _remove_null_bytes. rewrite He. split.
  - unfold get_column in *. simpl.
    rewrite (get_column_map
               (map (fun x => Text (Cleaner.strip_control (astype_str x))))).
    now rewrite Hraw.
  - apply empty_false in He. destruct He as [H1 H2].
    apply empty_false. simpl. split; [exact H1|].
    destruct (columns f); [congruence | discriminate].
Qed.

(** What [_transform_columns] stores for an entry: the cleaned column, or
    the column as it came where the cleaner raises. *)
Lemma transform_column_same (f : raw_frame) (acc : table)
    (e : string * col_spec) (series : list cell) :
  get_column (Inference.original (snd e)) f = Some series ->
  get_column (Inference.map_to (snd e))
    (transform_column DATA_CLEANERS source_id f acc e)
  = Some (stored_column DATA_CLEANERS source_id e series).
Proof.
  intros H. unfold transform_column, stored_column. cbv zeta. rewrite H.
  destruct (match DATA_CLEANERS (Inference.py_type (snd e)) with
            | Some c => c
            | None => StringCleaner
            end series _); apply get_assign_same.
Qed.

Lemma transform_column_other (f : raw_frame) (acc : table)
    (e : string * col_spec) (n : string) :
  Inference.map_to (snd e) <> n ->
  get_column n (transform_column DATA_CLEANERS source_id f acc e) = get_column n acc.
Proof.
  intros H. unfold transform_column. cbv zeta.
  destruct (get_column (Inference.original (snd e)) f); [|reflexivity].
  destruct (match DATA_CLEANERS (Inference.py_type (snd e)) with
            | Some c => c
            | None => StringCleaner
            end l _); now apply get_assign_other.
Qed.

Lemma transform_loop (f : raw_frame) (e : string * col_spec) (series : list cell)
    (entries : list (string * col_spec)) :
  get_column (Inference.original (snd e)) f = Some series ->
  NoDup (map (fun entry => Inference.map_to (snd entry)) entries) ->
  forall acc,
    In e entries \/
    get_column (Inference.map_to (snd e)) acc
    = Some (stored_column DATA_CLEANERS source_id e series) ->
    (forall e', In e' entries ->
                Inference.map_to (snd e') = Inference.map_to (snd e) -> e' = e) ->
    get_column (Inference.map_to (snd e))
      (fold_left (transform_column DATA_CLEANERS source_id f) entries acc)
    = Some (stored_column DATA_CLEANERS source_id e series).
Proof.
  intros Hs. induction entries as [|x entries IH]; intros Hnd acc Hor Huniq.
  - destruct Hor as [[]|H]. exact H.
  - inversion Hnd as [|? ? Hx Hnd']; subst. simpl. apply IH; [exact Hnd'| |].
    + destruct (string_dec (Inference.map_to (snd x)) (Inference.map_to (snd e)))
        as [E|E].
      * right. rewrite (Huniq x (or_introl eq_refl) E).
        now apply transform_column_same.
      * destruct Hor as [[->|Hin]|Hacc]; [congruence | now left|].
        right. now rewrite transform_column_other.
    + intros e' He'. apply Huniq. now right.
Qed.

End TransformColumns.

Section TransformWhole.
Import Frame Transformer.

Lemma NoDup_map_injective {A B : Type} (g : A -> B) (l : list A) (a b : A) :
  NoDup (map g l) -> In a l -> In b l -> g a = g b -> a = b.
Proof.
  induction l as [|x l IH]; intros Hnd Ha Hb E; [destruct Ha|].
  simpl in Hnd. inversion Hnd as [|? ? Hx Hnd']; subst.
  destruct Ha as [->|Ha], Hb as [->|Hb]; auto.
  - exfalso. apply Hx. rewrite E. now apply in_map.
  - exfalso. apply Hx. rewrite <- E. now apply in_map.
Qed.

Lemma add_metadata_other (now : Z) (source_id : string) (t : table) (n : string) :
  is_metadata n = false ->
  get_column n (_add_metadata now source_id t) = get_column n t.
Proof.
  unfold is_metadata, _add_metadata. intros H.
  apply orb_false_iff in H. destruct H as [H1 H2].
  apply String.eqb_neq in H1, H2.
  rewrite get_assign_other by congruence.
  now rewrite get_assign_other by congruence.
Qed.

Lemma transform_stores
    (DATA_CLEANERS : string -> option cleaner)
    (list_of_set : list string -> list string) (now : Z)
    (config : column_config) (source_id : string)
    (df : raw_frame) (e : string * col_spec) (raw : list cell) :
  (forall l x, In x (list_of_set l) <-> In x l) ->
  index df <> 0 ->
  In e config ->
  NoDup (map (fun entry => Inference.map_to (snd entry)) config) ->
  is_metadata (Inference.map_to (snd e)) = false ->
  get_column (Inference.original (snd e)) df = Some raw ->
  get_column (Inference.map_to (snd e))
    (transform DATA_CLEANERS list_of_set now config source_id df)
  = Some (stored_column DATA_CLEANERS source_id e
            (map (fun x => Text (Cleaner.strip_control (astype_str x))) raw)).
Proof.
  intros Hset Hrows He Hnd Hmeta Hraw. unfold transform.
  rewrite add_metadata_other by exact Hmeta.
  assert (Horig : In (Inference.original (snd e)) (originals config)).
  { unfold originals.
    exact (in_map (fun entry => Inference.original (snd entry)) config e He). }
  destruct (filter_columns_keeps list_of_set config Hset df _ raw Hrows Horig Hraw)
    as [Hf Hfe].
  destruct (remove_null_bytes_column _ _ raw Hfe Hf) as [Hr Hre].
  unfold _transform_columns. rewrite Hre.
  apply transform_loop; [exact Hr | exact Hnd | now left|].
  intros e' He' E.
  exact (NoDup_map_injective (fun entry => Inference.map_to (snd entry))
           config e' e Hnd He' He E).
Qed.

End TransformWhole.

(** X21. The transformer cleans column by column and fails soft.  For a
    chunk with rows, an entry of the config whose original header the
    chunk has, and canonical names that are distinct and no metadata
    names: the cleaned table holds under the canonical name what the
    cleaner of the entry's type (the string cleaner for a type without a
    cleaner) returns for the column, after the control characters were
    removed from every cell, and, where the cleaner raises, the column
    itself as it then is, its values not cleaned and not typed. *)
Theorem transform_cleans_or_keeps_each_column
    (DATA_CLEANERS : string -> option Transformer.cleaner)
    (list_of_set : list string -> list string) (now : Z)
    (config : Transformer.column_config) (source_id : string)
    (df : Transformer.raw_frame) (e : string * Transformer.col_spec)
    (raw : list Frame.cell) :
  (forall l x, In x (list_of_set l) <-> In x l) ->
  Transformer.index df <> 0 ->
  In e config ->
  NoDup (map (fun entry => Inference.map_to (snd entry)) config) ->
  Transformer.is_metadata (Inference.map_to (snd e)) = false ->
  Transformer.get_column (Inference.original (snd e)) df = Some raw ->
  let series :=
    map (fun x => Frame.Text (Cleaner.strip_control (Frame.astype_str x))) raw in
  let cleaner_class :=
    match DATA_CLEANERS (Inference.py_type (snd e)) with
    | Some c => c
    | None => Transformer.StringCleaner
    end in
  Transformer.get_column (Inference.map_to (snd e))
    (Transformer.transform DATA_CLEANERS list_of_set now config source_id df)
  = Some match cleaner_class series
                 {| Transformer.source := source_id;
                    Transformer.column_name := Inference.original (snd e);
                    Transformer.mapped_name := Inference.map_to (snd e) |} with
         | Some cleaned_series => cleaned_series
         | None => Transformer.copy series
         end.
Proof.
  intros Hset Hrows He Hnd Hmeta Hraw. cbv zeta.
  exact (transform_stores DATA_CLEANERS list_of_set now config source_id df e raw
           Hset Hrows He Hnd Hmeta Hraw).
Qed.

Lemma transform_cleans_or_keeps_each_column_witness :
  Transformer.get_column "rrn"
    (Transformer.transform Sample.registry Sample.set_order 1700000000
       Sample.bank_config "bank" Sample.chunk)
  = Some {| Transformer.dtype_of := Transformer.ObjectDtype;
            Transformer.cells := [Frame.Str "412345678901"; Frame.Str "nan"] |}.
Proof.
  apply (transform_cleans_or_keeps_each_column Sample.registry Sample.set_order
           1700000000 Sample.bank_config "bank" Sample.chunk
           (Sample.spec "RRN" "rrn" "string")
           [Frame.Text "412345678901"; Frame.Missing Frame.NaN]).
  - intros l x. apply nodup_In.
  - discriminate.
  - now left.
  - simpl. repeat (constructor; [simpl; intuition discriminate|]). constructor.
  - reflexivity.
  - reflexivity.
Defined.

(** X22. A column that the string cleaner cleans holds no null after the
    transform step, whatever the chunk held: a missing value has by then
    become the text of its printed form (nan, None, <NA>), and a text, a
    null token included, stays a text.  The same holds for a column of a
    type that has no cleaner of its own. *)
Theorem string_columns_hold_no_nulls
    (DATA_CLEANERS : string -> option Transformer.cleaner)
    (list_of_set : list string -> list string) (now : Z)
    (config : Transformer.column_config) (source_id : string)
    (df : Transformer.raw_frame) (e : string * Transformer.col_spec)
    (raw : list Frame.cell) :
  (forall l x, In x (list_of_set l) <-> In x l) ->
  Transformer.index df <> 0 ->
  In e config ->
  NoDup (map (fun entry => Inference.map_to (snd entry)) config) ->
  Transformer.is_metadata (Inference.map_to (snd e)) = false ->
  Transformer.get_column (Inference.original (snd e)) df = Some raw ->
  DATA_CLEANERS (Inference.py_type (snd e)) = None \/
  DATA_CLEANERS (Inference.py_type (snd e)) = Some Transformer.StringCleaner ->
  exists col,
    Transformer.get_column (Inference.map_to (snd e))
      (Transformer.transform DATA_CLEANERS list_of_set now config source_id df)
    = Some col /\
    Transformer.cells col
    = map (fun x => Frame.Str (Cleaner.clean_string
                                 (Cleaner.strip_control (Frame.astype_str x))))
          raw /\
    Forall (fun v => Frame.is_null v = false) (Transformer.cells col).
Proof.
  intros Hset Hrows He Hnd Hmeta Hraw Hreg.
  rewrite (transform_stores DATA_CLEANERS list_of_set now config source_id df e raw
             Hset Hrows He Hnd Hmeta Hraw).
  eexists. split; [reflexivity|].
  assert (Hcells :
    Transformer.cells
      (stored_column DATA_CLEANERS source_id e
         (map (fun x => Frame.Text (Cleaner.strip_control (Frame.astype_str x))) raw))
    = map (fun x => Frame.Str (Cleaner.clean_string
                                 (Cleaner.strip_control (Frame.astype_str x))))
          raw).
  { unfold stored_column. cbv zeta.
    destruct Hreg as [-> | ->]; unfold Transformer.StringCleaner; simpl;
      unfold Cleaner.StringCleaner; rewrite map_map; reflexivity. }
  split; [exact Hcells|]. rewrite Hcells.
  apply Forall_forall. intros v Hv. apply in_map_iff in Hv.
  destruct Hv as (x & <- & _). reflexivity.
Qed.

Lemma string_columns_hold_no_nulls_witness :
  exists col,
    Transformer.get_column "status"
      (Transformer.transform Sample.registry Sample.set_order 1700000000
         Sample.bank_config "bank" Sample.chunk)
    = Some col /\
    Transformer.cells col = [Frame.Str "Approved"; Frame.Str "None"].
Proof.
  destruct (string_columns_hold_no_nulls Sample.registry Sample.set_order
              1700000000 Sample.bank_config "bank" Sample.chunk
              (Sample.spec "Payment Status" "status" "string")
              [Frame.Text " Approved "; Frame.Text "None"])
    as (col & Hcol & Hcells & _).
  - intros l x. apply nodup_In.
  - discriminate.
  - simpl. tauto.
  - simpl. repeat (constructor; [simpl; intuition discriminate|]). constructor.
  - reflexivity.
  - reflexivity.
  - right. reflexivity.
  - exists col. split; [exact Hcol | exact Hcells].
Defined.

Section Mismatch.
Import Frame Transformer.

Variable DATA_CLEANERS : string -> option cleaner.
Variable list_of_set : list string -> list string.
Variable now : Z.
Variable config : column_config.
Variable source_id : string.

Hypothesis list_of_set_In : forall l x, In x (list_of_set l) <-> In x l.

Lemma list_of_set_nil : list_of_set [] = [].
Proof.
  destruct (list_of_set []) as [|x l] eqn:E; [reflexivity|].
  exfalso. apply (proj1 (list_of_set_In [] x)). rewrite E. now left.
Qed.

Lemma filter_none (p : string -> bool) (l : list string) :
  (forall x, In x l -> p x = false) -> filter p l = [].
Proof.
  induction l as [|x l IH]; intros H; [reflexivity|]. simpl.
  rewrite (H x (or_introl eq_refl)). apply IH. intros y Hy. apply H. now right.
Qed.

(** A chunk with none of the configured headers comes out of the
    transform step with the two metadata columns only. *)
Lemma transform_of_mismatch (df : raw_frame) :
  (forall n, In n (originals config) -> ~ In n (names df)) ->
  transform DATA_CLEANERS list_of_set now config source_id df
  = {| index := index df;
       columns := [("data_source", constant ObjectDtype (Str source_id) (index df));
                   ("processed_at", constant Datetime64 (Timestamp now) (index df))] |}.
Proof.
  intros H. unfold transform, _filter_columns. cbv zeta.
  rewrite filter_none, list_of_set_nil.
  - unfold _remove_null_bytes, no_columns, empty. simpl.
    rewrite orb_true_r. unfold _transform_columns, empty. simpl.
    rewrite orb_true_r. reflexivity.
  - intros n Hn. apply not_mem_In. now apply H.
Qed.

End Mismatch.

(** X23. A chunk none of whose headers is an original header of the
    config is not an error: the transform step returns the two metadata
    columns alone, and the normalized table has, for every canonical name
    that is no metadata name, the all-null column of its type, with one
    null for each row of the chunk.  The values of the chunk are lost
    without an exception. *)
Theorem header_mismatch_gives_null_columns
    (DATA_CLEANERS : string -> option Transformer.cleaner)
    (list_of_set : list string -> list string)
    (now now_at_conformance : Z)
    (config : Transformer.column_config) (source_id : string)
    (convert : Transformer.arrow_type -> Transformer.column
               -> option Transformer.column)
    (df : Transformer.raw_frame) :
  (forall l x, In x (list_of_set l) <-> In x l) ->
  (forall n, In n (Transformer.originals config) -> ~ In n (Transformer.names df)) ->
  Transformer.names
    (Transformer.transform DATA_CLEANERS list_of_set now config source_id df)
  = ["data_source"; "processed_at"] /\
  (forall entry,
     In entry config ->
     Transformer.is_metadata (Inference.map_to (snd entry)) = false ->
     exists spec,
       In spec (map snd config) /\
       Inference.map_to spec = Inference.map_to (snd entry) /\
       Transformer.get_column (Inference.map_to (snd entry))
         (Transformer.normalized DATA_CLEANERS list_of_set now now_at_conformance
            config source_id convert df)
       = Some (Transformer.null_column
                 (Transformer.arrow_of_py_type (Inference.py_type spec))
                 (Transformer.index df))).
Proof.
  intros Hset Hmis.
  pose proof (transform_of_mismatch DATA_CLEANERS list_of_set now config source_id
                Hset df Hmis) as Ht.
  split; [rewrite Ht; reflexivity|].
  intros entry He Hm.
  set (n := Inference.map_to (snd entry)) in *.
  set (schema := Transformer.create_target_schema config).
  set (cleaned := Transformer.transform DATA_CLEANERS list_of_set now config
                    source_id df) in *.
  set (current := Transformer.names cleaned).
  assert (Hc : Str.mem n current = false).
  { apply not_mem_In. unfold current. rewrite Ht. simpl.
    unfold Transformer.is_metadata in Hm. apply orb_false_iff in Hm.
    destruct Hm as [H1 H2]. apply String.eqb_neq in H1, H2.
    intros [E|[E|[]]]; congruence. }
  assert (Hfield : exists t, In (n, t) schema).
  { exists (Transformer.arrow_of_py_type (Inference.py_type (snd entry))).
    unfold schema, Transformer.create_target_schema. apply in_or_app. left.
    apply in_map_iff. now exists entry. }
  assert (Hidx : Transformer.index cleaned = Transformer.index df)
    by (rewrite Ht; reflexivity).
  destruct (loop_backfill now_at_conformance source_id convert current schema n
              (Transformer.index df) schema Hm Hc (incl_refl _) cleaned Hidx
              (or_introl Hfield)) as (t & Hin & Hg).
  unfold schema, Transformer.create_target_schema in Hin.
  apply in_app_or in Hin. destruct Hin as [Hin|Hin].
  - apply in_map_iff in Hin. destruct Hin as (entry' & E & He').
    injection E as E1 E2. exists (snd entry'). split; [now apply in_map|].
    split; [exact E1|]. rewrite E2.
    unfold Transformer.normalized, Transformer._ensure_schema_conformance.
    cbv zeta. rewrite get_select; [exact Hg|].
    apply filter_In. split.
    + unfold Transformer.target_column_names, Transformer.create_target_schema.
      rewrite map_app, map_map. apply in_or_app. left.
      apply in_map_iff. exists entry. split; [reflexivity | exact He].
    + apply mem_In. exact (get_column_In _ _ _ Hg).
  - exfalso. destruct Hin as [E|[E|[]]]; injection E as E1 E2;
      rewrite <- E1 in Hm; discriminate Hm.
Qed.

Lemma header_mismatch_gives_null_columns_witness :
  Transformer.get_column "rrn"
    (Transformer.normalized Sample.registry Sample.set_order 1700000000 0
       Sample.bank_config "bank" Sample.no_conversion Sample5.foreign_chunk)
  = Some (Transformer.constant Transformer.StringDtype (Frame.Null Frame.PdNA) 2).
Proof.
  destruct (header_mismatch_gives_null_columns Sample.registry Sample.set_order
              1700000000 0 Sample.bank_config "bank" Sample.no_conversion
              Sample5.foreign_chunk) as [_ H].
  - intros l x. apply nodup_In.
  - intros n Hn Hc. simpl in Hn, Hc.
    destruct Hn as [<-|[<-|[<-|[]]]]; destruct Hc as [E|[E|[]]]; discriminate E.
  - destruct (H (Sample.spec "RRN" "rrn" "string") (or_introl eq_refl) eq_refl)
      as (spec & Hs & Hn & Hg).
    change (Inference.map_to (snd (Sample.spec "RRN" "rrn" "string")))
      with "rrn" in Hg, Hn.
    rewrite Hg. simpl in Hs.
    destruct Hs as [<-|[<-|[<-|[]]]]; try discriminate Hn. reflexivity.
Defined.

Lemma NoDup_app_apart {A : Type} (l1 l2 : list A) (x : A) :
  NoDup (l1 ++ l2) -> In x l1 -> In x l2 -> False.
Proof.
  induction l1 as [|y l1 IH]; intros Hnd H1 H2; [destruct H1|].
  simpl in Hnd. inversion Hnd as [|? ? Hy Hnd']; subst.
  destruct H1 as [->|H1]; [|now apply IH].
  apply Hy. apply in_or_app. now right.
Qed.

Section Conversion.
Import Frame Transformer.

Variable now_at_conformance : Z.
Variable source_id : string.
Variable convert : arrow_type -> column -> option column.
Variable current : list string.

Lemma conform_field_converts (acc : table) (n : string) (t : arrow_type)
    (col : column) :
  is_metadata n = false -> Str.mem n current = true ->
  get_column n acc = Some col ->
  get_column n (conform_field now_at_conformance source_id convert current acc (n, t))
  = Some (converted_column convert t col).
Proof.
  intros Hm Hc Hg. unfold conform_field, converted_column.
  rewrite Hm, Hc, Hg. simpl negb. cbv iota.
  destruct (needs_conversion t (dtype_of col)); [|exact Hg].
  destruct (convert t col); [apply get_assign_same | exact Hg].
Qed.

Lemma loop_without (n : string) (fields : list (string * arrow_type)) :
  ~ In n (map fst fields) ->
  forall acc,
    get_column n (fold_left (conform_field now_at_conformance source_id convert
                               current) fields acc)
    = get_column n acc.
Proof.
  induction fields as [|f fields IH]; intros Hn acc; [reflexivity|].
  cbn [fold_left]. rewrite IH by (intros H; apply Hn; now right).
  apply conform_field_other. intros E. apply Hn. now left.
Qed.

Lemma loop_converts (n : string) (t : arrow_type) (col : column)
    (fields : list (string * arrow_type)) :
  is_metadata n = false -> Str.mem n current = true ->
  NoDup (map fst fields) -> In (n, t) fields ->
  forall acc,
    get_column n acc = Some col ->
    get_column n (fold_left (conform_field now_at_conformance source_id convert
                               current) fields acc)
    = Some (converted_column convert t col).
Proof.
  intros Hm Hc. induction fields as [|[m t'] fields IH]; intros Hnd Hin acc Hg;
    [destruct Hin|].
  simpl in Hnd. inversion Hnd as [|? ? Hx Hnd']; subst. cbn [fold_left].
  destruct Hin as [E|Hin].
  - injection E as -> ->. rewrite loop_without by exact Hx.
    now apply conform_field_converts.
  - apply IH; [exact Hnd' | exact Hin|].
    rewrite conform_field_other; [exact Hg|].
    simpl. intros ->. apply Hx.
    exact (in_map fst fields (n, t) Hin).
Qed.

End Conversion.

Lemma normalized_existing_column
    (DATA_CLEANERS : string -> option Transformer.cleaner)
    (list_of_set : list string -> list string)
    (now now_at_conformance : Z)
    (config : Transformer.column_config) (source_id : string)
    (convert : Transformer.arrow_type -> Transformer.column
               -> option Transformer.column)
    (df : Transformer.raw_frame) (entry : string * Transformer.col_spec)
    (col : Transformer.column) :
  NoDup (Transformer.target_column_names config) ->
  In entry config ->
  Transformer.get_column (Inference.map_to (snd entry))
    (Transformer.transform DATA_CLEANERS list_of_set now config source_id df)
  = Some col ->
  let t := Transformer.arrow_of_py_type (Inference.py_type (snd entry)) in
  Transformer.get_column (Inference.map_to (snd entry))
    (Transformer.normalized DATA_CLEANERS list_of_set now now_at_conformance
       config source_id convert df)
  = Some (if Transformer.needs_conversion t (Transformer.dtype_of col)
          then match convert t col with
               | Some col' => col'
               | None => col
               end
          else col).
Proof.
  intros Hnd He Hg t.
  set (n := Inference.map_to (snd entry)) in *.
  set (cleaned := Transformer.transform DATA_CLEANERS list_of_set now config
                    source_id df) in *.
  assert (Hnames : Transformer.target_column_names config
                   = (map (fun e => Inference.map_to (snd e)) config
                      ++ ["data_source"; "processed_at"])%list).
  { unfold Transformer.target_column_names, Transformer.create_target_schema.
    rewrite map_app, map_map. reflexivity. }
  assert (Hn : In n (map (fun e => Inference.map_to (snd e)) config))
    by (apply in_map_iff; now exists entry).
  assert (Hm : Transformer.is_metadata n = false).
  { rewrite Hnames in Hnd. unfold Transformer.is_metadata.
    apply orb_false_iff. split; apply String.eqb_neq; intros E;
      apply (NoDup_app_apart _ _ n Hnd Hn); rewrite E; simpl; tauto. }
  assert (Hc : Str.mem n (Transformer.names cleaned) = true)
    by (apply mem_In; exact (get_column_In _ _ _ Hg)).
  assert (Hfield : In (n, t) (Transformer.create_target_schema config)).
  { unfold Transformer.create_target_schema. apply in_or_app. left.
    apply in_map_iff. now exists entry. }
  pose proof (loop_converts now_at_conformance source_id convert
                (Transformer.names cleaned) n t col
                (Transformer.create_target_schema config) Hm Hc Hnd Hfield
                cleaned Hg) as HR.
  unfold Transformer.normalized, Transformer._ensure_schema_conformance.
  cbv zeta. rewrite get_select; [exact HR|].
  apply filter_In. split.
  - rewrite Hnames. apply in_or_app. now left.
  - apply mem_In. exact (get_column_In _ _ _ HR).
Qed.


(** X24. Schema conformance never drops and never nulls a column that
    the cleaned table has.  With distinct canonical names, none of them a
    metadata name, a canonical column of the cleaned table comes out as it
    is when its dtype is the one of its field (always so for a time
    field), as the converted column when the conversion succeeds, and
    as it is, under the dtype it has, when the conversion raises. *)
Theorem conformance_converts_or_keeps
    (DATA_CLEANERS : string -> option Transformer.cleaner)
    (list_of_set : list string -> list string)
    (now now_at_conformance : Z)
    (config : Transformer.column_config) (source_id : string)
    (convert : Transformer.arrow_type -> Transformer.column
               -> option Transformer.column)
    (df : Transformer.raw_frame) (entry : string * Transformer.col_spec)
    (col : Transformer.column) :
  NoDup (Transformer.target_column_names config) ->
  In entry config ->
  Transformer.get_column (Inference.map_to (snd entry))
    (Transformer.transform DATA_CLEANERS list_of_set now config source_id df)
  = Some col ->
  let t := Transformer.arrow_of_py_type (Inference.py_type (snd entry)) in
  Transformer.get_column (Inference.map_to (snd entry))
    (Transformer.normalized DATA_CLEANERS list_of_set now now_at_conformance
       config source_id convert df)
  = Some (if Transformer.needs_conversion t (Transformer.dtype_of col)
          then match convert t col with
               | Some col' => col'
               | None => col
               end
          else col).
Proof. apply normalized_existing_column. Qed.

Lemma conformance_converts_or_keeps_witness :
  Transformer.get_column "rrn"
    (Transformer.normalized Sample.registry Sample.set_order 1700000000 0
       Sample.bank_config "bank" Sample5.to_string_dtype Sample.chunk)
  = Some {| Transformer.dtype_of := Transformer.StringDtype;
            Transformer.cells := [Frame.Str "412345678901"; Frame.Str "nan"] |}.
Proof.
  apply (conformance_converts_or_keeps Sample.registry Sample.set_order
           1700000000 0 Sample.bank_config "bank" Sample5.to_string_dtype
           Sample.chunk (Sample.spec "RRN" "rrn" "string")
           {| Transformer.dtype_of := Transformer.ObjectDtype;
              Transformer.cells := [Frame.Str "412345678901"; Frame.Str "nan"] |}).
  - simpl. repeat (constructor; [simpl; intuition discriminate|]). constructor.
  - now left.
  - reflexivity.
Defined.

(** ** The duplicate flags *)

Section DuplicateFacts.
Import Frame Transformer Duplicates.

Lemma same_value_sym (a b : value) : same_value a b = same_value b a.
Proof.
  destruct a as [k|s|x|[x|s]|x|x|x], b as [k'|t|y|[y|t]|y|y|y]; simpl;
    try reflexivity;
    try apply String.eqb_sym; try apply Z.eqb_sym.
  destruct x, y; reflexivity.
Qed.

Lemma agree_sym (df : table) (cols : list string) (i j : nat) :
  agree df cols i j = agree df cols j i.
Proof.
  unfold agree. induction cols as [|c cols IH]; [reflexivity|]. simpl.
  rewrite IH. f_equal.
  destruct (at_row df c i), (at_row df c j); try reflexivity.
  apply same_value_sym.
Qed.

Lemma seq_nth_error (n : nat) :
  forall s i, i < n -> nth_error (seq s n) i = Some (s + i).
Proof.
  induction n as [|n IH]; intros s i Hi; [lia|].
  destruct i as [|i]; simpl; [f_equal; lia|].
  rewrite IH by lia. f_equal. lia.
Qed.

Lemma duplicated_length (df : table) (cols : list string) :
  List.length (duplicated df cols) = index df.
Proof. unfold duplicated. now rewrite length_map, length_seq. Qed.

Lemma duplicated_nth (df : table) (cols : list string) (i : nat) :
  nth_error (duplicated df cols) i = Some true <->
  i < index df /\
  exists j, j < index df /\ j <> i /\ agree df cols i j = true.
Proof.
  unfold duplicated. split.
  - intros H.
    assert (Hi : i < index df).
    { assert (Hs : nth_error
                     (map (fun i => existsb
                                      (fun j => negb (Nat.eqb i j) && agree df cols i j)
                                      (seq 0 (index df)))
                          (seq 0 (index df))) i <> None) by congruence.
      apply nth_error_Some in Hs. now rewrite length_map, length_seq in Hs. }
    split; [exact Hi|].
    rewrite (map_nth_error _ i (seq 0 (index df)) (seq_nth_error _ 0 i Hi)) in H.
    cbn [Nat.add] in H. injection H as H. apply existsb_exists in H.
    destruct H as (j & Hj & Hc). apply in_seq in Hj.
    apply andb_true_iff in Hc. destruct Hc as [Hne Ha].
    exists j. split; [lia|]. split; [|exact Ha].
    apply negb_true_iff in Hne. apply Nat.eqb_neq in Hne. congruence.
  - intros (Hi & j & Hj & Hne & Ha).
    rewrite (map_nth_error _ i (seq 0 (index df)) (seq_nth_error _ 0 i Hi)).
    cbn [Nat.add]. f_equal. apply existsb_exists. exists j. split; [apply in_seq; lia|].
    apply andb_true_iff. split; [|exact Ha].
    apply negb_true_iff. apply Nat.eqb_neq. congruence.
Qed.

(** The rows that are marked are marked with a partner. *)
Lemma duplicated_partner (df : table) (cols : list string) (i : nat) :
  nth_error (duplicated df cols) i = Some true ->
  exists j, j <> i /\ nth_error (duplicated df cols) j = Some true /\
            agree df cols i j = true.
Proof.
  intros H. apply duplicated_nth in H. destruct H as (Hi & j & Hj & Hne & Ha).
  exists j. split; [exact Hne|]. split; [|exact Ha].
  apply duplicated_nth. split; [exact Hj|].
  exists i. split; [exact Hi|]. split; [congruence|].
  now rewrite agree_sym.
Qed.

End DuplicateFacts.

(** X25. For a source with key columns the duplicate detection never
    raises and flags whole groups: it returns one flag for every row, and
    a row is never flagged alone, since with [keep=False] every flagged
    row has another flagged row that agrees with it on the columns used.
    If a key column is missing and fewer than two of the listed ones are
    there, no row is flagged at all. *)
Theorem duplicate_flags_come_in_groups
    (duplicated_without_columns : Transformer.table -> option (list bool))
    (df : Transformer.table) (source : string) :
  Duplicates.key_columns source <> [] ->
  exists flags,
    Duplicates.detect_duplicates duplicated_without_columns df source = Some flags /\
    List.length flags = Transformer.index df /\
    (forall i, nth_error flags i = Some true ->
               exists j, j <> i /\ nth_error flags j = Some true) /\
    ((exists c, In c (Duplicates.key_columns source) /\
                ~ In c (Transformer.names df)) ->
     List.length (filter (fun c => Str.mem c (Transformer.names df))
                         (Duplicates.key_columns source)) < 2 ->
     flags = repeat false (Transformer.index df)).
Proof.
  intros Hcols. unfold Duplicates.detect_duplicates. cbv zeta.
  destruct (Duplicates.key_columns source) as [|c0 cols] eqn:Ek; [congruence|].
  destruct (filter (fun c => negb (Str.mem c (Transformer.names df))) (c0 :: cols))
    as [|m ms] eqn:Em.
  - eexists. split; [reflexivity|]. split; [apply duplicated_length|]. split.
    + intros i Hi. destruct (duplicated_partner _ _ _ Hi) as (j & H1 & H2 & _).
      eauto.
    + intros (c & Hc & Hmiss) _. exfalso.
      assert (Hin : In c (filter (fun c => negb (Str.mem c (Transformer.names df)))
                                 (c0 :: cols))).
      { apply filter_In. split; [exact Hc|].
        apply negb_true_iff. now apply not_mem_In. }
      rewrite Em in Hin. destruct Hin.
  - destruct (2 <=? List.length
                      (filter (fun c => Str.mem c (Transformer.names df))
                              (c0 :: cols)))%nat
      eqn:E2.
    + eexists. split; [reflexivity|]. split; [apply duplicated_length|]. split.
      * intros i Hi. destruct (duplicated_partner _ _ _ Hi) as (j & H1 & H2 & _).
        eauto.
      * intros _ Hlt. apply Nat.leb_le in E2. lia.
    + eexists. split; [reflexivity|]. split; [apply repeat_length|]. split.
      * intros i Hi. exfalso. apply nth_error_In in Hi.
        apply repeat_spec in Hi. discriminate.
      * reflexivity.
Qed.

Lemma duplicate_flags_come_in_groups_witness :
  Duplicates.detect_duplicates Sample6.no_answer Sample6.bank_rows "bank"
  = Some [true; false; true].
Proof.
  destruct (duplicate_flags_come_in_groups Sample6.no_answer Sample6.bank_rows
              "bank") as (flags & Hf & _).
  - discriminate.
  - rewrite Hf. vm_compute in Hf. symmetry. exact Hf.
Defined.
